(** * osgEarth VersionedTerrain: the tile request lifecycle

    A shallow embedding of [VersionedTile], [VersionedTerrain] and the request
    and progress-callback types of osgEarth's VersionedTerrain.cpp, followed by
    the properties of the request lifecycle that are proved about them.

    Conventions of the embedding.
    - C++ [int] counters (stamps, revisions) are integers of [Z]; signed
      overflow is undefined behaviour in C++, so the model describes the
      executions that stay inside the range of [int].
    - An [unsigned int] (the thread count of a terrain) is an integer of
      [Z] below 2^32; a value converted to it is taken modulo 2^32.
    - Container positions and loop counters that start at 0 are [nat].
    - [float] and [double] values are [spec_float] values, rounded by the
      IEEE-754 operations of [SpecFloat] at precision 24 and 53.
    - A null pointer is [None]; dereferencing it makes the operation return
      [None] as a whole.
    - Calls into collaborators whose body is outside this file
      (TaskService::add, EarthTerrainTechnique::updateContent) are recorded
      as a list of [Event]s returned next to the new state. *)

From Stdlib Require Import ZArith List Bool Lia FinFun.
From Stdlib Require Import Floats.SpecFloat.
From Equations Require Import Equations.
From Equations.Prop Require Import Logic.
Import ListNotations.

Open Scope Z_scope.

(* ------------------------------------------------------------------ *)
(** ** Floating point: [float] is binary32, [double] is binary64       *)
(* ------------------------------------------------------------------ *)

Module Float.

Definition prec32 : Z := 24.
Definition emax32 : Z := 128.
Definition prec64 : Z := 53.
Definition emax64 : Z := 1024.

(** [(float) z] for an integer [z]. *)
Definition of_int (z : Z) : spec_float :=
  binary_normalize prec32 emax32 z 0 false.

(** The implicit promotion of a [float] operand to [double]. *)
Definition to_double (x : spec_float) : spec_float :=
  match x with
  | S754_finite s m e => binary_normalize prec64 emax64 (cond_Zopp s (Zpos m)) e s
  | _ => x
  end.

(** The conversion of a [double] argument to a [float] parameter. *)
Definition to_float (x : spec_float) : spec_float :=
  match x with
  | S754_finite s m e => binary_normalize prec32 emax32 (cond_Zopp s (Zpos m)) e s
  | _ => x
  end.

(** The [double] literal [0.1], that is 0x3FB999999999999A. *)
Definition double_0_1 : spec_float := S754_finite false 7205759403792794 (-56).

Definition add64 : spec_float -> spec_float -> spec_float := SFadd prec64 emax64.
Definition mul64 : spec_float -> spec_float -> spec_float := SFmul prec64 emax64.

(** [exactly x num den]: the number [x] is the rational [num / den]
    ([den] positive). A finite [x] is its mantissa times 2 to its
    exponent; both sides are scaled to integers. *)
Definition exactly (x : spec_float) (num den : Z) : bool :=
  match x with
  | S754_zero _ => num =? 0
  | S754_finite s m e =>
      let k := Z.max 0 (- e) in
      den * cond_Zopp s (Zpos m) * 2 ^ (e + k) =? num * 2 ^ k
  | _ => false
  end.

(** [nearest32 x num den]: [x] is a binary32 number (a mantissa of 24
    bits) that lies within half a unit in the last place of the
    rational [num / den]. *)
Definition nearest32 (x : spec_float) (num den : Z) : bool :=
  match x with
  | S754_zero _ => num =? 0
  | S754_finite s m e =>
      let k := Z.max 0 (- e) in
      (2 ^ 23 <=? Zpos m) && (Zpos m <? 2 ^ 24) &&
      (2 * Z.abs (den * cond_Zopp s (Zpos m) * 2 ^ (e + k) - num * 2 ^ k)
       <=? den * 2 ^ (e + k))
  | _ => false
  end.

End Float.

(* ------------------------------------------------------------------ *)
(** ** Progress callback                                               *)
(* ------------------------------------------------------------------ *)

(** [TileRequestProgressCallback]. [_canceled] is the flag inherited from
    [ProgressCallback]; [_service] is the pointer to the task service, an
    index into the store of constructed services. The [_request] pointer
    leads back to the request that owns the callback. *)
Record ProgressCallback := mkProgressCallback {
  _canceled : bool;
  _service : nat
}.

(** Modelled from the spec: the constructor of the base class
    [ProgressCallback], which is declared outside this file; a monitor
    starts out not cancelled. *)
Definition TileRequestProgressCallback (service : nat) : ProgressCallback :=
  {| _canceled := false; _service := service |}.

(** [reportProgress]: [serviceStamp] is what [_service->getStamp()] returns
    at the time of the call and [requestStamp] what [_request->getStamp()]
    returns. The arguments [current] and [total] are not used by the body. *)
Definition reportProgress (serviceStamp requestStamp : Z) (p : ProgressCallback)
  : bool * ProgressCallback :=
  if _canceled p then (_canceled p, p)
  else
    let c := 2 <? serviceStamp - requestStamp in
    (c, {| _canceled := c; _service := _service p |}).

(** A monitor polled repeatedly; each poll comes with the two stamps read at
    that moment. The results are returned in order. *)
Fixpoint pollAll (polls : list (Z * Z)) (p : ProgressCallback) : list bool :=
  match polls with
  | [] => []
  | (serviceStamp, requestStamp) :: rest =>
      let '(c, p') := reportProgress serviceStamp requestStamp p in
      c :: pollAll rest p'
  end.

(* ------------------------------------------------------------------ *)
(** ** Requests                                                        *)
(* ------------------------------------------------------------------ *)

(** An [osgTerrain::Layer] object, by its handle. *)
Definition Layer := nat.

(** Modelled from the spec: [TaskRequest::State], declared outside this
    file. The spec names the lifecycle Idle, InProgress, Completed and
    Canceled; [isIdle], [isCompleted] and [isCanceled] test the state. *)
Inductive State :=
| STATE_IDLE
| STATE_IN_PROGRESS
| STATE_COMPLETED
| STATE_CANCELED.

(** The two concrete request classes. *)
Inductive RequestKind :=
| TileElevationLayerRequest
| TileColorLayerRequest (_layerIndex : nat).

Record TaskRequest := mkTaskRequest {
  _kind : RequestKind;
  _priority : spec_float;
  _stamp : Z;
  _state : State;
  _progress : ProgressCallback;
  _result : option Layer
}.

Definition State_eqb (a b : State) : bool :=
  match a, b with
  | STATE_IDLE, STATE_IDLE => true
  | STATE_IN_PROGRESS, STATE_IN_PROGRESS => true
  | STATE_COMPLETED, STATE_COMPLETED => true
  | STATE_CANCELED, STATE_CANCELED => true
  | _, _ => false
  end.

Definition isIdle (r : TaskRequest) : bool := State_eqb (_state r) STATE_IDLE.
Definition isCompleted (r : TaskRequest) : bool := State_eqb (_state r) STATE_COMPLETED.
Definition isCanceled (r : TaskRequest) : bool := State_eqb (_state r) STATE_CANCELED.

Definition isElevLayerRequest (r : TaskRequest) : bool :=
  match _kind r with
  | TileElevationLayerRequest => true
  | TileColorLayerRequest _ => false
  end.

Definition isColorLayerRequest (r : TaskRequest) : bool :=
  match _kind r with
  | TileElevationLayerRequest => false
  | TileColorLayerRequest _ => true
  end.

Definition setStamp (stamp : Z) (r : TaskRequest) : TaskRequest :=
  {| _kind := _kind r; _priority := _priority r; _stamp := stamp;
     _state := _state r; _progress := _progress r; _result := _result r |}.

Definition setState (s : State) (r : TaskRequest) : TaskRequest :=
  {| _kind := _kind r; _priority := _priority r; _stamp := _stamp r;
     _state := s; _progress := _progress r; _result := _result r |}.

Definition setProgressCallback (p : ProgressCallback) (r : TaskRequest) : TaskRequest :=
  {| _kind := _kind r; _priority := _priority r; _stamp := _stamp r;
     _state := _state r; _progress := p; _result := _result r |}.

(** Modelled from the spec: the constructor of [TaskRequest], declared
    outside this file; a new request is Idle and has no result. The
    priority, the stamp and the callback are the ones the three setters
    called right after the construction install. *)
Definition newRequest (k : RequestKind) (priority : spec_float) (stamp : Z)
    (p : ProgressCallback) : TaskRequest :=
  {| _kind := k; _priority := priority; _stamp := stamp;
     _state := STATE_IDLE; _progress := p; _result := None |}.

(* ------------------------------------------------------------------ *)
(** ** Task service and terrain                                        *)
(* ------------------------------------------------------------------ *)

(** Modelled from the spec: [TaskService], declared outside this file; it
    is constructed with a worker-thread count and carries the current
    stamp. Its queue is seen through the [Add] events. *)
Record TaskService := mkTaskService {
  ts_numThreads : Z;
  ts_stamp : Z
}.

Definition new_TaskService (numThreads : Z) : TaskService :=
  {| ts_numThreads := numThreads; ts_stamp := 0 |}.

(** A [TileLayerFactory] object, by its handle. *)
Definition TileLayerFactory := nat.

Record VersionedTerrain := mkVersionedTerrain {
  _layerFactory : option TileLayerFactory;
  _revision : Z;
  _numTaskServiceThreads : Z;
  _taskService : option nat
}.

(** The conversion of an integer to [unsigned int], the type of
    [_numTaskServiceThreads]: the value modulo 2^32. *)
Definition to_unsigned (z : Z) : Z := z mod 2 ^ 32.

(** [VersionedTerrain::VersionedTerrain]; [env] is the value of the
    environment variable OSGEARTH_NUM_TASK_SERVICE_THREADS after [atoi],
    an [int], which the assignment converts to [unsigned int]. *)
Definition VersionedTerrain_new (factory : option TileLayerFactory) (env : option Z)
  : VersionedTerrain :=
  {| _layerFactory := factory;
     _revision := 0;
     _numTaskServiceThreads :=
       match env with Some n => to_unsigned n | None => 8 end;
     _taskService := None |}.

Definition incrementRevision (terr : VersionedTerrain) : VersionedTerrain :=
  {| _layerFactory := _layerFactory terr;
     _revision := _revision terr + 1;
     _numTaskServiceThreads := _numTaskServiceThreads terr;
     _taskService := _taskService terr |}.

Definition getRevision (terr : VersionedTerrain) : Z := _revision terr.

Definition getTileLayerFactory (terr : VersionedTerrain) : option TileLayerFactory :=
  _layerFactory terr.

Definition set_taskService (p : nat) (terr : VersionedTerrain) : VersionedTerrain :=
  {| _layerFactory := _layerFactory terr;
     _revision := _revision terr;
     _numTaskServiceThreads := _numTaskServiceThreads terr;
     _taskService := Some p |}.

(** The store of the [TaskService] objects constructed so far; the object
    constructed by the n-th [new TaskService] sits at position n, which
    is its address. *)
Definition Services := list TaskService.

(** [VersionedTerrain::getOrCreateTaskService]. The outer test runs
    without the lock and the inner one with it; one thread at a time sees
    the same answer from both. *)
Definition getOrCreateTaskService (terr : VersionedTerrain) (h : Services)
  : nat * VersionedTerrain * Services :=
  match _taskService terr with
  | Some p => (p, terr, h)
  | None =>
      (* ScopedLock<Mutex> lock( _taskServiceMutex ); double-check *)
      match _taskService terr with
      | Some p => (p, terr, h)
      | None =>
          let p := length h in
          (p, set_taskService p terr,
           h ++ [new_TaskService (_numTaskServiceThreads terr)])
      end
  end.

Definition set_revision (revision : Z) (terr : VersionedTerrain) : VersionedTerrain :=
  {| _layerFactory := _layerFactory terr;
     _revision := revision;
     _numTaskServiceThreads := _numTaskServiceThreads terr;
     _taskService := _taskService terr |}.

(** [VersionedTerrain::setNumTaskServiceThreads]; the parameter is an
    [unsigned int], so what the caller passes arrives converted. *)
Definition setNumTaskServiceThreads (n : Z) (terr : VersionedTerrain) : VersionedTerrain :=
  {| _layerFactory := _layerFactory terr;
     _revision := _revision terr;
     _numTaskServiceThreads := to_unsigned n;
     _taskService := _taskService terr |}.

(** The calls a terrain receives over its lifetime that touch the fields
    above. *)
Inductive TerrainCall :=
| CallIncrementRevision
| CallSetNumTaskServiceThreads (n : Z)
| CallGetOrCreateTaskService.

(** A sequence of calls on one terrain: the addresses that the calls of
    [getOrCreateTaskService] return, in order, the terrain and the store
    after the last call. *)
Fixpoint runTerrain (calls : list TerrainCall) (terr : VersionedTerrain) (h : Services)
  : list nat * VersionedTerrain * Services :=
  match calls with
  | [] => ([], terr, h)
  | CallIncrementRevision :: rest => runTerrain rest (incrementRevision terr) h
  | CallSetNumTaskServiceThreads n :: rest =>
      runTerrain rest (setNumTaskServiceThreads n terr) h
  | CallGetOrCreateTaskService :: rest =>
      let '(p, terr1, h1) := getOrCreateTaskService terr h in
      let '(ps, terr2, h2) := runTerrain rest terr1 h1 in
      (p :: ps, terr2, h2)
  end.

(* ------------------------------------------------------------------ *)
(** ** Tiles                                                           *)
(* ------------------------------------------------------------------ *)

(** The part of [osgTerrain::TerrainTile], the base class, that the tile
    code reads and writes: the dirty flag and the layers. *)
Record TerrainTile := mkTerrainTile {
  _dirty : bool;
  _elevationLayer : option Layer;
  _colorLayers : list (option Layer)
}.

Definition getDirty (b : TerrainTile) : bool := _dirty b.

Definition setDirty (d : bool) (b : TerrainTile) : TerrainTile :=
  {| _dirty := d; _elevationLayer := _elevationLayer b;
     _colorLayers := _colorLayers b |}.

Definition getElevationLayer (b : TerrainTile) : option Layer := _elevationLayer b.

Definition setElevationLayer (l : option Layer) (b : TerrainTile) : TerrainTile :=
  {| _dirty := _dirty b; _elevationLayer := l; _colorLayers := _colorLayers b |}.

Definition getNumColorLayers (b : TerrainTile) : nat := length (_colorLayers b).

(** Writing position [i] of a vector that has been resized to hold it. *)
Fixpoint vector_set {A : Type} (i : nat) (x : option A) (v : list (option A))
  : list (option A) :=
  match i, v with
  | O, [] => [x]
  | O, _ :: v' => x :: v'
  | S i', [] => None :: vector_set i' x []
  | S i', y :: v' => y :: vector_set i' x v'
  end.

(** [osgTerrain::TerrainTile::setColorLayer]: the vector grows to
    [i + 1] entries when it is shorter. *)
Definition setColorLayer (i : nat) (l : option Layer) (b : TerrainTile) : TerrainTile :=
  {| _dirty := _dirty b; _elevationLayer := _elevationLayer b;
     _colorLayers := vector_set i l (_colorLayers b) |}.

(** [TileKey], by its level of detail (an [unsigned int]). *)
Record TileKey := mkTileKey {
  getLevelOfDetail : Z
}.

Record VersionedTile := mkVersionedTile {
  base : TerrainTile;
  _key : TileKey;
  _useLayerRequests : bool;
  _terrainRevision : Z;
  _tileRevision : Z;
  _geometryRevision : Z;
  _requestsInstalled : bool;
  _requestElevation : bool;
  _requests : list TaskRequest;
  _elevationLayerDirty : bool;
  _colorLayersDirty : bool;
  _usePerLayerUpdates : bool
}.

(** [VersionedTile::VersionedTile]. [_requestElevation] is not in the
    initialiser list, so the value it starts with is a parameter here.
    The base-class constructor gives a clean tile without layers. *)
Definition VersionedTile_new (key : TileKey) (requestElevation : bool) : VersionedTile :=
  {| base := {| _dirty := false; _elevationLayer := None; _colorLayers := [] |};
     _key := key;
     _useLayerRequests := false;
     _terrainRevision := -1;
     _tileRevision := 0;
     _geometryRevision := 0;
     _requestsInstalled := false;
     _requestElevation := requestElevation;
     _requests := [];
     _elevationLayerDirty := false;
     _colorLayersDirty := false;
     _usePerLayerUpdates := false |}.

Definition set_base (b : TerrainTile) (t : VersionedTile) : VersionedTile :=
  {| base := b; _key := _key t; _useLayerRequests := _useLayerRequests t;
     _terrainRevision := _terrainRevision t; _tileRevision := _tileRevision t;
     _geometryRevision := _geometryRevision t;
     _requestsInstalled := _requestsInstalled t;
     _requestElevation := _requestElevation t; _requests := _requests t;
     _elevationLayerDirty := _elevationLayerDirty t;
     _colorLayersDirty := _colorLayersDirty t;
     _usePerLayerUpdates := _usePerLayerUpdates t |}.

Definition set_requests (rs : list TaskRequest) (t : VersionedTile) : VersionedTile :=
  {| base := base t; _key := _key t; _useLayerRequests := _useLayerRequests t;
     _terrainRevision := _terrainRevision t; _tileRevision := _tileRevision t;
     _geometryRevision := _geometryRevision t;
     _requestsInstalled := _requestsInstalled t;
     _requestElevation := _requestElevation t; _requests := rs;
     _elevationLayerDirty := _elevationLayerDirty t;
     _colorLayersDirty := _colorLayersDirty t;
     _usePerLayerUpdates := _usePerLayerUpdates t |}.

Definition set_requestsInstalled (v : bool) (t : VersionedTile) : VersionedTile :=
  {| base := base t; _key := _key t; _useLayerRequests := _useLayerRequests t;
     _terrainRevision := _terrainRevision t; _tileRevision := _tileRevision t;
     _geometryRevision := _geometryRevision t;
     _requestsInstalled := v;
     _requestElevation := _requestElevation t; _requests := _requests t;
     _elevationLayerDirty := _elevationLayerDirty t;
     _colorLayersDirty := _colorLayersDirty t;
     _usePerLayerUpdates := _usePerLayerUpdates t |}.

Definition set_elevationLayerDirty (v : bool) (t : VersionedTile) : VersionedTile :=
  {| base := base t; _key := _key t; _useLayerRequests := _useLayerRequests t;
     _terrainRevision := _terrainRevision t; _tileRevision := _tileRevision t;
     _geometryRevision := _geometryRevision t;
     _requestsInstalled := _requestsInstalled t;
     _requestElevation := _requestElevation t; _requests := _requests t;
     _elevationLayerDirty := v;
     _colorLayersDirty := _colorLayersDirty t;
     _usePerLayerUpdates := _usePerLayerUpdates t |}.

Definition set_colorLayersDirty (v : bool) (t : VersionedTile) : VersionedTile :=
  {| base := base t; _key := _key t; _useLayerRequests := _useLayerRequests t;
     _terrainRevision := _terrainRevision t; _tileRevision := _tileRevision t;
     _geometryRevision := _geometryRevision t;
     _requestsInstalled := _requestsInstalled t;
     _requestElevation := _requestElevation t; _requests := _requests t;
     _elevationLayerDirty := _elevationLayerDirty t;
     _colorLayersDirty := v;
     _usePerLayerUpdates := _usePerLayerUpdates t |}.

Definition set_geometryRevision (v : Z) (t : VersionedTile) : VersionedTile :=
  {| base := base t; _key := _key t; _useLayerRequests := _useLayerRequests t;
     _terrainRevision := _terrainRevision t; _tileRevision := _tileRevision t;
     _geometryRevision := v;
     _requestsInstalled := _requestsInstalled t;
     _requestElevation := _requestElevation t; _requests := _requests t;
     _elevationLayerDirty := _elevationLayerDirty t;
     _colorLayersDirty := _colorLayersDirty t;
     _usePerLayerUpdates := _usePerLayerUpdates t |}.

Definition setUseLayerRequests (v : bool) (t : VersionedTile) : VersionedTile :=
  {| base := base t; _key := _key t; _useLayerRequests := v;
     _terrainRevision := _terrainRevision t; _tileRevision := _tileRevision t;
     _geometryRevision := _geometryRevision t;
     _requestsInstalled := _requestsInstalled t;
     _requestElevation := _requestElevation t; _requests := _requests t;
     _elevationLayerDirty := _elevationLayerDirty t;
     _colorLayersDirty := _colorLayersDirty t;
     _usePerLayerUpdates := _usePerLayerUpdates t |}.

Definition getTerrainRevision (t : VersionedTile) : Z := _terrainRevision t.

Definition setTerrainRevision (revision : Z) (t : VersionedTile) : VersionedTile :=
  {| base := base t; _key := _key t; _useLayerRequests := _useLayerRequests t;
     _terrainRevision := revision; _tileRevision := _tileRevision t;
     _geometryRevision := _geometryRevision t;
     _requestsInstalled := _requestsInstalled t;
     _requestElevation := _requestElevation t; _requests := _requests t;
     _elevationLayerDirty := _elevationLayerDirty t;
     _colorLayersDirty := _colorLayersDirty t;
     _usePerLayerUpdates := _usePerLayerUpdates t |}.

Definition setHasElevationHint (hint : bool) (t : VersionedTile) : VersionedTile :=
  {| base := base t; _key := _key t; _useLayerRequests := _useLayerRequests t;
     _terrainRevision := _terrainRevision t; _tileRevision := _tileRevision t;
     _geometryRevision := _geometryRevision t;
     _requestsInstalled := _requestsInstalled t;
     _requestElevation := hint; _requests := _requests t;
     _elevationLayerDirty := _elevationLayerDirty t;
     _colorLayersDirty := _colorLayersDirty t;
     _usePerLayerUpdates := _usePerLayerUpdates t |}.

(** The tile together with what its pointers lead to: the terrain
    [getTerrain()] returns, null for a tile that is attached to none, and
    the store of task services. *)
Record World := mkWorld {
  tile : VersionedTile;
  terrain : option VersionedTerrain;
  services : Services
}.

Definition set_tile (t : VersionedTile) (w : World) : World :=
  {| tile := t; terrain := terrain w; services := services w |}.

(** [VersionedTile::isInSyncWithTerrain]; the terrain is dereferenced
    without a test. *)
Definition isInSyncWithTerrain (w : World) : option bool :=
  match terrain w with
  | Some terr => Some (_terrainRevision (tile w) =? getRevision terr)
  | None => None
  end.

(** [versionedTerrain->getOrCreateTaskService()] on the tile's terrain
    pointer. *)
Definition World_getOrCreateTaskService (w : World) : option (nat * World) :=
  match terrain w with
  | Some terr =>
      let '(p, terr', h') := getOrCreateTaskService terr (services w) in
      Some (p, {| tile := tile w; terrain := Some terr'; services := h' |})
  | None => None
  end.

(** Calls into collaborators, in the order in which they are made. *)
Inductive Event :=
| Add (service : nat) (r : TaskRequest)      (* TaskService::add( r ) *)
| UpdateContent (elevation color : bool).    (* EarthTerrainTechnique::updateContent *)

(* ------------------------------------------------------------------ *)
(** ** Installing and servicing requests                               *)
(* ------------------------------------------------------------------ *)

(** [(float)_key->getLevelOfDetail()] *)
Definition elevationPriority (lod : Z) : spec_float := Float.of_int lod.

(** [(float)_key->getLevelOfDetail() + (0.1 * (float)layerIndex)]: the
    literal is a [double], so the product and the sum are computed in
    [double], and [setPriority] takes the sum as a [float]. *)
Definition colorPriority (lod : Z) (layerIndex : nat) : spec_float :=
  Float.to_float
    (Float.add64
       (Float.to_double (Float.of_int lod))
       (Float.mul64 Float.double_0_1
          (Float.to_double (Float.of_int (Z.of_nat layerIndex))))).

(** The body of the loop over the colour layers, from [layerIndex] on,
    for [count] more rounds. *)
Fixpoint installColorRequests (stamp : Z) (count layerIndex : nat)
    (rs : list TaskRequest) (terr : VersionedTerrain) (h : Services) (lod : Z)
  : list TaskRequest * VersionedTerrain * Services :=
  match count with
  | O => (rs, terr, h)
  | S count' =>
      let '(p, terr1, h1) := getOrCreateTaskService terr h in
      let r := newRequest (TileColorLayerRequest layerIndex)
                 (colorPriority lod layerIndex) stamp
                 (TileRequestProgressCallback p) in
      installColorRequests stamp count' (S layerIndex) (rs ++ [r]) terr1 h1 lod
  end.

(** The block guarded by [!_requestsInstalled]. *)
Definition installRequests (stamp : Z) (w : World) : option World :=
  match terrain w with
  | None => None          (* getVersionedTerrain()->getTileLayerFactory() *)
  | Some terr =>
      let t := tile w in
      let '(rs, terr', h') :=
        match getTileLayerFactory terr with
        | Some factory =>
            let lod := getLevelOfDetail (_key t) in
            let '(rs1, terr1, h1) :=
              match getElevationLayer (base t) with
              | Some _ =>
                  if _requestElevation t then
                    let '(p, terr1, h1) := getOrCreateTaskService terr (services w) in
                    let r := newRequest TileElevationLayerRequest
                               (elevationPriority lod) stamp
                               (TileRequestProgressCallback p) in
                    (_requests t ++ [r], terr1, h1)
                  else (_requests t, terr, services w)
              | None => (_requests t, terr, services w)
              end in
            installColorRequests stamp (getNumColorLayers (base t)) 0 rs1 terr1 h1 lod
        | None => (_requests t, terr, services w)
        end in
      Some {| tile := set_requestsInstalled true (set_requests rs t);
              terrain := Some terr';
              services := h' |}
  end.

(** The loop over [_requests] of [servicePendingRequests]; the result is
    the list after the loop, the world and the calls to [add]. *)
Fixpoint serviceRequests (stamp : Z) (rs : list TaskRequest)
    (terr : option VersionedTerrain) (h : Services)
  : list TaskRequest * option VersionedTerrain * Services * list Event :=
  match rs with
  | [] => ([], terr, h, [])
  | r :: rest =>
      match terr with
      | Some vt =>
          if isIdle r then
            let r' := setStamp stamp r in
            let '(p, vt', h') := getOrCreateTaskService vt h in
            let '(rs', terr', h'', evs) := serviceRequests stamp rest (Some vt') h' in
            (r' :: rs', terr', h'', Add p r' :: evs)
          else if negb (isCompleted r) then
            let r' := setStamp stamp r in
            let '(rs', terr', h', evs) := serviceRequests stamp rest terr h in
            (r' :: rs', terr', h', evs)
          else
            let '(rs', terr', h', evs) := serviceRequests stamp rest terr h in
            (r :: rs', terr', h', evs)
      | None =>
          let '(rs', terr', h', evs) := serviceRequests stamp rest terr h in
          (r :: rs', terr', h', evs)
      end
  end.

(** [VersionedTile::servicePendingRequests]. *)
Definition servicePendingRequests (stamp : Z) (w : World) : option (World * list Event) :=
  match (if _requestsInstalled (tile w) then Some w else installRequests stamp w) with
  | None => None
  | Some w1 =>
      if _requestsInstalled (tile w1) then
        let '(rs, terr', h', evs) :=
          serviceRequests stamp (_requests (tile w1)) (terrain w1) (services w1) in
        Some ({| tile := set_requests rs (tile w1); terrain := terr'; services := h' |},
              evs)
      else Some (w1, [])
  end.

(* ------------------------------------------------------------------ *)
(** ** Harvesting completed and cancelled requests                     *)
(* ------------------------------------------------------------------ *)

(** The body of the [isCompleted] branch before the erase: the result is
    merged into the tile. A request that is not an elevation request is
    taken to be a colour request. *)
Definition applyResult (r : TaskRequest) (t : VersionedTile) : VersionedTile :=
  match _kind r with
  | TileElevationLayerRequest =>
      match _result r with
      | Some hfLayer =>
          let t1 := set_base (setElevationLayer (Some hfLayer) (base t)) t in
          if _usePerLayerUpdates t1 then set_elevationLayerDirty true t1
          else set_base (setDirty true (base t1)) t1
      | None => t
      end
  | TileColorLayerRequest layerIndex =>
      match _result r with
      | Some imgLayer =>
          let t1 := set_base (setColorLayer layerIndex (Some imgLayer) (base t)) t in
          if _usePerLayerUpdates t1 then set_colorLayersDirty true t1
          else set_base (setDirty true (base t1)) t1
      | None => t
      end
  end.

(** The body of the [isCanceled] branch. *)
Definition resetCanceled (service : nat) (r : TaskRequest) : TaskRequest :=
  setProgressCallback (TileRequestProgressCallback service) (setState STATE_IDLE r).

(** What is left of the loop: twice the number of elements from the
    iterator on, plus one when the element under the iterator is about
    to be reset in place. *)
Definition harvest_measure (rs : list TaskRequest) : nat :=
  match rs with
  | [] => 0
  | r :: rest =>
      2 * length rs + (if negb (isCompleted r) && isCanceled r then 1 else 0)
  end.

(** The loop of [serviceCompletedRequests], from the iterator on. The
    result is the part of the list that the loop leaves behind and the
    world after it. The [isCanceled] branch does not move the iterator:
    the loop looks at the same element once more after the reset. *)
Equations? harvest (rs : list TaskRequest) (w : World)
  : option (list TaskRequest * World) by wf (harvest_measure rs) lt :=
  harvest [] w := Some ([], w);
  harvest (r :: rest) w with inspect (isCompleted r) => {
    | exist _ true Hcompleted =>
        (* i = _requests.erase( i ) *)
        harvest rest (set_tile (applyResult r (tile w)) w);
    | exist _ false Hcompleted with inspect (isCanceled r) => {
        | exist _ true Hcanceled with World_getOrCreateTaskService w => {
            | Some (p, w') => harvest (resetCanceled p r :: rest) w';
            | None => None };
        | exist _ false Hcanceled with harvest rest w => {
            (* i++ *)
            | Some (kept, w') => Some (r :: kept, w');
            | None => None } } }.
Proof.
  - destruct rest as [|r' rest]; simpl; [lia|].
    destruct (negb (isCompleted r') && isCanceled r'); lia.
  - rewrite Hcompleted, Hcanceled. simpl. lia.
  - destruct rest as [|r' rest]; simpl; [lia|].
    destruct (negb (isCompleted r') && isCanceled r'); lia.
Qed.

(** [VersionedTile::serviceCompletedRequests]. *)
Definition serviceCompletedRequests (w : World) : option World :=
  match harvest (_requests (tile w)) w with
  | Some (kept, w') => Some (set_tile (set_requests kept (tile w')) w')
  | None => None
  end.

(* ------------------------------------------------------------------ *)
(** ** The loops, said at once                                         *)
(* ------------------------------------------------------------------ *)

(** The address that [getOrCreateTaskService] returns on a terrain. *)
Definition servicePointer (terr : VersionedTerrain) (h : Services) : nat :=
  match _taskService terr with
  | Some p => p
  | None => length h
  end.

(** What one round of the servicing loop does to a request. *)
Definition serviced (stamp : Z) (r : TaskRequest) : TaskRequest :=
  if isIdle r then setStamp stamp r
  else if negb (isCompleted r) then setStamp stamp r
  else r.

(** The requests that one servicing pass hands to the task service. *)
Definition resubmitted (stamp : Z) (rs : list TaskRequest) : list TaskRequest :=
  map (setStamp stamp) (filter isIdle rs).

(** What the harvest does to a request that it keeps. *)
Definition harvested (service : nat) (r : TaskRequest) : TaskRequest :=
  if isCanceled r then resetCanceled service r else r.

(** The list that the harvest leaves behind. *)
Definition keptRequests (service : nat) (rs : list TaskRequest) : list TaskRequest :=
  map (harvested service) (filter (fun r => negb (isCompleted r)) rs).

(** The relation between a request and what the harvest keeps of it. *)
Definition kept_as (r r' : TaskRequest) : Prop :=
  (_state r <> STATE_CANCELED /\ r' = r) \/
  exists p, _state r = STATE_CANCELED /\ r' = resetCanceled p r.

(** The tile after the results of the completed requests are merged, in
    the order of the list. *)
Definition mergeResults (rs : list TaskRequest) (t : VersionedTile) : VersionedTile :=
  fold_left (fun t r => applyResult r t) (filter isCompleted rs) t.

(** The requests that installation creates on a terrain with a factory. *)
Definition installedRequests (stamp : Z) (service : nat) (t : VersionedTile)
  : list TaskRequest :=
  let lod := getLevelOfDetail (_key t) in
  (match getElevationLayer (base t) with
   | Some _ =>
       if _requestElevation t
       then [newRequest TileElevationLayerRequest (elevationPriority lod) stamp
               (TileRequestProgressCallback service)]
       else []
   | None => []
   end)
  ++ map (fun i => newRequest (TileColorLayerRequest i) (colorPriority lod i) stamp
                     (TileRequestProgressCallback service))
       (seq 0 (getNumColorLayers (base t))).

(** The priorities of a tile at level [lod], for the layer indices below
    [layers]: the elevation priority and the priority of colour layer 0
    are the level itself, and the priority of colour layer [layerIndex]
    is the binary32 number nearest to [lod + layerIndex / 10]. *)
Definition priorities_rounded (lod : Z) (layers : nat) : bool :=
  Float.exactly (elevationPriority lod) lod 1 &&
  Float.exactly (colorPriority lod 0) lod 1 &&
  forallb
    (fun i => Float.nearest32 (colorPriority lod i) (10 * lod + Z.of_nat i) 10)
    (seq 0 layers).

Definition priorities_checked (levels layers : nat) : bool :=
  forallb (fun l => priorities_rounded (Z.of_nat l) layers) (seq 0 levels).

(** Whether the priority of colour layer [layerIndex] is the number
    [lod + layerIndex / 10] itself: it is for the multiples of 5 and for
    no other index. *)
Definition priorities_exact (lod : Z) (layers : nat) : bool :=
  forallb
    (fun i =>
       Bool.eqb (Float.exactly (colorPriority lod i) (10 * lod + Z.of_nat i) 10)
                (Z.of_nat i mod 5 =? 0))
    (seq 0 layers).

Definition priorities_exact_checked (levels layers : nat) : bool :=
  forallb (fun l => priorities_exact (Z.of_nat l) layers) (seq 0 levels).

(* ------------------------------------------------------------------ *)
(** ** The update pass                                                 *)
(* ------------------------------------------------------------------ *)

(** [osg::NodeVisitor::VisitorType] *)
Inductive VisitorType :=
| NODE_VISITOR
| UPDATE_VISITOR
| EVENT_VISITOR
| COLLECT_OCCLUDER_VISITOR
| CULL_VISITOR.

Definition VisitorType_eqb (a b : VisitorType) : bool :=
  match a, b with
  | NODE_VISITOR, NODE_VISITOR => true
  | UPDATE_VISITOR, UPDATE_VISITOR => true
  | EVENT_VISITOR, EVENT_VISITOR => true
  | COLLECT_OCCLUDER_VISITOR, COLLECT_OCCLUDER_VISITOR => true
  | CULL_VISITOR, CULL_VISITOR => true
  | _, _ => false
  end.

(** The block of [traverse] between the harvest and the base-class
    traversal. *)
Definition evaluateDirty (t : VersionedTile) : VersionedTile * list Event :=
  if getDirty (base t) then
    (set_colorLayersDirty true (set_elevationLayerDirty true t), [])
  else if _elevationLayerDirty t || _colorLayersDirty t then
    (t, [UpdateContent (_elevationLayerDirty t) (_colorLayersDirty t)])
  else (t, []).

(** The block of [traverse] after the base-class traversal. *)
Definition finishPass (t : VersionedTile) : VersionedTile :=
  let t1 :=
    if _elevationLayerDirty t
    then set_geometryRevision (_geometryRevision t + 1) t
    else t in
  set_colorLayersDirty false (set_elevationLayerDirty false t1).

(** Modelled from the spec: the worker side of the lifecycle, which is
    run by the task service, outside this file:
    Idle -> InProgress -> Completed or Canceled. *)
Inductive lifecycle : State -> State -> Prop :=
| lifecycle_start : lifecycle STATE_IDLE STATE_IN_PROGRESS
| lifecycle_complete : lifecycle STATE_IN_PROGRESS STATE_COMPLETED
| lifecycle_cancel : lifecycle STATE_IN_PROGRESS STATE_CANCELED.

(** What the workers may do to a request that the tile holds: move it
    along the lifecycle, store a result and poll its monitor. *)
Definition worker_request (r r' : TaskRequest) : Prop :=
  _kind r' = _kind r /\
  _priority r' = _priority r /\
  _stamp r' = _stamp r /\
  (_state r' = _state r \/ lifecycle (_state r) (_state r')).

(** What the surroundings of a tile may do to it between two calls: the
    public setters and the base class change layers, flags and
    revisions; the workers change the requests. The request list itself,
    [_requestsInstalled], the two per-layer dirty flags and the geometry
    revision are written by the functions of this file only. *)
Definition env_tile (t t' : VersionedTile) : Prop :=
  _key t' = _key t /\
  _geometryRevision t' = _geometryRevision t /\
  _requestsInstalled t' = _requestsInstalled t /\
  _elevationLayerDirty t' = _elevationLayerDirty t /\
  _colorLayersDirty t' = _colorLayersDirty t /\
  Forall2 worker_request (_requests t) (_requests t').

(** The requests that a trace hands to the task service. *)
Fixpoint submitted (tr : list Event) : list TaskRequest :=
  match tr with
  | [] => []
  | Add _ r :: tr' => r :: submitted tr'
  | UpdateContent _ _ :: tr' => submitted tr'
  end.

(** The servicing pass called again and again, with nothing in between. *)
Fixpoint servicePendingRequests_repeat (stamps : list Z) (w : World) : option World :=
  match stamps with
  | [] => Some w
  | stamp :: rest =>
      match servicePendingRequests stamp w with
      | Some (w', _) => servicePendingRequests_repeat rest w'
      | None => None
      end
  end.

(** The layers for which a tile holds a request, in the order of the
    collection. *)
Definition requestedLayers (t : VersionedTile) : list RequestKind :=
  map _kind (_requests t).

(** The invariant of the request collection: no two requests for one
    layer, and no request before the installation. *)
Definition collection_ok (t : VersionedTile) : Prop :=
  NoDup (requestedLayers t) /\
  (_requestsInstalled t = false -> _requests t = []).

(** Every request that the tile holds for layer [k] is Completed. *)
Definition completed_layer (k : RequestKind) (t : VersionedTile) : Prop :=
  _requestsInstalled t = true /\
  forall q, In q (_requests t) -> _kind q = k -> _state q = STATE_COMPLETED.

(** A world in which the tile has been constructed and nothing else has
    happened to it. *)
Definition initial (w : World) : Prop :=
  exists key hint, tile w = VersionedTile_new key hint.

(* ------------------------------------------------------------------ *)
(** ** The rest of the tile and of the terrain                         *)
(* ------------------------------------------------------------------ *)

(** [VersionedTile::~VersionedTile]: the requests on which [cancel()] is
    called, in the order of the calls, each with whether the notice
    "in progress, cancelling" is printed for it first. *)
Definition VersionedTile_destroy (t : VersionedTile) : list (TaskRequest * bool) :=
  if _requestsInstalled t
  then map (fun r => (r, State_eqb (_state r) STATE_IN_PROGRESS)) (_requests t)
  else [].

(** [VersionedTerrain::getNumTaskServiceThreads]: the field, an
    [unsigned int]. The constructor and the setter store converted
    values, so what it returns lies below 2^32. *)
Definition getNumTaskServiceThreads (terr : VersionedTerrain) : Z :=
  _numTaskServiceThreads terr.

(** The calls of [incrementRevision] in a sequence of calls. *)
Fixpoint incrementsIn (calls : list TerrainCall) : Z :=
  match calls with
  | [] => 0
  | CallIncrementRevision :: rest => 1 + incrementsIn rest
  | _ :: rest => incrementsIn rest
  end.

Definition isGetOrCreate (c : TerrainCall) : bool :=
  match c with
  | CallGetOrCreateTaskService => true
  | _ => false
  end.

(** A request whose harvest writes a layer: it is Completed and its
    result is not null. *)
Definition hasResult (r : TaskRequest) : bool :=
  match _result r with
  | Some _ => true
  | None => false
  end.

Definition deliversElevation (r : TaskRequest) : bool :=
  isCompleted r && isElevLayerRequest r && hasResult r.

Definition deliversColor (r : TaskRequest) : bool :=
  isCompleted r && isColorLayerRequest r && hasResult r.

Definition delivers (r : TaskRequest) : bool :=
  isCompleted r && hasResult r.

(** The three dirty flags after the harvest of [rs], read off the tile
    before it. *)
Definition dirtyAfterHarvest (rs : list TaskRequest) (t : VersionedTile) : bool :=
  getDirty (base t) || (negb (_usePerLayerUpdates t) && existsb delivers rs).

Definition elevationDirtyAfterHarvest (rs : list TaskRequest) (t : VersionedTile) : bool :=
  _elevationLayerDirty t || (_usePerLayerUpdates t && existsb deliversElevation rs).

Definition colorDirtyAfterHarvest (rs : list TaskRequest) (t : VersionedTile) : bool :=
  _colorLayersDirty t || (_usePerLayerUpdates t && existsb deliversColor rs).

(** Equality of two floating-point numbers as data. *)
Definition spec_float_eqb (x y : spec_float) : bool :=
  match x, y with
  | S754_zero s, S754_zero s' => Bool.eqb s s'
  | S754_infinity s, S754_infinity s' => Bool.eqb s s'
  | S754_nan, S754_nan => true
  | S754_finite s m e, S754_finite s' m' e' =>
      Bool.eqb s s' && Pos.eqb m m' && Z.eqb e e'
  | _, _ => false
  end.

(** The order of the priorities of one tile at level [lod], for the
    layer indices up to [layers], and against the next level: the
    elevation request and colour layer 0 tie; the priority grows with
    the layer index; layers 0 to 9 stay below the next level, layer 10
    ties with it and layer 11 is above it. *)
Definition priorities_ordered (lod : Z) (layers : nat) : bool :=
  spec_float_eqb (elevationPriority lod) (colorPriority lod 0) &&
  forallb (fun i => SFltb (colorPriority lod i) (colorPriority lod (S i)))
    (seq 0 layers) &&
  forallb (fun i => SFltb (colorPriority lod i) (elevationPriority (lod + 1)))
    (seq 0 10) &&
  spec_float_eqb (colorPriority lod 10) (elevationPriority (lod + 1)) &&
  SFltb (elevationPriority (lod + 1)) (colorPriority lod 11).

Definition priorities_order_checked (levels layers : nat) : bool :=
  forallb (fun l => priorities_ordered (Z.of_nat l) layers) (seq 0 levels).

(* ------------------------------------------------------------------ *)
(** ** Ephemeris: day numbers                                          *)
(* ------------------------------------------------------------------ *)

Module Ephemeris.

(** [(double) z] for an integer [z]. *)
Definition of_int (z : Z) : spec_float :=
  binary_normalize Float.prec64 Float.emax64 z 0 false.

(** [int(x)] for a [double] [x]: the fraction is dropped. *)
Definition to_int (x : spec_float) : Z :=
  match x with
  | S754_finite s m e =>
      cond_Zopp s (if 0 <=? e then Zpos m * 2 ^ e else Zpos m / 2 ^ (- e))
  | _ => 0
  end.

(** The [double] literals [365.25], [30.6001] and [1524.5]. The first
    and the last are binary fractions; the second is the [double]
    nearest to 306001/10000. *)
Definition double_365_25 : spec_float := S754_finite false 6425545952722944 (-44).
Definition double_30_6001 : spec_float := S754_finite false 8613162434843745 (-48).
Definition double_1524_5 : spec_float := S754_finite false 6704821906178048 (-42).

Definition mul : spec_float -> spec_float -> spec_float :=
  SFmul Float.prec64 Float.emax64.
Definition sub : spec_float -> spec_float -> spec_float :=
  SFsub Float.prec64 Float.emax64.

(** [getJulianDate]. The divisions of [int]s drop the fraction
    ([Z.quot]); the two products are computed in [double] and cut to
    [int]; the sum of the four [int]s is converted to [double] for the
    subtraction. *)
Definition getJulianDate (year month date : Z) : spec_float :=
  let '(month, year) :=
    if month <=? 2 then (month + 12, year - 1) else (month, year) in
  let A := Z.quot year 100 in
  let B := 2 - A + Z.quot A 4 in
  let C := to_int (mul double_365_25 (of_int (year + 4716))) in
  let D := to_int (mul double_30_6001 (of_int (month + 1))) in
  sub (of_int (B + C + D + date)) double_1524_5.

(** [JD2000] *)
Definition JD2000 : spec_float := of_int 2451545.

(** The day number [di] that [Moon::getRaDeclRange] computes in its first
    statement, before the time of day is added. *)
Definition Moon_dayNumber (year month date : Z) : Z :=
  367 * year - Z.quot (7 * (year + Z.quot (month + 9) 12)) 4
  + Z.quot (275 * month) 9 + date - 730530.

(** The Gregorian calendar, to compare with: leap years, the lengths of
    the months, and the days from 1 January 1900 to a date. *)
Definition is_leap (y : Z) : bool :=
  ((y mod 4 =? 0) && negb (y mod 100 =? 0)) || (y mod 400 =? 0).

Definition days_in_month (y m : Z) : Z :=
  if m =? 2 then (if is_leap y then 29 else 28)
  else if (m =? 4) || (m =? 6) || (m =? 9) || (m =? 11) then 30
  else 31.

Definition days_in_year (y : Z) : Z := if is_leap y then 366 else 365.

Fixpoint days_of_years (n : nat) (from : Z) : Z :=
  match n with
  | O => 0
  | S n' => days_in_year from + days_of_years n' (from + 1)
  end.

Fixpoint days_of_months (n : nat) (y from : Z) : Z :=
  match n with
  | O => 0
  | S n' => days_in_month y from + days_of_months n' y (from + 1)
  end.

Definition days_since_1900 (y m d : Z) : Z :=
  days_of_years (Z.to_nat (y - 1900)) 1900
  + days_of_months (Z.to_nat (m - 1)) y 1
  + (d - 1).

(** The integers from [lo] on, [n] of them. *)
Definition zrange (lo : Z) (n : nat) : list Z :=
  map (fun i => lo + Z.of_nat i) (seq 0 n).

(** A test [check y m d n] run over the calendar, day after day: over
    the days of [k] months from month [m] of the year [y] on, and over
    the days of [n] years from the year [y] on. [start] is the number of
    days from 1 January 1900 to the first day of the run, and the test
    gets that number for each date. *)
Fixpoint months_ok (check : Z -> Z -> Z -> Z -> bool) (k : nat) (y m start : Z)
  : bool :=
  match k with
  | O => true
  | S k' =>
      forallb (fun d => check y m d (start + (d - 1)))
        (zrange 1 (Z.to_nat (days_in_month y m)))
      && months_ok check k' y (m + 1) (start + days_in_month y m)
  end.

Fixpoint years_ok (check : Z -> Z -> Z -> Z -> bool) (n : nat) (y start : Z)
  : bool :=
  match n with
  | O => true
  | S n' =>
      months_ok check 12 y 1 start
      && years_ok check n' (y + 1) (start + days_in_year y)
  end.

(** A test run over the [n] integers from [lo] on. *)
Fixpoint all_from (check : Z -> bool) (n : nat) (lo : Z) : bool :=
  match n with
  | O => true
  | S n' => check lo && all_from check n' (lo + 1)
  end.

(** The two products of [getJulianDate], cut to [int], and what they
    are to be: the whole days of [year + 4716] years of 365.25 days and
    of [month + 1] months of 30.6001 days. *)
Definition yearDays (year : Z) : Z :=
  to_int (mul double_365_25 (of_int (year + 4716))).

Definition monthDays (month : Z) : Z :=
  to_int (mul double_30_6001 (of_int (month + 1))).

Definition yearDays_ok (year : Z) : bool :=
  yearDays year =? 1461 * (year + 4716) / 4.

Definition monthDays_ok (month : Z) : bool :=
  monthDays month =? 306001 * (month + 1) / 10000.

(** The [int] that [getJulianDate] converts to [double], with the two
    products in whole numbers. *)
Definition julianDayNumber (year month date : Z) : Z :=
  let '(month, year) :=
    if month <=? 2 then (month + 12, year - 1) else (month, year) in
  let A := Z.quot year 100 in
  let B := 2 - A + Z.quot A 4 in
  B + 1461 * (year + 4716) / 4 + 306001 * (month + 1) / 10000 + date.

(** The last step of [getJulianDate] loses nothing: [(double) n - 1524.5]
    is the number [n - 1524.5]. *)
Definition half_day_ok (n : Z) : bool :=
  Float.exactly (sub (of_int n) double_1524_5) (2 * n - 3049) 2.

(** The Julian date of 1 January 1900, 0h, is 2415020.5, which
    [getJulianDate] reaches from the day number 2416545. *)
Definition julian_day_ok (y m d days : Z) : bool :=
  julianDayNumber y m d =? 2416545 + days.

(** Day 1 of the moon's day number is 1 January 2000, which is 36524
    days after 1 January 1900; from 1 March 1900 to 28 February 2100. *)
Definition in_moon_range (y m : Z) : bool :=
  negb ((y =? 1900) && (m <=? 2)) && negb ((y =? 2100) && (3 <=? m)).

Definition moon_day_ok (y m d days : Z) : bool :=
  negb (in_moon_range y m) || (Moon_dayNumber y m d =? days - 36523).

(** In January and February 1900 the day number is a day behind, from
    March 2100 on a day ahead. *)
Definition moon_day_slip (y : Z) : Z := if y =? 1900 then -1 else 1.

Definition moon_day_slip_ok (y m d days : Z) : bool :=
  in_moon_range y m || (Moon_dayNumber y m d =? days - 36523 + moon_day_slip y).

End Ephemeris.

(* ------------------------------------------------------------------ *)
(** ** A tile at level 3 with an elevation layer and two colour layers *)
(* ------------------------------------------------------------------ *)

Module Example.

Definition key : TileKey := {| getLevelOfDetail := 3 |}.

Definition layers : TerrainTile :=
  {| _dirty := false;
     _elevationLayer := Some 100%nat;
     _colorLayers := [Some 200%nat; Some 201%nat] |}.

(** The tile before its first servicing pass. *)
Definition fresh_tile : VersionedTile :=
  setUseLayerRequests true (set_base layers (VersionedTile_new key true)).

Definition terrain_with_factory : VersionedTerrain :=
  VersionedTerrain_new (Some 1%nat) None.

Definition terrain_without_factory : VersionedTerrain :=
  VersionedTerrain_new None None.

Definition fresh_world : World :=
  {| tile := fresh_tile; terrain := Some terrain_with_factory; services := [] |}.

Definition fresh_world_without_factory : World :=
  {| tile := fresh_tile; terrain := Some terrain_without_factory; services := [] |}.

(** The three requests of the tile, some cycles later: the elevation
    request is Completed with a result, the request for colour layer 0
    is Canceled and the one for colour layer 1 is Idle. *)
Definition elevation_done : TaskRequest :=
  {| _kind := TileElevationLayerRequest;
     _priority := elevationPriority 3;
     _stamp := 10;
     _state := STATE_COMPLETED;
     _progress := TileRequestProgressCallback 0;
     _result := Some 300%nat |}.

Definition color0_canceled : TaskRequest :=
  {| _kind := TileColorLayerRequest 0;
     _priority := colorPriority 3 0;
     _stamp := 7;
     _state := STATE_CANCELED;
     _progress := {| _canceled := true; _service := 0 |};
     _result := None |}.

Definition color1_idle : TaskRequest :=
  {| _kind := TileColorLayerRequest 1;
     _priority := colorPriority 3 1;
     _stamp := 10;
     _state := STATE_IDLE;
     _progress := TileRequestProgressCallback 0;
     _result := None |}.

Definition terrain_with_service : VersionedTerrain :=
  set_taskService 0 terrain_with_factory.

Definition busy_tile : VersionedTile :=
  set_requestsInstalled true
    (set_requests [elevation_done; color0_canceled; color1_idle] fresh_tile).

Definition busy_world : World :=
  {| tile := busy_tile;
     terrain := Some terrain_with_service;
     services := [new_TaskService 8] |}.

(** A tile whose requests have all been harvested, under a terrain whose
    revision has moved on from the revision 0 that the tile stores. *)
Definition stale_tile : VersionedTile :=
  setTerrainRevision 0 (set_requestsInstalled true fresh_tile).

Definition stale_world : World :=
  {| tile := stale_tile;
     terrain := Some (incrementRevision terrain_with_service);
     services := [new_TaskService 8] |}.

(** The request for colour layer 1, Completed with a result. *)
Definition color1_done : TaskRequest :=
  {| _kind := TileColorLayerRequest 1;
     _priority := colorPriority 3 1;
     _stamp := 10;
     _state := STATE_COMPLETED;
     _progress := TileRequestProgressCallback 0;
     _result := Some 301%nat |}.

(** The tile when its two remaining requests are Completed. *)
Definition done_world : World :=
  {| tile := set_requests [elevation_done; color1_done] busy_tile;
     terrain := Some terrain_with_service;
     services := [new_TaskService 8] |}.

(** The tile some cycles later, attached to no terrain. *)
Definition detached_world : World :=
  {| tile := busy_tile; terrain := None; services := [new_TaskService 8] |}.

(** The tile after its first servicing pass, which had the stamp 1, and
    the same tile taken off its terrain afterwards. *)
Definition installed_world : World :=
  match servicePendingRequests 1 fresh_world with
  | Some (w, _) => w
  | None => fresh_world
  end.

Definition detached_installed_world : World :=
  {| tile := tile installed_world; terrain := None;
     services := services installed_world |}.

(** A base-class traversal that leaves the tile as it is. *)
Definition still : VisitorType -> TerrainTile -> TerrainTile := fun _ b => b.

(** Three polls of one monitor: the stamps read at each poll. *)
Definition polls : list (Z * Z) := [(5, 5); (9, 6); (7, 7)].

End Example.

Section Traversal.

(** [osgTerrain::TerrainTile::traverse], the base-class traversal: it
    works on the base part of the tile. *)
Variable TerrainTile_traverse : VisitorType -> TerrainTile -> TerrainTile.

(** [VersionedTile::traverse]. *)
Definition traverse (nv : VisitorType) (w : World) : option (World * list Event) :=
  let serviceRequests :=
    _useLayerRequests (tile w) && VisitorType_eqb nv UPDATE_VISITOR in
  if serviceRequests then
    match serviceCompletedRequests w with
    | None => None
    | Some w1 =>
        let '(t2, evs) := evaluateDirty (tile w1) in
        let t3 := set_base (TerrainTile_traverse nv (base t2)) t2 in
        Some (set_tile (finishPass t3) w1, evs)
    end
  else
    Some (set_tile (set_base (TerrainTile_traverse nv (base (tile w))) (tile w)) w, []).

(** One step of a tile's life, with the calls it makes to collaborators. *)
Inductive step : World -> list Event -> World -> Prop :=
| step_servicePending (stamp : Z) (w w' : World) (evs : list Event) :
    servicePendingRequests stamp w = Some (w', evs) -> step w evs w'
| step_serviceCompleted (w w' : World) :
    serviceCompletedRequests w = Some w' -> step w [] w'
| step_traverse (nv : VisitorType) (w w' : World) (evs : list Event) :
    traverse nv w = Some (w', evs) -> step w evs w'
| step_env (w w' : World) :
    env_tile (tile w) (tile w') -> step w [] w'.

Inductive steps : World -> list Event -> World -> Prop :=
| steps_nil (w : World) : steps w [] w
| steps_cons (w w1 w2 : World) (evs tr : list Event) :
    step w evs w1 -> steps w1 tr w2 -> steps w (evs ++ tr) w2.

(** The worlds that a tile can be in: those that steps lead to from its
    construction. *)
Definition reachable (w : World) : Prop :=
  exists w0 tr, initial w0 /\ steps w0 tr w.

(* ------------------------------------------------------------------ *)
(** ** Floats                                                          *)
(* ------------------------------------------------------------------ *)

(** The literal 0.1 is the binary64 number nearest to 1/10. *)
Lemma double_0_1_nearest :
  Float.double_0_1 =
  SFdiv Float.prec64 Float.emax64
    (Float.to_double (Float.of_int 1)) (Float.to_double (Float.of_int 10)).
Proof. vm_compute. reflexivity. Qed.

(* ------------------------------------------------------------------ *)
(** ** The progress callback                                           *)
(* ------------------------------------------------------------------ *)

Lemma reportProgress_result (s q : Z) (p : ProgressCallback) :
  fst (reportProgress s q p) = _canceled p || (2 <? s - q).
Proof. unfold reportProgress. destruct (_canceled p); reflexivity. Qed.

Lemma reportProgress_flag (s q : Z) (p : ProgressCallback) :
  _canceled (snd (reportProgress s q p)) = fst (reportProgress s q p).
Proof.
  unfold reportProgress. destruct (_canceled p) eqn:E; simpl; [exact E|reflexivity].
Qed.

(** Polling from any monitor: a poll reports cancelled exactly when the
    flag was set at the start, or an earlier poll of the run reported
    cancelled, or the stamps of this poll are more than 2 apart. *)
Lemma pollAll_nth (polls : list (Z * Z)) :
  forall (p : ProgressCallback) (n : nat) (s q : Z),
    nth_error polls n = Some (s, q) ->
    (nth_error (pollAll polls p) n = Some true <->
     (_canceled p = true \/
      (exists m, (m < n)%nat /\ nth_error (pollAll polls p) m = Some true) \/
      2 < s - q)).
Proof.
  induction polls as [|[s0 q0] rest IH]; intros p n s q Hn.
  - destruct n; discriminate.
  - simpl. destruct (reportProgress s0 q0 p) as [c p'] eqn:E.
    assert (Hc : c = _canceled p || (2 <? s0 - q0))
      by (rewrite <- reportProgress_result, E; reflexivity).
    assert (Hp' : _canceled p' = c)
      by (pose proof (reportProgress_flag s0 q0 p) as F; rewrite E in F; exact F).
    destruct n as [|n]; simpl in *.
    + injection Hn as -> ->. split.
      * intros H. injection H as H. rewrite Hc in H.
        apply orb_true_iff in H. destruct H as [H|H]; [now left|].
        right. right. now apply Z.ltb_lt.
      * intros [H|[[m [Hm _]]|H]].
        -- rewrite Hc, H. reflexivity.
        -- lia.
        -- apply Z.ltb_lt in H. rewrite Hc, H, orb_true_r. reflexivity.
    + rewrite (IH p' n s q Hn). rewrite Hp'. split.
      * intros [H|[[m [Hm Hr]]|H]].
        -- right. left. exists 0%nat. split; [lia|]. simpl. now rewrite H.
        -- right. left. exists (S m). split; [lia|exact Hr].
        -- right. right. exact H.
      * intros [H|[[m [Hm Hr]]|H]].
        -- left. rewrite Hc, H. reflexivity.
        -- destruct m as [|m]; simpl in Hr.
           ++ left. now injection Hr.
           ++ right. left. exists m. split; [lia|exact Hr].
        -- right. right. exact H.
Qed.

(** Once the flag is set every poll reports cancelled. *)
Lemma pollAll_canceled (polls : list (Z * Z)) :
  forall (p : ProgressCallback) (k : nat),
    _canceled p = true -> (k < length polls)%nat ->
    nth_error (pollAll polls p) k = Some true.
Proof.
  induction polls as [|[s0 q0] rest IH]; intros p k Hp Hk; simpl in *; [lia|].
  destruct (reportProgress s0 q0 p) as [c p'] eqn:E.
  assert (Hc : c = true).
  { pose proof (reportProgress_result s0 q0 p) as F. rewrite E, Hp in F. exact F. }
  assert (Hp' : _canceled p' = true).
  { pose proof (reportProgress_flag s0 q0 p) as F. rewrite E in F. simpl in F. congruence. }
  destruct k as [|k]; simpl; [now rewrite Hc|].
  apply IH; [exact Hp'|lia].
Qed.

Lemma pollAll_sticky (polls : list (Z * Z)) :
  forall (p : ProgressCallback) (n k : nat),
    nth_error (pollAll polls p) n = Some true ->
    (n <= k < length polls)%nat ->
    nth_error (pollAll polls p) k = Some true.
Proof.
  induction polls as [|[s0 q0] rest IH]; intros p n k Hn Hk; simpl in *; [lia|].
  destruct (reportProgress s0 q0 p) as [c p'] eqn:E.
  assert (Hp' : _canceled p' = c)
    by (pose proof (reportProgress_flag s0 q0 p) as F; rewrite E in F; exact F).
  destruct n as [|n]; simpl in Hn.
  - injection Hn as ->. destruct k as [|k]; simpl; [reflexivity|].
    apply pollAll_canceled; [exact Hp'|lia].
  - destruct k as [|k]; [lia|]. simpl. apply (IH p' n k Hn). lia.
Qed.

(** C2. For a monitor attached to a request and polled any number of
    times, starting from its construction: a call of [reportProgress]
    returns cancelled if and only if an earlier call on the monitor
    returned cancelled or the stamp of the task service minus the stamp
    of the request exceeds 2 at that call; and once a call has returned
    cancelled every later call returns cancelled. *)
Theorem reportProgress_cancelled_iff_stale_or_cancelled_before
  (service : nat) (polls : list (Z * Z)) (n : nat) (serviceStamp requestStamp : Z) :
  nth_error polls n = Some (serviceStamp, requestStamp) ->
  let results := pollAll polls (TileRequestProgressCallback service) in
  (nth_error results n = Some true <->
   ((exists m, (m < n)%nat /\ nth_error results m = Some true) \/
    2 < serviceStamp - requestStamp))
  /\ (2 < serviceStamp - requestStamp -> nth_error results n = Some true)
  /\ (nth_error results n = Some true ->
      forall k, (n <= k < length polls)%nat -> nth_error results k = Some true).
Proof.
  intros Hn results. subst results.
  pose proof (pollAll_nth polls (TileRequestProgressCallback service) n _ _ Hn) as H.
  simpl in H. split; [|split].
  - rewrite H. split.
    + intros [F|[F|F]]; [discriminate|now left|now right].
    + intros [F|F]; [right; now left|right; now right].
  - intros F. apply H. right. now right.
  - intros F k Hk. now apply (pollAll_sticky polls _ n k).
Qed.

(* ------------------------------------------------------------------ *)
(** ** The task service of a terrain                                   *)
(* ------------------------------------------------------------------ *)

Lemma getOrCreateTaskService_valid (terr : VersionedTerrain) (h : Services) (p : nat) :
  _taskService terr = Some p ->
  getOrCreateTaskService terr h = (p, terr, h).
Proof. intros H. unfold getOrCreateTaskService. now rewrite H. Qed.

Lemma getOrCreateTaskService_fresh (terr : VersionedTerrain) (h : Services) :
  _taskService terr = None ->
  getOrCreateTaskService terr h =
  (length h, set_taskService (length h) terr,
   h ++ [new_TaskService (_numTaskServiceThreads terr)]).
Proof. intros H. unfold getOrCreateTaskService. now rewrite H. Qed.

(** The address returned is [servicePointer], the terrain holds it
    afterwards, and the other fields of the terrain stay. *)
Lemma getOrCreateTaskService_pointer (terr : VersionedTerrain) (h : Services) :
  forall p terr' h',
    getOrCreateTaskService terr h = (p, terr', h') ->
    p = servicePointer terr h /\
    _taskService terr' = Some p /\
    servicePointer terr' h' = p /\
    _layerFactory terr' = _layerFactory terr /\
    _revision terr' = _revision terr.
Proof.
  intros p terr' h' H. unfold servicePointer.
  destruct (_taskService terr) as [p0|] eqn:E.
  - rewrite (getOrCreateTaskService_valid _ _ _ E) in H.
    injection H as <- <- <-. rewrite E. auto.
  - rewrite (getOrCreateTaskService_fresh _ _ E) in H.
    injection H as <- <- <-. simpl. auto.
Qed.

Lemma getOrCreateTaskService_idempotent (terr : VersionedTerrain) (h : Services) :
  forall p terr' h',
    getOrCreateTaskService terr h = (p, terr', h') ->
    getOrCreateTaskService terr' h' = (p, terr', h').
Proof.
  intros p terr' h' H.
  apply getOrCreateTaskService_valid.
  apply (getOrCreateTaskService_pointer terr h p terr' h' H).
Qed.

(** A terrain that holds a service keeps it through every call, and no
    call constructs anything. *)
Lemma runTerrain_valid (calls : list TerrainCall) :
  forall terr h p,
    _taskService terr = Some p ->
    Forall (eq p) (fst (fst (runTerrain calls terr h))) /\
    snd (runTerrain calls terr h) = h /\
    _taskService (snd (fst (runTerrain calls terr h))) = Some p.
Proof.
  induction calls as [|c rest IH]; intros terr h p Hp; simpl.
  - auto.
  - destruct c as [|n|].
    + apply IH. exact Hp.
    + apply IH. exact Hp.
    + rewrite (getOrCreateTaskService_valid _ _ _ Hp).
      specialize (IH terr h p Hp).
      destruct (runTerrain rest terr h) as [[ps terr2] h2]. simpl in *.
      destruct IH as [H1 [H2 H3]]. auto.
Qed.

(** A terrain that holds no service yet constructs one at the first call
    of [getOrCreateTaskService] and none later. *)
Lemma runTerrain_fresh (calls : list TerrainCall) :
  forall terr h,
    _taskService terr = None ->
    let res := runTerrain calls terr h in
    Forall (eq (length h)) (fst (fst res)) /\
    (fst (fst res) = [] -> snd res = h /\ _taskService (snd (fst res)) = None) /\
    (fst (fst res) <> [] ->
     (exists n, snd res = h ++ [new_TaskService n]) /\
     _taskService (snd (fst res)) = Some (length h)).
Proof.
  induction calls as [|c rest IH]; intros terr h Hp; simpl.
  - split; [constructor|]. split; [auto|]. intros F. now contradiction F.
  - destruct c as [|n|].
    + apply IH. exact Hp.
    + apply IH. exact Hp.
    + rewrite (getOrCreateTaskService_fresh _ _ Hp).
      pose proof (runTerrain_valid rest (set_taskService (length h) terr)
                    (h ++ [new_TaskService (_numTaskServiceThreads terr)])
                    (length h) eq_refl) as V.
      destruct (runTerrain rest _ _) as [[ps terr2] h2]. simpl in *.
      destruct V as [V1 [V2 V3]].
      split; [constructor; auto|]. split; [discriminate|].
      intros _. split; [|exact V3].
      exists (_numTaskServiceThreads terr). exact V2.
Qed.

(** C8. Over the lifetime of a terrain, whatever calls it receives:
    [getOrCreateTaskService] constructs the task service at its first
    call and not before, at most one service is ever constructed, every
    call returns the same instance, and a call on a terrain that has its
    service returns it and constructs nothing. *)
Theorem getOrCreateTaskService_constructs_once
  (factory : option TileLayerFactory) (env : option Z) (h : Services)
  (calls : list TerrainCall) :
  let res := runTerrain calls (VersionedTerrain_new factory env) h in
  let returned := fst (fst res) in
  let terr' := snd (fst res) in
  let h' := snd res in
  Forall (eq (length h)) returned
  /\ (returned = [] -> h' = h /\ _taskService terr' = None)
  /\ (returned <> [] ->
      (exists n, h' = h ++ [new_TaskService n]) /\
      _taskService terr' = Some (length h))
  /\ (length h' <= length h + 1)%nat
  /\ getOrCreateTaskService
       (snd (fst (getOrCreateTaskService terr' h')))
       (snd (getOrCreateTaskService terr' h'))
     = getOrCreateTaskService terr' h'.
Proof.
  intros res returned terr' h'.
  pose proof (runTerrain_fresh calls (VersionedTerrain_new factory env) h eq_refl)
    as [H1 [H2 H3]].
  fold res in H1, H2, H3. fold returned in H1, H2, H3.
  fold terr' in H2, H3. fold h' in H2, H3.
  split; [exact H1|]. split; [exact H2|]. split; [exact H3|]. split.
  - destruct returned as [|p ps] eqn:E.
    + destruct (H2 eq_refl) as [-> _]. lia.
    + destruct H3 as [[n ->] _]; [discriminate|].
      rewrite length_app. simpl. lia.
  - destruct (getOrCreateTaskService terr' h') as [[p t1] h1] eqn:E. simpl.
    apply (getOrCreateTaskService_idempotent _ _ _ _ _ E).
Qed.

(* ------------------------------------------------------------------ *)
(** ** Installation                                                    *)
(* ------------------------------------------------------------------ *)

Lemma installColorRequests_spec (stamp lod : Z) (count : nat) :
  forall layerIndex rs terr h,
  exists terr' h',
    installColorRequests stamp count layerIndex rs terr h lod =
    (rs ++ map (fun i => newRequest (TileColorLayerRequest i) (colorPriority lod i)
                           stamp (TileRequestProgressCallback (servicePointer terr h)))
             (seq layerIndex count),
     terr', h')
    /\ servicePointer terr' h' = servicePointer terr h.
Proof.
  induction count as [|count IH]; intros layerIndex rs terr h; simpl.
  - exists terr, h. now rewrite app_nil_r.
  - destruct (getOrCreateTaskService terr h) as [[p terr1] h1] eqn:E.
    destruct (getOrCreateTaskService_pointer _ _ _ _ _ E) as [Hp [_ [Hs _]]].
    destruct (IH (S layerIndex)
                (rs ++ [newRequest (TileColorLayerRequest layerIndex)
                          (colorPriority lod layerIndex) stamp
                          (TileRequestProgressCallback p)]) terr1 h1)
      as [terr' [h' [H1 H2]]].
    exists terr', h'. rewrite H1, H2, Hs, <- Hp, <- app_assoc. simpl. auto.
Qed.

(** Installation on a terrain with a factory. *)
Lemma installRequests_factory (stamp : Z) (w : World) (terr : VersionedTerrain)
    (factory : TileLayerFactory) :
  terrain w = Some terr ->
  _layerFactory terr = Some factory ->
  exists terr' h',
    installRequests stamp w =
    Some {| tile := set_requestsInstalled true
                      (set_requests
                         (_requests (tile w) ++
                          installedRequests stamp (servicePointer terr (services w)) (tile w))
                         (tile w));
            terrain := Some terr';
            services := h' |}
    /\ servicePointer terr' h' = servicePointer terr (services w).
Proof.
  intros Ht Hf. unfold installRequests, installedRequests, getTileLayerFactory.
  rewrite Ht, Hf.
  destruct (getElevationLayer (base (tile w))) as [l|].
  - destruct (_requestElevation (tile w)).
    + destruct (getOrCreateTaskService terr (services w)) as [[p terr1] h1] eqn:E.
      destruct (getOrCreateTaskService_pointer _ _ _ _ _ E) as [Hp [_ [Hs _]]].
      destruct (installColorRequests_spec stamp (getLevelOfDetail (_key (tile w)))
                  (getNumColorLayers (base (tile w))) 0
                  (_requests (tile w) ++
                   [newRequest TileElevationLayerRequest
                      (elevationPriority (getLevelOfDetail (_key (tile w)))) stamp
                      (TileRequestProgressCallback p)]) terr1 h1)
        as [terr' [h' [H1 H2]]].
      exists terr', h'. rewrite H1, H2, Hs, <- Hp, <- app_assoc. auto.
    + destruct (installColorRequests_spec stamp (getLevelOfDetail (_key (tile w)))
                  (getNumColorLayers (base (tile w))) 0
                  (_requests (tile w)) terr (services w))
        as [terr' [h' [H1 H2]]].
      exists terr', h'. rewrite H1, H2. auto.
  - destruct (installColorRequests_spec stamp (getLevelOfDetail (_key (tile w)))
                (getNumColorLayers (base (tile w))) 0
                (_requests (tile w)) terr (services w))
      as [terr' [h' [H1 H2]]].
    exists terr', h'. rewrite H1, H2. auto.
Qed.

(** Installation on a terrain without a factory. *)
Lemma installRequests_no_factory (stamp : Z) (w : World) (terr : VersionedTerrain) :
  terrain w = Some terr ->
  _layerFactory terr = None ->
  installRequests stamp w =
  Some {| tile := set_requestsInstalled true (set_requests (_requests (tile w)) (tile w));
          terrain := Some terr;
          services := services w |}.
Proof.
  intros Ht Hf. unfold installRequests, getTileLayerFactory. now rewrite Ht, Hf.
Qed.

Lemma installedRequests_kinds (stamp : Z) (p : nat) (t : VersionedTile) :
  map _kind (installedRequests stamp p t) =
  (match getElevationLayer (base t) with
   | Some _ => if _requestElevation t then [TileElevationLayerRequest] else []
   | None => []
   end) ++ map TileColorLayerRequest (seq 0 (getNumColorLayers (base t))).
Proof.
  unfold installedRequests. rewrite map_app, map_map. simpl. f_equal.
  destruct (getElevationLayer (base t)); [|reflexivity].
  destruct (_requestElevation t); reflexivity.
Qed.

Lemma installedRequests_idle (stamp : Z) (p : nat) (t : VersionedTile) :
  Forall (fun r => _state r = STATE_IDLE /\ _stamp r = stamp)
    (installedRequests stamp p t).
Proof.
  unfold installedRequests. apply Forall_app. split.
  - destruct (getElevationLayer (base t)); [|constructor].
    destruct (_requestElevation t); repeat constructor.
  - apply Forall_forall. intros r Hr. apply in_map_iff in Hr.
    destruct Hr as [i [<- _]]. split; reflexivity.
Qed.

Lemma NoDup_installed_kinds (stamp : Z) (p : nat) (t : VersionedTile) :
  NoDup (map _kind (installedRequests stamp p t)).
Proof.
  rewrite installedRequests_kinds.
  assert (Hc : NoDup (map TileColorLayerRequest (seq 0 (getNumColorLayers (base t))))).
  { apply Injective_map_NoDup; [|apply seq_NoDup].
    intros a b H. now injection H. }
  destruct (getElevationLayer (base t)); [|exact Hc].
  destruct (_requestElevation t); [|exact Hc].
  simpl. constructor; [|exact Hc].
  intros H. apply in_map_iff in H. destruct H as [i [H _]]. discriminate.
Qed.

(* ------------------------------------------------------------------ *)
(** ** The servicing loop                                              *)
(* ------------------------------------------------------------------ *)

Lemma serviced_kind (stamp : Z) (r : TaskRequest) : _kind (serviced stamp r) = _kind r.
Proof. unfold serviced. destruct (isIdle r), (isCompleted r); reflexivity. Qed.

Lemma serviced_priority (stamp : Z) (r : TaskRequest) :
  _priority (serviced stamp r) = _priority r.
Proof. unfold serviced. destruct (isIdle r), (isCompleted r); reflexivity. Qed.

Lemma serviced_state (stamp : Z) (r : TaskRequest) : _state (serviced stamp r) = _state r.
Proof. unfold serviced. destruct (isIdle r), (isCompleted r); reflexivity. Qed.

Lemma map_serviced_kinds (stamp : Z) (rs : list TaskRequest) :
  map _kind (map (serviced stamp) rs) = map _kind rs.
Proof.
  rewrite map_map. apply map_ext. intros r. apply serviced_kind.
Qed.

(** On a tile that is attached to a terrain the loop stamps every request
    that is not completed and hands the Idle ones to the task service of
    the terrain, in the order of the list. *)
Lemma serviceRequests_attached (stamp : Z) (rs : list TaskRequest) :
  forall vt h,
  exists vt' h',
    serviceRequests stamp rs (Some vt) h =
    (map (serviced stamp) rs, Some vt', h',
     map (Add (servicePointer vt h)) (resubmitted stamp rs))
    /\ servicePointer vt' h' = servicePointer vt h
    /\ _layerFactory vt' = _layerFactory vt
    /\ _revision vt' = _revision vt.
Proof.
  induction rs as [|r rest IH]; intros vt h.
  - exists vt, h. simpl. auto.
  - cbn [serviceRequests]. unfold resubmitted, serviced at 1. cbn [filter map].
    destruct (isIdle r) eqn:Hi.
    + destruct (getOrCreateTaskService vt h) as [[p vt1] h1] eqn:E.
      destruct (getOrCreateTaskService_pointer _ _ _ _ _ E) as [Hp [_ [Hs [Hf Hr]]]].
      destruct (IH vt1 h1) as [vt' [h' [H1 [H2 [H3 H4]]]]].
      exists vt', h'. rewrite H1. unfold resubmitted. rewrite Hs, Hp. cbn [map].
      repeat split; congruence.
    + destruct (IH vt h) as [vt' [h' [H1 [H2 [H3 H4]]]]].
      exists vt', h'. rewrite H1. unfold resubmitted.
      destruct (negb (isCompleted r)); auto.
Qed.

(** On a tile that is attached to no terrain the loop does nothing. *)
Lemma serviceRequests_detached (stamp : Z) (rs : list TaskRequest) (h : Services) :
  serviceRequests stamp rs None h = (rs, None, h, []).
Proof.
  induction rs as [|r rest IH]; simpl; [reflexivity|]. now rewrite IH.
Qed.

(** A servicing pass on a tile whose requests are installed. *)
Lemma servicePendingRequests_installed (stamp : Z) (w : World) (terr : VersionedTerrain) :
  _requestsInstalled (tile w) = true ->
  terrain w = Some terr ->
  exists terr' h',
    servicePendingRequests stamp w =
    Some ({| tile := set_requests (map (serviced stamp) (_requests (tile w))) (tile w);
             terrain := Some terr';
             services := h' |},
          map (Add (servicePointer terr (services w)))
            (resubmitted stamp (_requests (tile w))))
    /\ _layerFactory terr' = _layerFactory terr
    /\ _revision terr' = _revision terr.
Proof.
  intros Hi Ht. unfold servicePendingRequests. rewrite Hi, Hi, Ht.
  destruct (serviceRequests_attached stamp (_requests (tile w)) terr (services w))
    as [terr' [h' [H1 [H2 [H3 H4]]]]].
  exists terr', h'. rewrite H1. auto.
Qed.

Lemma servicePendingRequests_installed_detached (stamp : Z) (w : World) :
  _requestsInstalled (tile w) = true ->
  terrain w = None ->
  servicePendingRequests stamp w =
  Some ({| tile := set_requests (_requests (tile w)) (tile w);
           terrain := None;
           services := services w |}, []).
Proof.
  intros Hi Ht. unfold servicePendingRequests. rewrite Hi, Hi, Ht.
  now rewrite serviceRequests_detached.
Qed.

(** The first servicing pass of a tile needs the terrain. *)
Lemma servicePendingRequests_first_detached (stamp : Z) (w : World) :
  _requestsInstalled (tile w) = false ->
  terrain w = None ->
  servicePendingRequests stamp w = None.
Proof.
  intros Hi Ht. unfold servicePendingRequests, installRequests. now rewrite Hi, Ht.
Qed.

Lemma map_serviced_idle (stamp : Z) (rs : list TaskRequest) :
  Forall (fun r => _state r = STATE_IDLE /\ _stamp r = stamp) rs ->
  map (serviced stamp) rs = rs /\ resubmitted stamp rs = rs.
Proof.
  unfold resubmitted.
  induction 1 as [|r rest [Hs Hst] _ [IH1 IH2]]; [split; reflexivity|].
  assert (Hidle : isIdle r = true) by (unfold isIdle; now rewrite Hs).
  assert (E : setStamp stamp r = r) by (destruct r; simpl in *; now subst).
  cbn [map filter]. unfold serviced at 1. rewrite Hidle. cbn [map].
  now rewrite IH1, IH2, E.
Qed.

(** The first servicing pass of a tile on a terrain with a factory. *)
Lemma servicePendingRequests_first_factory (stamp : Z) (w : World)
    (terr : VersionedTerrain) (factory : TileLayerFactory) :
  _requestsInstalled (tile w) = false ->
  _requests (tile w) = [] ->
  terrain w = Some terr ->
  _layerFactory terr = Some factory ->
  let created := installedRequests stamp (servicePointer terr (services w)) (tile w) in
  exists terr' h',
    servicePendingRequests stamp w =
    Some ({| tile := set_requests created
                       (set_requestsInstalled true (set_requests created (tile w)));
             terrain := Some terr';
             services := h' |},
          map (Add (servicePointer terr (services w))) created).
Proof.
  intros Hi Hrs Ht Hf created. unfold servicePendingRequests. rewrite Hi.
  destruct (installRequests_factory stamp w terr factory Ht Hf)
    as [terr1 [h1 [H1 H2]]].
  rewrite H1, Hrs. cbn [app tile _requestsInstalled set_requestsInstalled
                        terrain services _requests set_requests].
  fold created.
  destruct (serviceRequests_attached stamp created terr1 h1)
    as [terr' [h' [H3 [H4 _]]]].
  rewrite H3, H2.
  destruct (map_serviced_idle stamp created (installedRequests_idle _ _ _)) as [-> ->].
  exists terr', h'. reflexivity.
Qed.

(** The first servicing pass of a tile on a terrain without a factory. *)
Lemma servicePendingRequests_first_no_factory (stamp : Z) (w : World)
    (terr : VersionedTerrain) :
  _requestsInstalled (tile w) = false ->
  _requests (tile w) = [] ->
  terrain w = Some terr ->
  _layerFactory terr = None ->
  servicePendingRequests stamp w =
  Some ({| tile := set_requests []
                     (set_requestsInstalled true (set_requests [] (tile w)));
           terrain := Some terr;
           services := services w |}, []).
Proof.
  intros Hi Hrs Ht Hf. unfold servicePendingRequests. rewrite Hi.
  rewrite (installRequests_no_factory stamp w terr Ht Hf), Hrs.
  reflexivity.
Qed.

(* ------------------------------------------------------------------ *)
(** ** The harvest loop                                                *)
(* ------------------------------------------------------------------ *)

Lemma harvest_nil (w : World) : harvest [] w = Some ([], w).
Proof. now simp harvest. Qed.

(** One round of the loop, as the source has it. *)
Lemma harvest_cons (r : TaskRequest) (rest : list TaskRequest) (w : World) :
  harvest (r :: rest) w =
  if isCompleted r then
    harvest rest (set_tile (applyResult r (tile w)) w)
  else if isCanceled r then
    match World_getOrCreateTaskService w with
    | Some (p, w') => harvest (resetCanceled p r :: rest) w'
    | None => None
    end
  else
    match harvest rest w with
    | Some (kept, w') => Some (r :: kept, w')
    | None => None
    end.
Proof.
  rewrite harvest_equation_2. unfold inspect.
  enough (K : forall b (e : isCompleted r = b),
    harvest_unfold_clause_2 r (exist _ b e) rest w =
    if b then harvest rest (set_tile (applyResult r (tile w)) w)
    else if isCanceled r then
      match World_getOrCreateTaskService w with
      | Some (p, w') => harvest (resetCanceled p r :: rest) w'
      | None => None
      end
    else
      match harvest rest w with
      | Some (kept, w') => Some (r :: kept, w')
      | None => None
      end) by apply K.
  intros b e. destruct b; simp harvest; [reflexivity|]. unfold inspect.
  enough (K : forall b (e' : isCanceled r = b),
    harvest_unfold_clause_2_clause_2 r (exist _ b e') e rest w =
    if b then
      match World_getOrCreateTaskService w with
      | Some (p, w') => harvest (resetCanceled p r :: rest) w'
      | None => None
      end
    else
      match harvest rest w with
      | Some (kept, w') => Some (r :: kept, w')
      | None => None
      end) by apply K.
  intros b e'. destruct b; simp harvest.
  - destruct (World_getOrCreateTaskService w) as [[p w']|]; now simp harvest.
  - destruct (harvest rest w) as [[kept w']|]; now simp harvest.
Qed.

Lemma harvest_cons_completed (r : TaskRequest) (rest : list TaskRequest) (w : World) :
  isCompleted r = true ->
  harvest (r :: rest) w = harvest rest (set_tile (applyResult r (tile w)) w).
Proof. intros H. now rewrite harvest_cons, H. Qed.

Lemma harvest_cons_other (r : TaskRequest) (rest : list TaskRequest) (w : World) :
  isCompleted r = false ->
  isCanceled r = false ->
  harvest (r :: rest) w =
  match harvest rest w with
  | Some (kept, w') => Some (r :: kept, w')
  | None => None
  end.
Proof. intros H1 H2. now rewrite harvest_cons, H1, H2. Qed.

(** A cancelled request is reset under the iterator, seen once more as an
    Idle request, and kept. *)
Lemma harvest_cons_canceled (r : TaskRequest) (rest : list TaskRequest) (w : World) :
  isCompleted r = false ->
  isCanceled r = true ->
  harvest (r :: rest) w =
  match World_getOrCreateTaskService w with
  | Some (p, w') =>
      match harvest rest w' with
      | Some (kept, w'') => Some (resetCanceled p r :: kept, w'')
      | None => None
      end
  | None => None
  end.
Proof.
  intros H1 H2. rewrite harvest_cons, H1, H2.
  destruct (World_getOrCreateTaskService w) as [[p w']|]; [|reflexivity].
  now rewrite harvest_cons_other by reflexivity.
Qed.

(** Merging a result writes the layers and the dirty flags of the tile
    and nothing else. *)
Lemma applyResult_frame (r : TaskRequest) (t : VersionedTile) :
  _key (applyResult r t) = _key t /\
  _useLayerRequests (applyResult r t) = _useLayerRequests t /\
  _terrainRevision (applyResult r t) = _terrainRevision t /\
  _tileRevision (applyResult r t) = _tileRevision t /\
  _geometryRevision (applyResult r t) = _geometryRevision t /\
  _requestsInstalled (applyResult r t) = _requestsInstalled t /\
  _requestElevation (applyResult r t) = _requestElevation t /\
  _requests (applyResult r t) = _requests t /\
  _usePerLayerUpdates (applyResult r t) = _usePerLayerUpdates t.
Proof.
  unfold applyResult.
  destruct (_kind r); destruct (_result r); simpl;
    try destruct (_usePerLayerUpdates t) eqn:E; simpl; repeat split; congruence.
Qed.

(** Merging a result never clears a dirty flag. *)
Lemma applyResult_dirty_mono (r : TaskRequest) (t : VersionedTile) :
  (_dirty (base t) = true -> _dirty (base (applyResult r t)) = true) /\
  (_elevationLayerDirty t = true -> _elevationLayerDirty (applyResult r t) = true) /\
  (_colorLayersDirty t = true -> _colorLayersDirty (applyResult r t) = true).
Proof.
  unfold applyResult.
  destruct (_kind r); destruct (_result r); simpl;
    try destruct (_usePerLayerUpdates t); simpl; repeat split; auto.
Qed.

Lemma applyResult_null (r : TaskRequest) (t : VersionedTile) :
  _result r = None -> applyResult r t = t.
Proof. intros H. unfold applyResult. rewrite H. now destruct (_kind r). Qed.

Lemma mergeResults_cons (r : TaskRequest) (rs : list TaskRequest) (t : VersionedTile) :
  mergeResults (r :: rs) t =
  if isCompleted r then mergeResults rs (applyResult r t) else mergeResults rs t.
Proof. unfold mergeResults. simpl. now destruct (isCompleted r). Qed.

Lemma mergeResults_app (rs1 rs2 : list TaskRequest) (t : VersionedTile) :
  mergeResults (rs1 ++ rs2) t = mergeResults rs2 (mergeResults rs1 t).
Proof. unfold mergeResults. now rewrite filter_app, fold_left_app. Qed.

Lemma mergeResults_frame (rs : list TaskRequest) :
  forall t,
    _key (mergeResults rs t) = _key t /\
    _useLayerRequests (mergeResults rs t) = _useLayerRequests t /\
    _terrainRevision (mergeResults rs t) = _terrainRevision t /\
    _tileRevision (mergeResults rs t) = _tileRevision t /\
    _geometryRevision (mergeResults rs t) = _geometryRevision t /\
    _requestsInstalled (mergeResults rs t) = _requestsInstalled t /\
    _requestElevation (mergeResults rs t) = _requestElevation t /\
    _requests (mergeResults rs t) = _requests t /\
    _usePerLayerUpdates (mergeResults rs t) = _usePerLayerUpdates t.
Proof.
  induction rs as [|r rest IH]; intros t.
  - unfold mergeResults. simpl. repeat split; reflexivity.
  - rewrite mergeResults_cons. destruct (isCompleted r); [|apply IH].
    pose proof (applyResult_frame r t) as F.
    pose proof (IH (applyResult r t)) as G.
    repeat match goal with H : _ /\ _ |- _ => destruct H end.
    repeat split; congruence.
Qed.

Lemma mergeResults_dirty_mono (rs : list TaskRequest) :
  forall t,
    (_dirty (base t) = true -> _dirty (base (mergeResults rs t)) = true) /\
    (_elevationLayerDirty t = true -> _elevationLayerDirty (mergeResults rs t) = true) /\
    (_colorLayersDirty t = true -> _colorLayersDirty (mergeResults rs t) = true).
Proof.
  induction rs as [|r rest IH]; intros t.
  - unfold mergeResults. simpl. auto.
  - rewrite mergeResults_cons. destruct (isCompleted r); [|apply IH].
    pose proof (applyResult_dirty_mono r t) as [F1 [F2 F3]].
    pose proof (IH (applyResult r t)) as [G1 [G2 G3]].
    repeat split; auto.
Qed.

(** When every completed request has a null result the merge changes
    nothing. *)
Lemma mergeResults_null (rs : list TaskRequest) :
  forall t,
    (forall r, In r rs -> isCompleted r = true -> _result r = None) ->
    mergeResults rs t = t.
Proof.
  induction rs as [|r rest IH]; intros t H.
  - reflexivity.
  - rewrite mergeResults_cons. destruct (isCompleted r) eqn:E.
    + rewrite applyResult_null by (apply H; [now left|exact E]).
      apply IH. intros r' Hr'. apply H. now right.
    + apply IH. intros r' Hr'. apply H. now right.
Qed.

Lemma keptRequests_cons (p : nat) (r : TaskRequest) (rs : list TaskRequest) :
  keptRequests p (r :: rs) =
  if isCompleted r then keptRequests p rs
  else harvested p r :: keptRequests p rs.
Proof. unfold keptRequests. simpl. now destruct (isCompleted r). Qed.

(** The harvest of a tile that is attached to a terrain: the loop ends,
    the completed requests are gone from the list, the cancelled ones are
    reset in place, and the results of the completed ones are merged. *)
Lemma harvest_attached (rs : list TaskRequest) :
  forall t terr h,
  exists terr' h',
    harvest rs (mkWorld t (Some terr) h) =
    Some (keptRequests (servicePointer terr h) rs,
          mkWorld (mergeResults rs t) (Some terr') h')
    /\ servicePointer terr' h' = servicePointer terr h
    /\ _layerFactory terr' = _layerFactory terr
    /\ _revision terr' = _revision terr.
Proof.
  induction rs as [|r rest IH]; intros t terr h.
  - exists terr, h. rewrite harvest_nil. auto.
  - rewrite keptRequests_cons, mergeResults_cons.
    destruct (isCompleted r) eqn:Hc.
    + rewrite harvest_cons_completed by exact Hc. apply IH.
    + unfold harvested. destruct (isCanceled r) eqn:Hx.
      * rewrite harvest_cons_canceled by assumption.
        unfold World_getOrCreateTaskService. cbn [terrain services tile].
        destruct (getOrCreateTaskService terr h) as [[p terr1] h1] eqn:E.
        destruct (getOrCreateTaskService_pointer _ _ _ _ _ E) as [Hp [_ [Hs [Hf Hr]]]].
        destruct (IH t terr1 h1) as [terr' [h' [H1 [H2 [H3 H4]]]]].
        exists terr', h'. rewrite H1, Hs, Hp. repeat split; congruence.
      * rewrite harvest_cons_other by assumption.
        destruct (IH t terr h) as [terr' [h' [H1 [H2 [H3 H4]]]]].
        exists terr', h'. rewrite H1. auto.
Qed.

Lemma serviceCompletedRequests_attached (t : VersionedTile) (terr : VersionedTerrain)
    (h : Services) :
  exists terr' h',
    serviceCompletedRequests (mkWorld t (Some terr) h) =
    Some (mkWorld
            (set_requests (keptRequests (servicePointer terr h) (_requests t))
               (mergeResults (_requests t) t))
            (Some terr') h')
    /\ _layerFactory terr' = _layerFactory terr
    /\ _revision terr' = _revision terr.
Proof.
  unfold serviceCompletedRequests. cbn [tile].
  destruct (harvest_attached (_requests t) t terr h) as [terr' [h' [H1 [_ [H2 H3]]]]].
  exists terr', h'. rewrite H1. auto.
Qed.

(** Whatever the terrain pointer is: when the harvest returns, the list
    it leaves holds the requests that were not completed, each one as it
    was or reset, and the tile holds the merged results. *)
Lemma harvest_result (rs : list TaskRequest) :
  forall w kept w',
    harvest rs w = Some (kept, w') ->
    tile w' = mergeResults rs (tile w) /\
    Forall2 (fun r r' => (isCanceled r = false /\ r' = r) \/
                         exists p, isCanceled r = true /\ r' = resetCanceled p r)
      (filter (fun r => negb (isCompleted r)) rs) kept.
Proof.
  induction rs as [|r rest IH]; intros w kept w' H.
  - rewrite harvest_nil in H. injection H as <- <-. split; [reflexivity|constructor].
  - rewrite mergeResults_cons. cbn [filter].
    destruct (isCompleted r) eqn:Hc; cbn [negb].
    + rewrite harvest_cons_completed in H by exact Hc.
      apply IH in H. exact H.
    + destruct (isCanceled r) eqn:Hx.
      * rewrite harvest_cons_canceled in H by assumption.
        unfold World_getOrCreateTaskService in H.
        destruct (terrain w) as [terr|] eqn:Ht; [|discriminate].
        destruct (getOrCreateTaskService terr (services w)) as [[p terr1] h1].
        destruct (harvest rest _) as [[kept1 w1]|] eqn:E; [|discriminate].
        injection H as <- <-. apply IH in E. cbn [tile] in E.
        destruct E as [E1 E2]. split; [exact E1|].
        constructor; [|exact E2]. right. exists p. auto.
      * rewrite harvest_cons_other in H by assumption.
        destruct (harvest rest w) as [[kept1 w1]|] eqn:E; [|discriminate].
        injection H as <- <-. apply IH in E. destruct E as [E1 E2].
        split; [exact E1|]. constructor; [left; auto|exact E2].
Qed.

(* ------------------------------------------------------------------ *)
(** ** Servicing pass: stamps and submissions                          *)
(* ------------------------------------------------------------------ *)

Lemma installRequests_installed (stamp : Z) (w w1 : World) :
  installRequests stamp w = Some w1 ->
  _requestsInstalled (tile w1) = true /\ exists terr1, terrain w1 = Some terr1.
Proof.
  unfold installRequests. destruct (terrain w) as [terr|]; [|discriminate].
  destruct (match getTileLayerFactory terr with Some _ => _ | None => _ end)
    as [[rs terr'] h'].
  intros H. injection H as <-. simpl. split; [reflexivity|now exists terr'].
Qed.

Lemma submitted_map_Add (p : nat) (rs : list TaskRequest) :
  submitted (map (Add p) rs) = rs.
Proof. induction rs as [|r rest IH]; simpl; [reflexivity|now rewrite IH]. Qed.

Lemma submitted_app (tr1 tr2 : list Event) :
  submitted (tr1 ++ tr2) = submitted tr1 ++ submitted tr2.
Proof.
  induction tr1 as [|[p r|e c] tr1 IH]; simpl; [reflexivity| |exact IH].
  now rewrite IH.
Qed.

(** The servicing loop of any pass, the first one included: [w1] is the
    world when the loop starts, after the installation if there is one. *)
Lemma servicePendingRequests_loop (stamp : Z) (w w1 : World) (terr : VersionedTerrain) :
  terrain w = Some terr ->
  (if _requestsInstalled (tile w) then Some w else installRequests stamp w) = Some w1 ->
  exists terr1 terr' h',
    terrain w1 = Some terr1 /\
    servicePendingRequests stamp w =
    Some ({| tile := set_requests (map (serviced stamp) (_requests (tile w1))) (tile w1);
             terrain := Some terr';
             services := h' |},
          map (Add (servicePointer terr1 (services w1)))
            (resubmitted stamp (_requests (tile w1)))).
Proof.
  intros Ht H.
  assert (Hi : _requestsInstalled (tile w1) = true /\ exists terr1, terrain w1 = Some terr1).
  { destruct (_requestsInstalled (tile w)) eqn:E.
    - injection H as <-. split; [exact E|now exists terr].
    - now apply (installRequests_installed stamp w). }
  destruct Hi as [Hi [terr1 Ht1]].
  unfold servicePendingRequests. rewrite H, Hi, Ht1.
  destruct (serviceRequests_attached stamp (_requests (tile w1)) terr1 (services w1))
    as [terr' [h' [H1 _]]].
  exists terr1, terr', h'. rewrite H1. auto.
Qed.

(** C6. A servicing pass with stamp [s].
    Over a tile that is attached to its terrain, for every request that
    the tile holds when the loop starts: an Idle request gets the stamp
    [s] and is handed to the task service; a request that is neither
    Idle nor Completed gets the stamp [s] and is not handed over; a
    Completed request is left as it is and is not handed over. The
    requests handed over are the Idle ones, once each, in the order of
    the list.
    Over a tile that is attached to no terrain the loop does not run: if
    the installation has run before, every request, an Idle one
    included, keeps its stamp and nothing is handed over; if not, the
    installation dereferences the null terrain. *)
Theorem servicePendingRequests_stamps_and_submits (s : Z) (w : World) :
  (forall (w1 : World) (terr : VersionedTerrain),
     terrain w = Some terr ->
     (if _requestsInstalled (tile w) then Some w else installRequests s w) = Some w1 ->
     exists w' evs,
       servicePendingRequests s w = Some (w', evs)
       /\ Forall2
            (fun r r' =>
               (_state r = STATE_IDLE ->
                r' = setStamp s r /\ In r' (submitted evs)) /\
               (_state r <> STATE_IDLE -> _state r <> STATE_COMPLETED ->
                r' = setStamp s r) /\
               (_state r = STATE_COMPLETED -> r' = r))
            (_requests (tile w1)) (_requests (tile w'))
       /\ submitted evs =
          map (setStamp s) (filter (fun r => State_eqb (_state r) STATE_IDLE)
                              (_requests (tile w1)))
       /\ Forall (fun r => _stamp r = s /\ _state r = STATE_IDLE) (submitted evs))
  /\ (terrain w = None ->
      _requestsInstalled (tile w) = true ->
      exists w',
        servicePendingRequests s w = Some (w', [])
        /\ _requests (tile w') = _requests (tile w))
  /\ (terrain w = None ->
      _requestsInstalled (tile w) = false ->
      servicePendingRequests s w = None).
Proof.
  split; [|split].
  - intros w1 terr Ht H.
    destruct (servicePendingRequests_loop s w w1 terr Ht H)
      as [terr1 [terr' [h' [Ht1 E]]]].
    eexists. eexists. split; [exact E|].
    cbn [tile _requests set_requests]. rewrite submitted_map_Add.
    split; [|split].
    + generalize (_requests (tile w1)). intros rs.
      assert (G : forall r, In r rs -> _state r = STATE_IDLE ->
                            In (setStamp s r) (resubmitted s rs)).
      { intros r Hr Hs. unfold resubmitted. apply in_map. apply filter_In.
        split; [exact Hr|]. unfold isIdle. now rewrite Hs. }
      revert G. generalize (resubmitted s rs). intros sub G.
      induction rs as [|r rest IH]; [constructor|].
      cbn [map]. constructor.
      * unfold serviced, isIdle, isCompleted.
        destruct (_state r) eqn:Hs; cbn [State_eqb negb]; repeat split;
          try congruence; intros;
          try (apply G; [now left|exact Hs]).
      * apply IH. intros r' Hr'. apply G. now right.
    + reflexivity.
    + unfold resubmitted. apply Forall_forall. intros r Hr.
      apply in_map_iff in Hr. destruct Hr as [r0 [<- Hr0]].
      apply filter_In in Hr0. destruct Hr0 as [_ Hi].
      split; [reflexivity|]. simpl. unfold isIdle in Hi.
      destruct (_state r0); try discriminate. reflexivity.
  - intros Ht Hi. eexists.
    split; [apply (servicePendingRequests_installed_detached s w Hi Ht)|].
    reflexivity.
  - intros Ht Hi. apply (servicePendingRequests_first_detached s w Hi Ht).
Qed.

(* ------------------------------------------------------------------ *)
(** ** The update pass                                                 *)
(* ------------------------------------------------------------------ *)

Lemma serviceCompletedRequests_total (w : World) (terr : VersionedTerrain) :
  terrain w = Some terr ->
  exists w1,
    serviceCompletedRequests w = Some w1 /\
    _requests (tile w1) = keptRequests (servicePointer terr (services w)) (_requests (tile w)) /\
    base (tile w1) = base (mergeResults (_requests (tile w)) (tile w)) /\
    _elevationLayerDirty (tile w1) =
      _elevationLayerDirty (mergeResults (_requests (tile w)) (tile w)) /\
    _colorLayersDirty (tile w1) =
      _colorLayersDirty (mergeResults (_requests (tile w)) (tile w)) /\
    _geometryRevision (tile w1) = _geometryRevision (tile w) /\
    _requestsInstalled (tile w1) = _requestsInstalled (tile w) /\
    _usePerLayerUpdates (tile w1) = _usePerLayerUpdates (tile w) /\
    _terrainRevision (tile w1) = _terrainRevision (tile w) /\
    _useLayerRequests (tile w1) = _useLayerRequests (tile w) /\
    _key (tile w1) = _key (tile w).
Proof.
  destruct w as [t terr0 h]. cbn [terrain tile services]. intros ->.
  destruct (serviceCompletedRequests_attached t terr h) as [terr' [h' [H _]]].
  eexists. split; [exact H|]. cbn [tile].
  pose proof (mergeResults_frame (_requests t) t) as F.
  repeat match goal with H : _ /\ _ |- _ => destruct H end.
  repeat split; try assumption; reflexivity.
Qed.

(** C7. An update pass over a tile with request servicing enabled, the
    tile attached to its terrain. The harvest runs first. When the
    whole-tile dirty flag is then set, both per-layer dirty flags are set
    and no incremental rebuild is asked for; when it is clear and at
    least one per-layer flag is set, one incremental rebuild is asked
    for, with exactly those flags. After the base-class traversal the
    geometry revision has grown by exactly 1 if the elevation flag was
    set at that point and is unchanged otherwise, and both per-layer
    flags are clear. *)
Theorem traverse_update_pass (w : World) (terr : VersionedTerrain) :
  terrain w = Some terr ->
  _useLayerRequests (tile w) = true ->
  exists w1 w' evs,
    serviceCompletedRequests w = Some w1
    /\ traverse UPDATE_VISITOR w = Some (w', evs)
    /\ (let t1 := tile w1 in
        let t2 := fst (evaluateDirty t1) in
        (getDirty (base t1) = true ->
         _elevationLayerDirty t2 = true /\ _colorLayersDirty t2 = true /\ evs = [])
        /\ (getDirty (base t1) = false ->
            t2 = t1 /\
            evs = if _elevationLayerDirty t1 || _colorLayersDirty t1
                  then [UpdateContent (_elevationLayerDirty t1) (_colorLayersDirty t1)]
                  else [])
        /\ base (tile w') = TerrainTile_traverse UPDATE_VISITOR (base t2)
        /\ _geometryRevision (tile w') =
           (if _elevationLayerDirty t2
            then _geometryRevision (tile w) + 1
            else _geometryRevision (tile w))
        /\ _elevationLayerDirty (tile w') = false
        /\ _colorLayersDirty (tile w') = false
        /\ _requests (tile w') = _requests t1).
Proof.
  intros Ht Hu.
  destruct (serviceCompletedRequests_total w terr Ht)
    as [w1 [H1 [_ [_ [_ [_ [Hg _]]]]]]].
  exists w1.
  exists (set_tile
            (finishPass
               (set_base
                  (TerrainTile_traverse UPDATE_VISITOR
                     (base (fst (evaluateDirty (tile w1)))))
                  (fst (evaluateDirty (tile w1))))) w1).
  exists (snd (evaluateDirty (tile w1))).
  split; [exact H1|]. split.
  - unfold traverse. rewrite Hu, H1. cbn [VisitorType_eqb andb].
    now destruct (evaluateDirty (tile w1)).
  - cbn [tile set_tile]. unfold evaluateDirty, finishPass.
    destruct (getDirty (base (tile w1))) eqn:Hd.
    + cbn. rewrite Hg. repeat split; try reflexivity; discriminate.
    + destruct (_elevationLayerDirty (tile w1)) eqn:He;
        destruct (_colorLayersDirty (tile w1)) eqn:Hc;
        cbn; rewrite ?He, ?Hc, ?Hg; cbn;
        repeat split; try reflexivity; try discriminate; try exact Hg.
Qed.

(* ------------------------------------------------------------------ *)
(** ** Harvest: what becomes of a completed request                    *)
(* ------------------------------------------------------------------ *)

Lemma NoDup_map_eq {A B : Type} (f : A -> B) (l : list A) :
  NoDup (map f l) ->
  forall x y, In x l -> In y l -> f x = f y -> x = y.
Proof.
  induction l as [|a l IH]; intros Hnd x y Hx Hy E; [contradiction|].
  simpl in Hnd. inversion Hnd as [|? ? Hnotin Hnd']; subst.
  destruct Hx as [->|Hx], Hy as [->|Hy].
  - reflexivity.
  - exfalso. apply Hnotin. rewrite E. now apply in_map.
  - exfalso. apply Hnotin. rewrite <- E. now apply in_map.
  - now apply IH.
Qed.

Lemma NoDup_map_split {A B : Type} (f : A -> B) (pre post : list A) (x : A) :
  NoDup (map f (pre ++ x :: post)) ->
  (forall y, In y pre -> f y <> f x) /\ (forall y, In y post -> f y <> f x).
Proof.
  rewrite map_app. cbn [map]. intros H.
  apply NoDup_remove_2 in H. split; intros y Hy E; apply H; apply in_or_app.
  - left. rewrite <- E. now apply in_map.
  - right. rewrite <- E. now apply in_map.
Qed.

Lemma isCompleted_state (r : TaskRequest) :
  isCompleted r = true <-> _state r = STATE_COMPLETED.
Proof. unfold isCompleted. destruct (_state r); simpl; split; congruence. Qed.

Lemma isCanceled_state (r : TaskRequest) :
  isCanceled r = true <-> _state r = STATE_CANCELED.
Proof. unfold isCanceled. destruct (_state r); simpl; split; congruence. Qed.

Lemma isIdle_state (r : TaskRequest) :
  isIdle r = true <-> _state r = STATE_IDLE.
Proof. unfold isIdle. destruct (_state r); simpl; split; congruence. Qed.

Lemma harvested_kind (p : nat) (r : TaskRequest) : _kind (harvested p r) = _kind r.
Proof. unfold harvested. now destruct (isCanceled r). Qed.

Lemma harvested_not_completed (p : nat) (r : TaskRequest) :
  isCompleted r = false -> _state (harvested p r) <> STATE_COMPLETED.
Proof.
  unfold harvested. intros H. destruct (isCanceled r); simpl; [discriminate|].
  intros E. apply isCompleted_state in E. congruence.
Qed.

(** Every request that the harvest keeps stems from one that was not
    completed. *)
Lemma keptRequests_In (p : nat) (rs : list TaskRequest) (r' : TaskRequest) :
  In r' (keptRequests p rs) ->
  exists r, In r rs /\ isCompleted r = false /\ r' = harvested p r.
Proof.
  unfold keptRequests. intros H. apply in_map_iff in H.
  destruct H as [r [<- H]]. apply filter_In in H. destruct H as [H1 H2].
  exists r. repeat split; [exact H1|]. now destruct (isCompleted r).
Qed.

Lemma vector_set_same {A : Type} (i : nat) (x : option A) :
  forall v, nth_error (vector_set i x v) i = Some x.
Proof.
  induction i as [|i IH]; intros [|y v]; simpl; try reflexivity; apply IH.
Qed.

Lemma vector_set_other {A : Type} (i : nat) (x : option A) :
  forall j v y, j <> i -> nth_error v j = Some y ->
                nth_error (vector_set i x v) j = Some y.
Proof.
  induction i as [|i IH]; intros j v y Hne Hj.
  - destruct j as [|j]; [congruence|]. destruct v as [|z v]; [discriminate|].
    exact Hj.
  - destruct v as [|z v]; [destruct j; discriminate|].
    destruct j as [|j]; [exact Hj|]. simpl in *. apply IH; [congruence|exact Hj].
Qed.

(** A merge that meets no completed elevation request leaves the
    elevation layer alone. *)
Lemma mergeResults_elevation_kept (rs : list TaskRequest) :
  forall t,
    (forall r, In r rs -> isCompleted r = true -> _kind r <> TileElevationLayerRequest) ->
    _elevationLayer (base (mergeResults rs t)) = _elevationLayer (base t).
Proof.
  induction rs as [|r rest IH]; intros t H; [reflexivity|].
  rewrite mergeResults_cons.
  assert (H' : forall r0, In r0 rest -> isCompleted r0 = true ->
                          _kind r0 <> TileElevationLayerRequest)
    by (intros r0 Hr0; apply H; now right).
  destruct (isCompleted r) eqn:E; [|now apply IH].
  rewrite (IH _ H'). specialize (H r (or_introl eq_refl) E).
  unfold applyResult. destruct (_kind r) as [|i]; [congruence|].
  destruct (_result r); [|reflexivity].
  cbn. now destruct (_usePerLayerUpdates t).
Qed.

(** A merge that meets no completed request for colour layer [i] leaves
    an entry that is there at position [i] alone. *)
Lemma mergeResults_color_kept (i : nat) (rs : list TaskRequest) :
  forall t x,
    (forall r, In r rs -> isCompleted r = true -> _kind r <> TileColorLayerRequest i) ->
    nth_error (_colorLayers (base t)) i = Some x ->
    nth_error (_colorLayers (base (mergeResults rs t))) i = Some x.
Proof.
  induction rs as [|r rest IH]; intros t x H Hx; [exact Hx|].
  rewrite mergeResults_cons.
  assert (H' : forall r0, In r0 rest -> isCompleted r0 = true ->
                          _kind r0 <> TileColorLayerRequest i)
    by (intros r0 Hr0; apply H; now right).
  destruct (isCompleted r) eqn:E; [|now apply IH].
  apply (IH _ _ H'). specialize (H r (or_introl eq_refl) E).
  unfold applyResult. destruct (_kind r) as [|j].
  - destruct (_result r); [|exact Hx]. cbn. now destruct (_usePerLayerUpdates t).
  - destruct (_result r); [|exact Hx].
    assert (Hne : i <> j) by congruence.
    cbn. destruct (_usePerLayerUpdates t); cbn; now apply vector_set_other.
Qed.

(** What the merge of one completed request with a result does. *)
Lemma applyResult_installs (r : TaskRequest) (l : Layer) (t : VersionedTile) :
  _result r = Some l ->
  match _kind r with
  | TileElevationLayerRequest =>
      _elevationLayer (base (applyResult r t)) = Some l /\
      (if _usePerLayerUpdates t
       then _elevationLayerDirty (applyResult r t) = true
       else _dirty (base (applyResult r t)) = true)
  | TileColorLayerRequest i =>
      nth_error (_colorLayers (base (applyResult r t))) i = Some (Some l) /\
      (if _usePerLayerUpdates t
       then _colorLayersDirty (applyResult r t) = true
       else _dirty (base (applyResult r t)) = true)
  end.
Proof.
  intros H. unfold applyResult. rewrite H. destruct (_kind r) as [|i]; cbn.
  - destruct (_usePerLayerUpdates t); cbn; auto.
  - destruct (_usePerLayerUpdates t); cbn; split; auto; apply vector_set_same.
Qed.

(** The merge over a list without two requests for one layer: the
    result of a completed request is in the tile at the end. *)
Lemma mergeResults_installs (rs : list TaskRequest) (r : TaskRequest) (l : Layer)
    (t : VersionedTile) :
  NoDup (map _kind rs) ->
  In r rs -> isCompleted r = true -> _result r = Some l ->
  match _kind r with
  | TileElevationLayerRequest =>
      _elevationLayer (base (mergeResults rs t)) = Some l /\
      (if _usePerLayerUpdates t
       then _elevationLayerDirty (mergeResults rs t) = true
       else _dirty (base (mergeResults rs t)) = true)
  | TileColorLayerRequest i =>
      nth_error (_colorLayers (base (mergeResults rs t))) i = Some (Some l) /\
      (if _usePerLayerUpdates t
       then _colorLayersDirty (mergeResults rs t) = true
       else _dirty (base (mergeResults rs t)) = true)
  end.
Proof.
  intros Hnd Hin Hc Hl.
  destruct (in_split _ _ Hin) as [pre [post ->]].
  destruct (NoDup_map_split _ _ _ _ Hnd) as [_ Hpost].
  rewrite mergeResults_app, mergeResults_cons, Hc.
  set (t1 := mergeResults pre t).
  assert (Hmode : _usePerLayerUpdates t1 = _usePerLayerUpdates t)
    by apply (mergeResults_frame pre t).
  pose proof (applyResult_installs r l t1 Hl) as A.
  pose proof (mergeResults_dirty_mono post (applyResult r t1)) as [M1 [M2 M3]].
  rewrite Hmode in A.
  destruct (_kind r) as [|i] eqn:Hk; destruct A as [A1 A2]; split.
  - rewrite mergeResults_elevation_kept; [exact A1|].
    intros r0 Hr0 _. now apply Hpost.
  - destruct (_usePerLayerUpdates t); auto.
  - apply mergeResults_color_kept; [|exact A1].
    intros r0 Hr0 _. now apply Hpost.
  - destruct (_usePerLayerUpdates t); auto.
Qed.

Lemma applyResult_set_requests (x : list TaskRequest) (r : TaskRequest)
    (t : VersionedTile) :
  applyResult r (set_requests x t) = set_requests x (applyResult r t).
Proof.
  unfold applyResult. destruct (_kind r); destruct (_result r); cbn;
    try destruct (_usePerLayerUpdates t); reflexivity.
Qed.

(** The loop carries the [_requests] field of the tile along without
    reading it. *)
Lemma harvest_set_requests (x : list TaskRequest) (rs : list TaskRequest) :
  forall w,
    harvest rs (set_tile (set_requests x (tile w)) w) =
    match harvest rs w with
    | Some (kept, w') => Some (kept, set_tile (set_requests x (tile w')) w')
    | None => None
    end.
Proof.
  induction rs as [|r rest IH]; intros w.
  - now rewrite !harvest_nil.
  - destruct (isCompleted r) eqn:Hc.
    + rewrite !harvest_cons_completed by exact Hc.
      rewrite <- IH. cbn [tile set_tile terrain services].
      now rewrite applyResult_set_requests.
    + destruct (isCanceled r) eqn:Hx.
      * rewrite !harvest_cons_canceled by assumption.
        unfold World_getOrCreateTaskService. cbn [tile set_tile terrain services].
        destruct (terrain w) as [terr|]; [|reflexivity].
        destruct (getOrCreateTaskService terr (services w)) as [[p terr1] h1].
        specialize (IH (mkWorld (tile w) (Some terr1) h1)).
        unfold set_tile in IH at 1. cbn [tile terrain services] in IH.
        rewrite IH.
        clear IH.
        now destruct (harvest rest (mkWorld (tile w) (Some terr1) h1)) as [[kept w']|].
      * rewrite !harvest_cons_other by assumption. rewrite IH.
        now destruct (harvest rest w) as [[kept w']|].
Qed.

(** A Completed request with a null result leaves no trace in the loop. *)
Lemma harvest_skip_null (r : TaskRequest) (post : list TaskRequest) :
  isCompleted r = true -> _result r = None ->
  forall pre w, harvest (pre ++ r :: post) w = harvest (pre ++ post) w.
Proof.
  intros Hc Hn. induction pre as [|a pre IH]; intros w.
  - cbn [app]. rewrite harvest_cons_completed by exact Hc.
    rewrite applyResult_null by exact Hn. now destruct w.
  - cbn [app]. rewrite !(harvest_cons a). destruct (isCompleted a); [apply IH|].
    destruct (isCanceled a).
    + destruct (World_getOrCreateTaskService w) as [[p w']|]; [|reflexivity].
      rewrite !harvest_cons_other by reflexivity. now rewrite IH.
    + now rewrite IH.
Qed.

(** C4. The harvest of a tile that is attached to its terrain and holds
    at most one request per layer. Every request that is Completed is
    removed from the collection. When its result is not null, the result
    is the tile's elevation layer afterwards (elevation request) or the
    tile's colour layer at the request's index (colour request), and the
    matching per-layer dirty flag is set in per-layer mode, the
    whole-tile dirty flag otherwise. A Completed request with a null
    result is removed and does nothing else: the harvest ends in the
    world in which it ends without that request in the collection; and
    when the results of all Completed requests are null, no layer is
    written and no dirty flag changes. *)
Theorem serviceCompletedRequests_completed
  (w : World) (terr : VersionedTerrain) :
  terrain w = Some terr ->
  NoDup (map _kind (_requests (tile w))) ->
  exists w',
    serviceCompletedRequests w = Some w'
    /\ Forall (fun r' => _state r' <> STATE_COMPLETED) (_requests (tile w'))
    /\ (forall r, In r (_requests (tile w)) -> _state r = STATE_COMPLETED ->
        forall r', In r' (_requests (tile w')) -> _kind r' <> _kind r)
    /\ (forall r l, In r (_requests (tile w)) -> _state r = STATE_COMPLETED ->
        _result r = Some l ->
        match _kind r with
        | TileElevationLayerRequest =>
            getElevationLayer (base (tile w')) = Some l /\
            (if _usePerLayerUpdates (tile w)
             then _elevationLayerDirty (tile w') = true
             else getDirty (base (tile w')) = true)
        | TileColorLayerRequest i =>
            nth_error (_colorLayers (base (tile w'))) i = Some (Some l) /\
            (if _usePerLayerUpdates (tile w)
             then _colorLayersDirty (tile w') = true
             else getDirty (base (tile w')) = true)
        end)
    /\ (forall pre r post,
          _requests (tile w) = pre ++ r :: post ->
          _state r = STATE_COMPLETED -> _result r = None ->
          serviceCompletedRequests (set_tile (set_requests (pre ++ post) (tile w)) w)
          = Some w')
    /\ ((forall r, In r (_requests (tile w)) -> _state r = STATE_COMPLETED ->
         _result r = None) ->
        base (tile w') = base (tile w) /\
        _elevationLayerDirty (tile w') = _elevationLayerDirty (tile w) /\
        _colorLayersDirty (tile w') = _colorLayersDirty (tile w)).
Proof.
  intros Ht Hnd.
  destruct (serviceCompletedRequests_total w terr Ht)
    as [w' [H [Hk [Hb [He [Hc _]]]]]].
  exists w'. split; [exact H|]. split; [|split; [|split; [|split]]].
  - rewrite Hk. apply Forall_forall. intros r' Hr'.
    apply keptRequests_In in Hr'. destruct Hr' as [r [_ [Hn ->]]].
    now apply harvested_not_completed.
  - intros r Hr Hs r' Hr' E. rewrite Hk in Hr'.
    apply keptRequests_In in Hr'. destruct Hr' as [r0 [Hr0 [Hn ->]]].
    rewrite harvested_kind in E.
    assert (r0 = r) by (apply (NoDup_map_eq _kind _ Hnd); assumption).
    subst r0. apply isCompleted_state in Hs. congruence.
  - intros r l Hr Hs Hl. apply isCompleted_state in Hs.
    pose proof (mergeResults_installs _ r l (tile w) Hnd Hr Hs Hl) as M.
    unfold getElevationLayer, getDirty. rewrite Hb, He, Hc. exact M.
  - intros pre r post Hrs Hs Hn. apply isCompleted_state in Hs.
    unfold serviceCompletedRequests in *. cbn [tile set_tile _requests set_requests].
    rewrite harvest_set_requests, <- (harvest_skip_null r post Hs Hn), <- Hrs.
    destruct (harvest (_requests (tile w)) w) as [[kept w1]|]; [|discriminate].
    injection H as <-. reflexivity.
  - intros Hnull. rewrite Hb, He, Hc.
    rewrite mergeResults_null; [auto|].
    intros r Hr Hs. apply Hnull; [exact Hr|]. now apply isCompleted_state.
Qed.

(* ------------------------------------------------------------------ *)
(** ** What each operation does to the request collection              *)
(* ------------------------------------------------------------------ *)

(** The ways of [servicePendingRequests] to return. *)
Lemma servicePendingRequests_cases (stamp : Z) (w w' : World) (evs : list Event) :
  servicePendingRequests stamp w = Some (w', evs) ->
  _requestsInstalled (tile w') = true /\
  ((_requestsInstalled (tile w) = true /\
    ((_requests (tile w') = map (serviced stamp) (_requests (tile w)) /\
      submitted evs = resubmitted stamp (_requests (tile w)))
     \/ (_requests (tile w') = _requests (tile w) /\ evs = [])))
   \/
   (_requestsInstalled (tile w) = false /\
    exists terr, terrain w = Some terr /\
      ((_layerFactory terr = None /\
        _requests (tile w') = map (serviced stamp) (_requests (tile w)) /\
        submitted evs = resubmitted stamp (_requests (tile w)))
       \/
       (exists factory p, _layerFactory terr = Some factory /\
          _requests (tile w') =
            map (serviced stamp)
              (_requests (tile w) ++ installedRequests stamp p (tile w)) /\
          submitted evs =
            resubmitted stamp
              (_requests (tile w) ++ installedRequests stamp p (tile w)))))).
Proof.
  intros H.
  destruct (terrain w) as [terr|] eqn:Ht.
  - destruct (_requestsInstalled (tile w)) eqn:Hi.
    + destruct (servicePendingRequests_loop stamp w w terr Ht)
        as [terr1 [terr' [h' [_ E]]]]; [now rewrite Hi|].
      rewrite E in H. injection H as <- <-. cbn. rewrite submitted_map_Add.
      split; [exact Hi|]. left. split; [reflexivity|]. left. auto.
    + destruct (_layerFactory terr) as [factory|] eqn:Hf.
      * destruct (installRequests_factory stamp w terr factory Ht Hf)
          as [terr1 [h1 [E1 _]]].
        pose proof (fun w1 => servicePendingRequests_loop stamp w w1 terr Ht) as L.
        rewrite Hi in L. destruct (L _ E1) as [terr2 [terr' [h' [_ E]]]].
        rewrite E in H. injection H as <- <-. cbn. rewrite submitted_map_Add.
        split; [reflexivity|]. right. split; [reflexivity|].
        exists terr. split; [reflexivity|]. right.
        exists factory, (servicePointer terr (services w)). auto.
      * pose proof (installRequests_no_factory stamp w terr Ht Hf) as E1.
        pose proof (fun w1 => servicePendingRequests_loop stamp w w1 terr Ht) as L.
        rewrite Hi in L. destruct (L _ E1) as [terr2 [terr' [h' [_ E]]]].
        rewrite E in H. injection H as <- <-. cbn. rewrite submitted_map_Add.
        split; [reflexivity|]. right. split; [reflexivity|].
        exists terr. split; [reflexivity|]. left. auto.
  - destruct (_requestsInstalled (tile w)) eqn:Hi.
    + rewrite (servicePendingRequests_installed_detached stamp w Hi Ht) in H.
      injection H as <- <-. cbn. split; [exact Hi|].
      left. split; [reflexivity|]. right. auto.
    + rewrite (servicePendingRequests_first_detached stamp w Hi Ht) in H.
      discriminate.
Qed.

Lemma serviceCompletedRequests_cases (w w' : World) :
  serviceCompletedRequests w = Some w' ->
  _requestsInstalled (tile w') = _requestsInstalled (tile w) /\
  Forall2 kept_as
    (filter (fun r => negb (isCompleted r)) (_requests (tile w)))
    (_requests (tile w')).
Proof.
  unfold serviceCompletedRequests.
  destruct (harvest (_requests (tile w)) w) as [[kept w1]|] eqn:E; [|discriminate].
  intros H. injection H as <-. cbn.
  apply harvest_result in E. destruct E as [E1 E2]. rewrite E1. split.
  - apply (mergeResults_frame (_requests (tile w)) (tile w)).
  - eapply Forall2_impl; [|exact E2].
    intros r r' [[Hx ->]|[p [Hx ->]]].
    + left. split; [|reflexivity]. intros F. apply isCanceled_state in F. congruence.
    + right. exists p. split; [now apply isCanceled_state|reflexivity].
Qed.

Lemma finishPass_frame (t : VersionedTile) :
  _requests (finishPass t) = _requests t /\
  _requestsInstalled (finishPass t) = _requestsInstalled t /\
  _terrainRevision (finishPass t) = _terrainRevision t /\
  base (finishPass t) = base t.
Proof.
  unfold finishPass. destruct (_elevationLayerDirty t); cbn; auto.
Qed.

Lemma evaluateDirty_frame (t : VersionedTile) :
  _requests (fst (evaluateDirty t)) = _requests t /\
  _requestsInstalled (fst (evaluateDirty t)) = _requestsInstalled t /\
  _terrainRevision (fst (evaluateDirty t)) = _terrainRevision t /\
  base (fst (evaluateDirty t)) = base t /\
  submitted (snd (evaluateDirty t)) = [].
Proof.
  unfold evaluateDirty. destruct (getDirty (base t)); cbn; [auto|].
  destruct (_elevationLayerDirty t || _colorLayersDirty t); cbn; auto.
Qed.

(** A traversal hands nothing to the task service; it leaves the request
    collection alone or harvests it. *)
Lemma traverse_cases (nv : VisitorType) (w w' : World) (evs : list Event) :
  traverse nv w = Some (w', evs) ->
  submitted evs = [] /\
  exists w1,
    (w1 = w \/ serviceCompletedRequests w = Some w1) /\
    _requests (tile w') = _requests (tile w1) /\
    _requestsInstalled (tile w') = _requestsInstalled (tile w1) /\
    _terrainRevision (tile w') = _terrainRevision (tile w1).
Proof.
  unfold traverse.
  destruct (_useLayerRequests (tile w) && VisitorType_eqb nv UPDATE_VISITOR).
  - destruct (serviceCompletedRequests w) as [w1|] eqn:E; [|discriminate].
    pose proof (evaluateDirty_frame (tile w1)) as [F1 [F2 [F3 [_ F4]]]].
    destruct (evaluateDirty (tile w1)) as [t2 evs2]. cbn [fst snd] in *.
    intros H. injection H as <- <-. split; [exact F4|].
    exists w1. split; [now right|]. cbn [tile set_tile].
    pose proof (finishPass_frame
                  (set_base (TerrainTile_traverse nv (base t2)) t2)) as [G1 [G2 [G3 _]]].
    rewrite G1, G2, G3. cbn. auto.
  - intros H. injection H as <- <-. split; [reflexivity|].
    exists w. split; [now left|]. cbn. auto.
Qed.

(* ------------------------------------------------------------------ *)
(** ** Invariants of the request collection                            *)
(* ------------------------------------------------------------------ *)

Lemma Forall2_In_r {A B : Type} (R : A -> B -> Prop) (l1 : list A) (l2 : list B) :
  Forall2 R l1 l2 -> forall y, In y l2 -> exists x, In x l1 /\ R x y.
Proof.
  induction 1 as [|x y l1 l2 Hxy _ IH]; intros z Hz; [contradiction|].
  destruct Hz as [<-|Hz].
  - exists x. split; [now left|exact Hxy].
  - destruct (IH z Hz) as [x' [Hx' Hr]]. exists x'. split; [now right|exact Hr].
Qed.

Lemma Forall2_In_l {A B : Type} (R : A -> B -> Prop) (l1 : list A) (l2 : list B) :
  Forall2 R l1 l2 -> forall x, In x l1 -> exists y, In y l2 /\ R x y.
Proof.
  induction 1 as [|x y l1 l2 Hxy _ IH]; intros z Hz; [contradiction|].
  destruct Hz as [<-|Hz].
  - exists y. split; [now left|exact Hxy].
  - destruct (IH z Hz) as [y' [Hy' Hr]]. exists y'. split; [now right|exact Hr].
Qed.

Lemma kept_as_kind (r r' : TaskRequest) : kept_as r r' -> _kind r' = _kind r.
Proof. intros [[_ ->]|[p [_ ->]]]; reflexivity. Qed.

Lemma Forall2_kinds (R : TaskRequest -> TaskRequest -> Prop)
    (l1 l2 : list TaskRequest) :
  (forall r r', R r r' -> _kind r' = _kind r) ->
  Forall2 R l1 l2 -> map _kind l2 = map _kind l1.
Proof.
  intros HR. induction 1 as [|x y l1 l2 Hxy _ IH]; [reflexivity|].
  simpl. now rewrite IH, (HR _ _ Hxy).
Qed.

(** Dropping requests from a collection with one request per layer
    leaves one request per layer. *)
Lemma filter_one_per_layer (keep : TaskRequest -> bool) (rs : list TaskRequest) :
  NoDup (map _kind rs) -> NoDup (map _kind (filter keep rs)).
Proof.
  induction rs as [|r rest IH]; intros H; [constructor|].
  cbn [map] in H. apply NoDup_cons_iff in H. destruct H as [Hnotin Hnd].
  cbn [filter]. destruct (keep r); [|now apply IH].
  cbn [map]. apply NoDup_cons; [|now apply IH].
  intros Hin. apply Hnotin. apply in_map_iff in Hin.
  destruct Hin as [x [E Hx]]. apply filter_In in Hx. rewrite <- E.
  apply in_map. tauto.
Qed.

Lemma worker_request_kind (r r' : TaskRequest) : worker_request r r' -> _kind r' = _kind r.
Proof. now intros [H _]. Qed.

Lemma initial_collection_ok (w : World) : initial w -> collection_ok (tile w).
Proof.
  intros [key [hint ->]]. split; [constructor|reflexivity].
Qed.

Lemma serviceCompletedRequests_collection_ok (w w' : World) :
  serviceCompletedRequests w = Some w' ->
  collection_ok (tile w) -> collection_ok (tile w').
Proof.
  intros H [Hnd He]. apply serviceCompletedRequests_cases in H.
  destruct H as [Hi HF]. unfold collection_ok, requestedLayers in *. split.
  - rewrite (Forall2_kinds _ _ _ kept_as_kind HF). now apply filter_one_per_layer.
  - rewrite Hi. intros E. rewrite (He E) in HF. inversion HF. reflexivity.
Qed.

(** Every step keeps the invariant. *)
Lemma step_collection_ok (w w' : World) (evs : list Event) :
  step w evs w' -> collection_ok (tile w) -> collection_ok (tile w').
Proof.
  intros Hs Hok. destruct Hs as [stamp w w' evs H|w w' H|nv w w' evs H|w w' H].
  - destruct Hok as [Hnd He]. unfold collection_ok, requestedLayers in *.
    apply servicePendingRequests_cases in H. destruct H as [Hi' H].
    split; [|congruence].
    destruct H as [[Hi [[-> _]|[-> _]]]|[Hi [terr [_ [[_ [-> _]]|[f [p [_ [-> _]]]]]]]]].
    + now rewrite map_serviced_kinds.
    + exact Hnd.
    + now rewrite map_serviced_kinds.
    + rewrite map_serviced_kinds, (He Hi). apply NoDup_installed_kinds.
  - now apply (serviceCompletedRequests_collection_ok w).
  - apply traverse_cases in H. destruct H as [_ [w1 [Hw1 [Hr [Hi _]]]]].
    assert (Hok1 : collection_ok (tile w1)).
    { destruct Hw1 as [->|Hw1]; [exact Hok|].
      now apply (serviceCompletedRequests_collection_ok w). }
    unfold collection_ok, requestedLayers in *. now rewrite Hr, Hi.
  - destruct Hok as [Hnd He]. destruct H as [_ [_ [Hi [_ [_ HF]]]]].
    unfold collection_ok, requestedLayers in *. split.
    + now rewrite (Forall2_kinds _ _ _ worker_request_kind HF).
    + rewrite Hi. intros E. rewrite (He E) in HF. inversion HF. reflexivity.
Qed.

Lemma steps_collection_ok (w w' : World) (tr : list Event) :
  steps w tr w' -> collection_ok (tile w) -> collection_ok (tile w').
Proof.
  induction 1 as [|w w1 w2 evs tr Hs _ IH]; [auto|].
  intros Hok. apply IH. now apply (step_collection_ok w w1 evs).
Qed.

Lemma reachable_collection_ok (w : World) : reachable w -> collection_ok (tile w).
Proof.
  intros [w0 [tr [Hi Hs]]]. apply (steps_collection_ok w0 w tr Hs).
  now apply initial_collection_ok.
Qed.

Lemma steps_app (w1 w2 w3 : World) (tr1 tr2 : list Event) :
  steps w1 tr1 w2 -> steps w2 tr2 w3 -> steps w1 (tr1 ++ tr2) w3.
Proof.
  induction 1 as [|w w1 w2 evs tr Hs _ IH]; [auto|].
  intros H. rewrite <- app_assoc. econstructor; [exact Hs|]. now apply IH.
Qed.

Lemma reachable_steps (w w' : World) (tr : list Event) :
  reachable w -> steps w tr w' -> reachable w'.
Proof.
  intros [w0 [tr0 [Hi Hs]]] H. exists w0, (tr0 ++ tr). split; [exact Hi|].
  now apply (steps_app w0 w w').
Qed.

(** Every request that a step hands to the task service is Idle. *)
Lemma resubmitted_idle (stamp : Z) (rs : list TaskRequest) :
  Forall (fun q => _state q = STATE_IDLE) (resubmitted stamp rs).
Proof.
  unfold resubmitted. apply Forall_forall. intros q Hq.
  apply in_map_iff in Hq. destruct Hq as [r [<- Hr]].
  apply filter_In in Hr. destruct Hr as [_ Hr]. now apply isIdle_state in Hr.
Qed.

Lemma step_submitted_idle (w w' : World) (evs : list Event) :
  step w evs w' -> Forall (fun q => _state q = STATE_IDLE) (submitted evs).
Proof.
  intros Hs. destruct Hs as [stamp w w' evs H|w w' H|nv w w' evs H|w w' H];
    try constructor.
  - apply servicePendingRequests_cases in H. destruct H as [_ H].
    destruct H as [[_ [[_ ->]|[_ ->]]]|[_ [terr [_ [[_ [_ ->]]|[f [p [_ [_ ->]]]]]]]]];
      try apply resubmitted_idle. constructor.
  - apply traverse_cases in H. destruct H as [-> _]. constructor.
Qed.

Lemma steps_submitted_idle (w w' : World) (tr : list Event) :
  steps w tr w' -> Forall (fun q => _state q = STATE_IDLE) (submitted tr).
Proof.
  induction 1 as [|w w1 w2 evs tr Hs _ IH]; [constructor|].
  rewrite submitted_app. apply Forall_app. split; [|exact IH].
  now apply (step_submitted_idle w w1).
Qed.

(** Once every request for a layer is Completed, no step hands a request
    for that layer to the task service, and it stays so. *)
Lemma step_completed_layer (k : RequestKind) (w w' : World) (evs : list Event) :
  step w evs w' ->
  completed_layer k (tile w) ->
  completed_layer k (tile w') /\ Forall (fun q => _kind q <> k) (submitted evs).
Proof.
  intros Hs [Hi Hall].
  assert (Hsub : forall stamp, Forall (fun q => _kind q <> k)
                                 (resubmitted stamp (_requests (tile w)))).
  { intros stamp. unfold resubmitted. apply Forall_forall. intros q Hq.
    apply in_map_iff in Hq. destruct Hq as [r [<- Hr]].
    apply filter_In in Hr. destruct Hr as [Hr Hidle]. cbn. intros E.
    apply isIdle_state in Hidle. rewrite (Hall r Hr E) in Hidle. discriminate. }
  assert (Hkept : forall w1, serviceCompletedRequests w = Some w1 ->
                             completed_layer k (tile w1)).
  { intros w1 H. apply serviceCompletedRequests_cases in H. destruct H as [Hi1 HF].
    split; [congruence|]. intros q' Hq' E.
    destruct (Forall2_In_r _ _ _ HF q' Hq') as [q [Hq Hk]].
    apply filter_In in Hq. destruct Hq as [Hq Hn].
    rewrite (kept_as_kind _ _ Hk) in E.
    apply Hall in E; [|exact Hq]. apply isCompleted_state in E.
    rewrite E in Hn. discriminate. }
  destruct Hs as [stamp w w' evs H|w w' H|nv w w' evs H|w w' H].
  - apply servicePendingRequests_cases in H. destruct H as [Hi' H].
    destruct H as [[_ [[Hr Hev]|[Hr ->]]]|[Hi0 _]]; [| |congruence].
    + split; [|rewrite Hev; apply Hsub]. split; [exact Hi'|].
      rewrite Hr. intros q' Hq' E. apply in_map_iff in Hq'.
      destruct Hq' as [q [<- Hq]]. rewrite serviced_kind in E.
      rewrite serviced_state. now apply Hall.
    + split; [|constructor]. split; [exact Hi'|]. now rewrite Hr.
  - split; [now apply Hkept|constructor].
  - apply traverse_cases in H. destruct H as [-> [w1 [Hw1 [Hr [Hi1 _]]]]].
    split; [|constructor].
    assert (H1 : completed_layer k (tile w1)).
    { destruct Hw1 as [->|Hw1]; [now split|now apply Hkept]. }
    destruct H1 as [H1 H2]. split; [congruence|]. now rewrite Hr.
  - split; [|constructor]. destruct H as [_ [_ [Hi1 [_ [_ HF]]]]].
    split; [congruence|]. intros q' Hq' E.
    destruct (Forall2_In_r _ _ _ HF q' Hq') as [q [Hq [Hk [_ [_ Hst]]]]].
    rewrite Hk in E. pose proof (Hall q Hq E) as Hc.
    destruct Hst as [Hst|Hst]; [congruence|].
    rewrite Hc in Hst. inversion Hst.
Qed.

Lemma steps_completed_layer (k : RequestKind) (w w' : World) (tr : list Event) :
  steps w tr w' ->
  completed_layer k (tile w) ->
  completed_layer k (tile w') /\ Forall (fun q => _kind q <> k) (submitted tr).
Proof.
  induction 1 as [|w w1 w2 evs tr Hs _ IH]; intros Hc.
  - split; [exact Hc|constructor].
  - destruct (step_completed_layer k w w1 evs Hs Hc) as [H1 H2].
    destruct (IH H1) as [H3 H4]. split; [exact H3|].
    rewrite submitted_app. apply Forall_app. auto.
Qed.

(** A tile whose installation has run and whose collection is empty
    keeps an empty collection and hands nothing to the task service. *)
Lemma step_empty (w w' : World) (evs : list Event) :
  step w evs w' ->
  _requestsInstalled (tile w) = true -> _requests (tile w) = [] ->
  _requestsInstalled (tile w') = true /\ _requests (tile w') = [] /\
  submitted evs = [].
Proof.
  intros Hs Hi He.
  assert (Hkept : forall w1, serviceCompletedRequests w = Some w1 ->
            _requestsInstalled (tile w1) = true /\ _requests (tile w1) = []).
  { intros w1 H. apply serviceCompletedRequests_cases in H. destruct H as [Hi1 HF].
    rewrite He in HF. inversion HF. split; congruence. }
  destruct Hs as [stamp w w' evs H|w w' H|nv w w' evs H|w w' H].
  - apply servicePendingRequests_cases in H. destruct H as [Hi' H].
    destruct H as [[_ [[Hr Hev]|[Hr ->]]]|[Hi0 _]]; [| |congruence].
    + rewrite Hr, Hev, He. auto.
    + rewrite Hr, He. auto.
  - destruct (Hkept _ H). auto.
  - apply traverse_cases in H. destruct H as [-> [w1 [Hw1 [Hr [Hi1 _]]]]].
    assert (H1 : _requestsInstalled (tile w1) = true /\ _requests (tile w1) = []).
    { destruct Hw1 as [->|Hw1]; [auto|now apply Hkept]. }
    destruct H1. repeat split; congruence.
  - destruct H as [_ [_ [Hi1 [_ [_ HF]]]]]. rewrite He in HF. inversion HF.
    repeat split; congruence.
Qed.

Lemma steps_empty (w w' : World) (tr : list Event) :
  steps w tr w' ->
  _requestsInstalled (tile w) = true -> _requests (tile w) = [] ->
  _requestsInstalled (tile w') = true /\ _requests (tile w') = [] /\
  submitted tr = [].
Proof.
  induction 1 as [|w w1 w2 evs tr Hs _ IH]; intros Hi He; [auto|].
  destruct (step_empty w w1 evs Hs Hi He) as [H1 [H2 H3]].
  destruct (IH H1 H2) as [H4 [H5 H6]].
  rewrite submitted_app, H3, H6. auto.
Qed.

(** Servicing passes in a row, on a tile whose installation has run,
    keep the layers of the collection as they are. *)
Lemma servicePendingRequests_repeat_layers (stamps : list Z) :
  forall w w',
    _requestsInstalled (tile w) = true ->
    servicePendingRequests_repeat stamps w = Some w' ->
    requestedLayers (tile w') = requestedLayers (tile w) /\
    _requestsInstalled (tile w') = true.
Proof.
  induction stamps as [|stamp rest IH]; intros w w' Hi H; simpl in H.
  - injection H as <-. auto.
  - destruct (servicePendingRequests stamp w) as [[w1 evs]|] eqn:E; [|discriminate].
    apply servicePendingRequests_cases in E. destruct E as [Hi1 E].
    destruct (IH w1 w' Hi1 H) as [H1 H2]. split; [|exact H2].
    rewrite H1. unfold requestedLayers.
    destruct E as [[_ [[-> _]|[-> _]]]|[Hi0 _]]; [| |congruence].
    + apply map_serviced_kinds.
    + reflexivity.
Qed.

(** C1, as the code has it. For every tile, at every moment between two
    calls, the collection holds at most one request per layer. The
    first servicing pass of a tile on a terrain that has a tile-layer
    factory creates one request for each colour layer, and one for the
    elevation layer when the tile has one and the elevation hint is
    set, and sets [_requestsInstalled]; servicing passes after that,
    any number of them, leave the layers of the collection as they
    are. *)
Theorem at_most_one_request_per_layer :
  (forall w, reachable w -> NoDup (requestedLayers (tile w)))
  /\ (forall stamp w terr factory,
        reachable w ->
        _requestsInstalled (tile w) = false ->
        terrain w = Some terr ->
        _layerFactory terr = Some factory ->
        exists w' evs,
          servicePendingRequests stamp w = Some (w', evs) /\
          _requestsInstalled (tile w') = true /\
          requestedLayers (tile w') =
            (match getElevationLayer (base (tile w)) with
             | Some _ =>
                 if _requestElevation (tile w) then [TileElevationLayerRequest] else []
             | None => []
             end)
            ++ map TileColorLayerRequest (seq 0 (getNumColorLayers (base (tile w)))))
  /\ (forall stamps w w',
        _requestsInstalled (tile w) = true ->
        servicePendingRequests_repeat stamps w = Some w' ->
        requestedLayers (tile w') = requestedLayers (tile w) /\
        _requestsInstalled (tile w') = true).
Proof.
  split; [|split].
  - intros w Hw. apply (reachable_collection_ok w Hw).
  - intros stamp w terr factory Hw Hi Ht Hf.
    destruct (reachable_collection_ok w Hw) as [_ He].
    destruct (servicePendingRequests_first_factory stamp w terr factory Hi (He Hi) Ht Hf)
      as [terr' [h' E]].
    eexists. eexists. split; [exact E|]. cbn. split; [reflexivity|].
    unfold requestedLayers. cbn. apply installedRequests_kinds.
  - intros stamps w w'. apply servicePendingRequests_repeat_layers.
Qed.

(** C5. The harvest of a tile that is attached to its terrain keeps
    every Canceled request in the collection, reset to Idle and with a
    fresh progress monitor; over any run of a tile, every request that
    is handed to the task service is Idle at that moment; and from the
    moment a request of a tile is Completed, no request for its layer is
    handed to the task service again. *)
Theorem canceled_reset_and_only_idle_submitted :
  (forall w terr r,
      terrain w = Some terr ->
      In r (_requests (tile w)) -> _state r = STATE_CANCELED ->
      exists w' p,
        serviceCompletedRequests w = Some w' /\
        In (resetCanceled p r) (_requests (tile w')) /\
        _state (resetCanceled p r) = STATE_IDLE /\
        _progress (resetCanceled p r) = TileRequestProgressCallback p)
  /\ (forall w tr w',
        steps w tr w' ->
        Forall (fun q => _state q = STATE_IDLE) (submitted tr))
  /\ (forall w r tr w',
        reachable w ->
        In r (_requests (tile w)) -> _state r = STATE_COMPLETED ->
        steps w tr w' ->
        Forall (fun q => _kind q <> _kind r) (submitted tr)).
Proof.
  split; [|split].
  - intros w terr r Ht Hr Hs.
    destruct (serviceCompletedRequests_total w terr Ht) as [w' [H _]].
    exists w'. pose proof H as Hc. apply serviceCompletedRequests_cases in Hc.
    destruct Hc as [_ HF].
    assert (Hin : In r (filter (fun r => negb (isCompleted r)) (_requests (tile w)))).
    { apply filter_In. split; [exact Hr|]. unfold isCompleted. now rewrite Hs. }
    destruct (Forall2_In_l _ _ _ HF r Hin) as [r' [Hr' [[Hn _]|[p [_ ->]]]]].
    + contradiction.
    + exists p. auto.
  - intros w tr w'. apply steps_submitted_idle.
  - intros w r tr w' Hw Hr Hs Hst.
    assert (Hc : completed_layer (_kind r) (tile w)).
    { destruct (reachable_collection_ok w Hw) as [Hnd He]. split.
      - destruct (_requestsInstalled (tile w)) eqn:E; [reflexivity|].
        rewrite (He eq_refl) in Hr. contradiction.
      - intros q Hq Hk.
        now rewrite (NoDup_map_eq _kind _ Hnd q r Hq Hr Hk). }
    apply (steps_completed_layer _ w w' tr Hst Hc).
Qed.

(** C10. When the first servicing pass of a tile runs on a terrain
    without a tile-layer factory, it sets [_requestsInstalled] and creates
    no request; from then on the collection stays empty and nothing is
    handed to the task service, whatever happens to the tile and to the
    terrain, a factory included. *)
Theorem first_pass_without_factory_installs_for_good
  (stamp : Z) (w : World) (terr : VersionedTerrain) :
  reachable w ->
  _requestsInstalled (tile w) = false ->
  terrain w = Some terr ->
  _layerFactory terr = None ->
  exists w',
    servicePendingRequests stamp w = Some (w', [])
    /\ _requestsInstalled (tile w') = true
    /\ _requests (tile w') = []
    /\ (forall tr w'',
          steps w' tr w'' ->
          _requestsInstalled (tile w'') = true /\
          _requests (tile w'') = [] /\
          submitted tr = [])
    /\ (forall stamp2 terr2 h2 factory,
          _layerFactory terr2 = Some factory ->
          exists w2,
            servicePendingRequests stamp2 (mkWorld (tile w') (Some terr2) h2)
            = Some (w2, []) /\
            _requests (tile w2) = []).
Proof.
  intros Hw Hi Ht Hf.
  destruct (reachable_collection_ok w Hw) as [_ He].
  pose proof (servicePendingRequests_first_no_factory stamp w terr Hi (He Hi) Ht Hf) as E.
  eexists. split; [exact E|]. cbn [tile]. split; [reflexivity|]. split; [reflexivity|].
  split.
  - intros tr w'' Hs. apply (steps_empty _ _ _ Hs); reflexivity.
  - intros stamp2 terr2 h2 factory Hf2.
    match goal with |- context [mkWorld ?t _ _] => set (t' := t) end.
    destruct (servicePendingRequests_installed stamp2 (mkWorld t' (Some terr2) h2) terr2)
      as [terr' [h' [E2 _]]]; [reflexivity|reflexivity|].
    eexists. split; [exact E2|]. reflexivity.
Qed.

(** The update pass does not look at the revision of the terrain. *)
Lemma traverse_revision_independent (nv : VisitorType) (t : VersionedTile)
    (terr : VersionedTerrain) (h : Services) (revision : Z) :
  option_map (fun r => (tile (fst r), snd r))
    (traverse nv (mkWorld t (Some (set_revision revision terr)) h)) =
  option_map (fun r => (tile (fst r), snd r))
    (traverse nv (mkWorld t (Some terr) h)).
Proof.
  unfold traverse. cbn [tile].
  destruct (_useLayerRequests t && VisitorType_eqb nv UPDATE_VISITOR); [|reflexivity].
  destruct (serviceCompletedRequests_attached t (set_revision revision terr) h)
    as [terr1 [h1 [E1 _]]].
  destruct (serviceCompletedRequests_attached t terr h) as [terr2 [h2 [E2 _]]].
  rewrite E1, E2.
  change (servicePointer (set_revision revision terr) h) with (servicePointer terr h).
  destruct (evaluateDirty _) as [t2 evs]. reflexivity.
Qed.

(** C3, as the code has it. [isInSyncWithTerrain] answers false exactly
    when the revision stored in the tile differs from the revision of
    its terrain. The update pass does not consult it: it leaves the
    stored revision and [_requestsInstalled] as they are, creates no
    request, and does to the tile what it does when the revisions
    agree. *)
Theorem isInSyncWithTerrain_compares_and_traverse_ignores :
  (forall w terr,
      terrain w = Some terr ->
      (isInSyncWithTerrain w = Some false <-> _terrainRevision (tile w) <> getRevision terr)
      /\ (isInSyncWithTerrain w = Some true <-> _terrainRevision (tile w) = getRevision terr))
  /\ (forall nv w w' evs,
        traverse nv w = Some (w', evs) ->
        _terrainRevision (tile w') = _terrainRevision (tile w) /\
        _requestsInstalled (tile w') = _requestsInstalled (tile w) /\
        (forall r', In r' (_requests (tile w')) ->
                    exists r, In r (_requests (tile w)) /\ _kind r' = _kind r))
  /\ (forall nv t terr h revision,
        option_map (fun r => (tile (fst r), snd r))
          (traverse nv (mkWorld t (Some (set_revision revision terr)) h)) =
        option_map (fun r => (tile (fst r), snd r))
          (traverse nv (mkWorld t (Some terr) h))).
Proof.
  split; [|split].
  - intros w terr Ht. unfold isInSyncWithTerrain. rewrite Ht.
    destruct (Z.eqb_spec (_terrainRevision (tile w)) (getRevision terr)) as [E|E];
      split; split; intros H; try congruence; try reflexivity.
  - intros nv w w' evs H. apply traverse_cases in H.
    destruct H as [_ [w1 [[->|Hw1] [Hr [Hi Hrev]]]]].
    + repeat split; try assumption. intros r' Hr'. exists r'. rewrite Hr in Hr'. auto.
    + pose proof Hw1 as Hc. apply serviceCompletedRequests_cases in Hc.
      destruct Hc as [Hi1 HF].
      assert (Hrev1 : _terrainRevision (tile w1) = _terrainRevision (tile w)).
      { unfold serviceCompletedRequests in Hw1.
        destruct (harvest _ w) as [[kept w2]|] eqn:E; [|discriminate].
        injection Hw1 as <-. apply harvest_result in E. destruct E as [E _].
        cbn. rewrite E. apply (mergeResults_frame (_requests (tile w)) (tile w)). }
      repeat split; try congruence. intros r' Hr'. rewrite Hr in Hr'.
      destruct (Forall2_In_r _ _ _ HF r' Hr') as [r [Hin Hk]].
      apply filter_In in Hin. exists r. split; [tauto|]. now apply kept_as_kind.
  - intros. apply traverse_revision_independent.
Qed.

(* ------------------------------------------------------------------ *)
(** ** Priorities                                                      *)
(* ------------------------------------------------------------------ *)

Lemma priorities_checked_32_256 : priorities_checked 32 256 = true.
Proof. vm_compute. reflexivity. Qed.

Lemma priorities_rounded_spec (lod : Z) :
  0 <= lod < 32 ->
  Float.exactly (elevationPriority lod) lod 1 = true /\
  Float.exactly (colorPriority lod 0) lod 1 = true /\
  forall i, (i < 256)%nat ->
    Float.nearest32 (colorPriority lod i) (10 * lod + Z.of_nat i) 10 = true.
Proof.
  intros Hl. pose proof priorities_checked_32_256 as H.
  unfold priorities_checked in H. rewrite forallb_forall in H.
  specialize (H (Z.to_nat lod)). rewrite Z2Nat.id in H by lia.
  assert (Hin : In (Z.to_nat lod) (seq 0 32)) by (apply in_seq; lia).
  apply H in Hin. unfold priorities_rounded in Hin.
  apply andb_prop in Hin. destruct Hin as [Hin H3].
  apply andb_prop in Hin. destruct Hin as [H1 H2].
  split; [exact H1|]. split; [exact H2|].
  intros i Hi. rewrite forallb_forall in H3. apply H3. apply in_seq. lia.
Qed.

Lemma priorities_exact_checked_32_256 : priorities_exact_checked 32 256 = true.
Proof. vm_cast_no_check (@eq_refl bool true). Qed.

Lemma priorities_exact_checked_sound (levels layers : nat) :
  priorities_exact_checked levels layers = true ->
  forall (lod : Z) (i : nat),
    0 <= lod < Z.of_nat levels ->
    (i < layers)%nat ->
    (Float.exactly (colorPriority lod i) (10 * lod + Z.of_nat i) 10 = true
     <-> Z.of_nat i mod 5 = 0).
Proof.
  intros H lod i Hl Hi.
  unfold priorities_exact_checked in H. rewrite forallb_forall in H.
  specialize (H (Z.to_nat lod)). rewrite Z2Nat.id in H by lia.
  assert (Hin : In (Z.to_nat lod) (seq 0 levels)) by (apply in_seq; lia).
  apply H in Hin. unfold priorities_exact in Hin.
  rewrite forallb_forall in Hin. specialize (Hin i).
  assert (Hi' : In i (seq 0 layers)) by (apply in_seq; lia).
  apply Hin in Hi'. apply Bool.eqb_prop in Hi'. rewrite Hi'.
  apply Z.eqb_eq.
Qed.

(** C9. The first servicing pass of a tile at level [lod], on a terrain
    with a factory, creates the elevation request, if the tile has an
    elevation layer and the hint is set, with the priority [(float) lod],
    and after it the request for each colour layer [i] with the priority
    [(float) lod + 0.1 * (float) i], evaluated in double precision and
    stored as a float; it creates no other request. For a level up to 31
    and a layer index up to 255 the first is the level itself, and the
    second is the float nearest to [lod + i / 10], which is that number
    itself exactly when [i] is a multiple of 5. At level 3 the
    priorities of the elevation request and of colour layers 0 and 1
    are the floats 3.0, 3.0 and 13002342 / 2^22, the float nearest to
    31/10 and not 31/10. *)
Theorem installed_request_priorities
  (stamp : Z) (w : World) (terr : VersionedTerrain) (factory : TileLayerFactory) :
  _requestsInstalled (tile w) = false ->
  _requests (tile w) = [] ->
  terrain w = Some terr ->
  _layerFactory terr = Some factory ->
  let lod := getLevelOfDetail (_key (tile w)) in
  exists w' evs,
    servicePendingRequests stamp w = Some (w', evs)
    /\ map (fun r => (_kind r, _priority r)) (_requests (tile w')) =
       (match getElevationLayer (base (tile w)) with
        | Some _ =>
            if _requestElevation (tile w)
            then [(TileElevationLayerRequest, elevationPriority lod)]
            else []
        | None => []
        end)
       ++ map (fun i => (TileColorLayerRequest i, colorPriority lod i))
            (seq 0 (getNumColorLayers (base (tile w))))
    /\ (forall r, In r (_requests (tile w')) ->
        _priority r =
        match _kind r with
        | TileElevationLayerRequest => elevationPriority lod
        | TileColorLayerRequest i => colorPriority lod i
        end)
    /\ (0 <= lod < 32 ->
        Float.exactly (elevationPriority lod) lod 1 = true /\
        Float.exactly (colorPriority lod 0) lod 1 = true /\
        forall i, (i < 256)%nat ->
          Float.nearest32 (colorPriority lod i) (10 * lod + Z.of_nat i) 10 = true /\
          (Float.exactly (colorPriority lod i) (10 * lod + Z.of_nat i) 10 = true
           <-> Z.of_nat i mod 5 = 0))
    /\ (lod = 3 ->
        elevationPriority lod = S754_finite false 12582912 (-22) /\
        colorPriority lod 0 = S754_finite false 12582912 (-22) /\
        colorPriority lod 1 = S754_finite false 13002342 (-22) /\
        Float.exactly (colorPriority lod 1) 31 10 = false).
Proof.
  intros Hi He Ht Hf lod.
  destruct (servicePendingRequests_first_factory stamp w terr factory Hi He Ht Hf)
    as [terr' [h' E]].
  eexists. eexists. split; [exact E|]. cbn [tile _requests set_requests].
  split; [|split; [|split]].
  - unfold installedRequests. fold lod. rewrite map_app, map_map. cbn [_kind _priority newRequest].
    f_equal.
    destruct (getElevationLayer (base (tile w))); [|reflexivity].
    destruct (_requestElevation (tile w)); reflexivity.
  - intros r Hr. unfold installedRequests in Hr. apply in_app_or in Hr.
    destruct Hr as [Hr|Hr].
    + destruct (getElevationLayer (base (tile w))); [|contradiction].
      destruct (_requestElevation (tile w)); [|contradiction].
      destruct Hr as [<-|[]]. reflexivity.
    + apply in_map_iff in Hr. destruct Hr as [i [<- _]]. reflexivity.
  - intros Hl. destruct (priorities_rounded_spec lod Hl) as [H1 [H2 H3]].
    split; [exact H1|]. split; [exact H2|]. intros i Hlt.
    split; [exact (H3 i Hlt)|].
    exact (priorities_exact_checked_sound 32 256 priorities_exact_checked_32_256
             lod i Hl Hlt).
  - intros ->. repeat split; vm_compute; reflexivity.
Qed.

End Traversal.

(* ------------------------------------------------------------------ *)
(** ** The theorems at work on the example tile                        *)
(* ------------------------------------------------------------------ *)

(** The second poll finds the stamps 3 apart and reports cancelled; the
    third finds them equal and still reports cancelled. *)
Lemma example_polls_cancelled :
  nth_error (pollAll Example.polls (TileRequestProgressCallback 0)) 1 = Some true /\
  nth_error (pollAll Example.polls (TileRequestProgressCallback 0)) 2 = Some true.
Proof.
  destruct (reportProgress_cancelled_iff_stale_or_cancelled_before
              0 Example.polls 1 9 6 eq_refl) as [_ [H1 H2]].
  split.
  - apply H1. lia.
  - apply H2; [apply H1; lia|simpl; lia].
Defined.

Lemma example_fresh_tile_reachable (f : VisitorType -> TerrainTile -> TerrainTile)
    (terr : option VersionedTerrain) :
  reachable f (mkWorld Example.fresh_tile terr []).
Proof.
  exists (mkWorld (VersionedTile_new Example.key true) terr []), ([] ++ []).
  split.
  - exists Example.key, true. reflexivity.
  - apply (steps_cons f _ (mkWorld Example.fresh_tile terr [])).
    + apply step_env. cbn. repeat split; constructor.
    + apply steps_nil.
Qed.

(** The first servicing pass of the example tile creates the elevation
    request and the two colour requests. *)
Lemma example_first_pass_layers :
  exists w' evs,
    servicePendingRequests 1 Example.fresh_world = Some (w', evs) /\
    _requestsInstalled (tile w') = true /\
    requestedLayers (tile w') =
    [TileElevationLayerRequest; TileColorLayerRequest 0; TileColorLayerRequest 1].
Proof.
  exact (proj1 (proj2 (at_most_one_request_per_layer Example.still))
           1 Example.fresh_world Example.terrain_with_factory 1%nat
           (example_fresh_tile_reachable Example.still _) eq_refl eq_refl eq_refl).
Defined.

(** Under a terrain without a factory the first servicing pass of the
    example tile, which has two colour layers and an elevation layer,
    creates no request at all and still sets [_requestsInstalled]. *)
Lemma first_pass_without_factory_creates_no_request :
  reachable Example.still Example.fresh_world_without_factory /\
  _requestsInstalled (tile Example.fresh_world_without_factory) = false /\
  getNumColorLayers (base (tile Example.fresh_world_without_factory)) = 2%nat /\
  exists w',
    servicePendingRequests 1 Example.fresh_world_without_factory = Some (w', []) /\
    _requestsInstalled (tile w') = true /\
    _requests (tile w') = [] /\
    ~ (exists r, In r (_requests (tile w')) /\ _kind r = TileColorLayerRequest 0).
Proof.
  split; [apply example_fresh_tile_reachable|].
  split; [reflexivity|]. split; [reflexivity|].
  eexists. split; [vm_compute; reflexivity|]. cbn.
  split; [reflexivity|]. split; [reflexivity|].
  intros [r [[] _]].
Qed.

(** For good: no request ever appears for the example tile afterwards. *)
Lemma example_without_factory_stays_empty :
  exists w',
    servicePendingRequests 1 Example.fresh_world_without_factory = Some (w', []) /\
    _requestsInstalled (tile w') = true /\
    _requests (tile w') = [] /\
    (forall tr w'', steps Example.still w' tr w'' ->
       _requestsInstalled (tile w'') = true /\ _requests (tile w'') = [] /\
       submitted tr = []) /\
    (forall stamp2 terr2 h2 factory,
       _layerFactory terr2 = Some factory ->
       exists w2,
         servicePendingRequests stamp2 (mkWorld (tile w') (Some terr2) h2) = Some (w2, []) /\
         _requests (tile w2) = []).
Proof.
  exact (first_pass_without_factory_installs_for_good Example.still
           1 Example.fresh_world_without_factory Example.terrain_without_factory
           (example_fresh_tile_reachable Example.still _) eq_refl eq_refl eq_refl).
Defined.

(** The priorities of the three requests of the example tile. *)
Lemma example_priorities :
  exists w' evs,
    servicePendingRequests 1 Example.fresh_world = Some (w', evs) /\
    map _priority (_requests (tile w')) =
    [S754_finite false 12582912 (-22);
     S754_finite false 12582912 (-22);
     S754_finite false 13002342 (-22)] /\
    Float.exactly (S754_finite false 12582912 (-22)) 3 1 = true /\
    Float.nearest32 (S754_finite false 13002342 (-22)) 31 10 = true.
Proof.
  destruct (installed_request_priorities 1 Example.fresh_world
              Example.terrain_with_factory 1%nat eq_refl eq_refl eq_refl eq_refl)
    as [w' [evs [E [_ [_ [Hr _]]]]]].
  exists w', evs. split; [exact E|]. split.
  - vm_compute in E. injection E as <- _. reflexivity.
  - destruct (Hr ltac:(cbn; lia)) as [H1 [_ H3]]. split; [exact H1|].
    exact (proj1 (H3 1%nat ltac:(lia))).
Defined.

(** The example tile is at level 3 and has an elevation layer and two
    colour layers. The priority of its request for colour layer 1 is
    13002342 / 2^22 = 3.099999904632568359375, which is not 31/10; and
    at level 2^24 + 1 the priority of the elevation request is 2^24,
    not the level. *)
Lemma level_3_colour_priority_is_not_3_1 :
  getLevelOfDetail (_key (tile Example.fresh_world)) = 3 /\
  (exists w' evs,
     servicePendingRequests 1 Example.fresh_world = Some (w', evs) /\
     map (fun r => (_kind r, _priority r)) (_requests (tile w')) =
     [(TileElevationLayerRequest, S754_finite false 12582912 (-22));
      (TileColorLayerRequest 0, S754_finite false 12582912 (-22));
      (TileColorLayerRequest 1, S754_finite false 13002342 (-22))]) /\
  Float.exactly (S754_finite false 13002342 (-22)) 31 10 = false /\
  Float.exactly (S754_finite false 13002342 (-22)) 13002342 (2 ^ 22) = true /\
  Float.exactly (elevationPriority (2 ^ 24 + 1)) (2 ^ 24 + 1) 1 = false /\
  Float.exactly (elevationPriority (2 ^ 24 + 1)) (2 ^ 24) 1 = true.
Proof.
  split; [reflexivity|]. split.
  - eexists. eexists. split; [vm_compute; reflexivity|]. reflexivity.
  - repeat split; vm_compute; reflexivity.
Qed.

(** A servicing pass with stamp 11 over the example tile some cycles
    later: the Idle request is stamped and handed over, the Canceled one
    is stamped only, the Completed one is left alone. *)
Lemma example_servicing_pass :
  exists w' evs,
    servicePendingRequests 11 Example.busy_world = Some (w', evs) /\
    _requests (tile w') =
    [Example.elevation_done;
     setStamp 11 Example.color0_canceled;
     setStamp 11 Example.color1_idle] /\
    submitted evs = [setStamp 11 Example.color1_idle].
Proof.
  destruct (proj1 (servicePendingRequests_stamps_and_submits 11 Example.busy_world)
              Example.busy_world Example.terrain_with_service eq_refl eq_refl)
    as [w' [evs [E [_ [Hs _]]]]].
  exists w', evs. split; [exact E|]. split; [|exact Hs].
  vm_compute in E. injection E as <- _. reflexivity.
Defined.

(** The example tile after its first servicing pass, taken off its
    terrain: its three requests are Idle with the stamp 1, and the
    servicing pass with stamp 2 leaves them Idle with the stamp 1 and
    hands nothing to the task service. *)
Lemma detached_pass_leaves_idle_requests_alone :
  reachable Example.still Example.detached_installed_world /\
  terrain Example.detached_installed_world = None /\
  _requestsInstalled (tile Example.detached_installed_world) = true /\
  map (fun r => (_kind r, _state r, _stamp r))
    (_requests (tile Example.detached_installed_world)) =
  [(TileElevationLayerRequest, STATE_IDLE, 1);
   (TileColorLayerRequest 0, STATE_IDLE, 1);
   (TileColorLayerRequest 1, STATE_IDLE, 1)] /\
  exists w',
    servicePendingRequests 2 Example.detached_installed_world = Some (w', []) /\
    submitted [] = [] /\
    map (fun r => (_kind r, _state r, _stamp r)) (_requests (tile w')) =
    [(TileElevationLayerRequest, STATE_IDLE, 1);
     (TileColorLayerRequest 0, STATE_IDLE, 1);
     (TileColorLayerRequest 1, STATE_IDLE, 1)].
Proof.
  split; [|split; [reflexivity|split; [reflexivity|split; [reflexivity|]]]].
  - assert (E : exists evs, servicePendingRequests 1 Example.fresh_world
                            = Some (Example.installed_world, evs)).
    { unfold Example.installed_world.
      destruct (servicePendingRequests 1 Example.fresh_world) as [[w e]|] eqn:E;
        [now exists e|vm_compute in E; discriminate]. }
    destruct E as [evs E].
    assert (W : forall rs, Forall2 worker_request rs rs).
    { induction rs as [|r rs IH]; constructor; [|exact IH].
      repeat split; now left. }
    apply (reachable_steps Example.still Example.fresh_world _ (evs ++ [] ++ [])).
    + apply example_fresh_tile_reachable.
    + apply (steps_cons Example.still _ Example.installed_world).
      * apply (step_servicePending Example.still 1). exact E.
      * apply (steps_cons Example.still _ Example.detached_installed_world);
          [|apply steps_nil].
        apply step_env. repeat split. apply W.
  - eexists. split; [vm_compute; reflexivity|]. split; reflexivity.
Qed.

(** The harvest of the example tile some cycles later: the elevation
    result is installed, the whole tile is dirty, and no elevation
    request is left. *)
Lemma example_harvest :
  exists w',
    serviceCompletedRequests Example.busy_world = Some w' /\
    getElevationLayer (base (tile w')) = Some 300%nat /\
    getDirty (base (tile w')) = true /\
    (forall r', In r' (_requests (tile w')) -> _kind r' <> TileElevationLayerRequest).
Proof.
  destruct (serviceCompletedRequests_completed Example.busy_world
              Example.terrain_with_service eq_refl) as [w' [E [_ [Hgone [Hinst _]]]]].
  - cbn. repeat constructor; cbn; intuition discriminate.
  - exists w'. split; [exact E|].
    destruct (Hinst Example.elevation_done 300%nat) as [H1 H2];
      [cbn; auto|reflexivity|reflexivity|].
    split; [exact H1|]. split; [exact H2|].
    apply (Hgone Example.elevation_done); [cbn; auto|reflexivity].
Defined.

(** The Canceled request of the example tile is kept and reset, and the
    Idle request that the servicing pass hands over is the only one. *)
Lemma example_canceled_is_reset :
  exists w' p,
    serviceCompletedRequests Example.busy_world = Some w' /\
    In (resetCanceled p Example.color0_canceled) (_requests (tile w')) /\
    _state (resetCanceled p Example.color0_canceled) = STATE_IDLE /\
    _progress (resetCanceled p Example.color0_canceled) = TileRequestProgressCallback p.
Proof.
  exact (proj1 (canceled_reset_and_only_idle_submitted Example.still)
           Example.busy_world Example.terrain_with_service Example.color0_canceled
           eq_refl (or_intror (or_introl eq_refl)) eq_refl).
Defined.

(** The update pass over the example tile some cycles later: the harvest
    makes the whole tile dirty, so both per-layer flags are set for the
    base-class traversal, no incremental rebuild is asked for, and the
    geometry revision goes from 0 to 1. *)
Lemma example_update_pass :
  exists w' evs,
    traverse Example.still UPDATE_VISITOR Example.busy_world = Some (w', evs) /\
    evs = [] /\
    _geometryRevision (tile w') = 1 /\
    _elevationLayerDirty (tile w') = false /\
    _colorLayersDirty (tile w') = false.
Proof.
  destruct (traverse_update_pass Example.still Example.busy_world
              Example.terrain_with_service eq_refl eq_refl)
    as [w1 [w' [evs [E1 [E [Hd [_ [_ [Hg [He [Hc _]]]]]]]]]]].
  exists w', evs. split; [exact E|].
  vm_compute in E1. injection E1 as <-.
  destruct (Hd eq_refl) as [_ [_ Hevs]].
  split; [exact Hevs|]. split; [|split; assumption].
  rewrite Hg. reflexivity.
Defined.

(** The example tile stores revision 0, its terrain is at revision 1 and
    [isInSyncWithTerrain] says so; the update pass keeps the stored
    revision and [_requestsInstalled], hands the cached layers to the
    base-class traversal as they are, sets no dirty flag, and no request
    is created for the tile afterwards. *)
Lemma stale_tile_left_alone_by_update_pass :
  _terrainRevision (tile Example.stale_world) = 0 /\
  option_map getRevision (terrain Example.stale_world) = Some 1 /\
  isInSyncWithTerrain Example.stale_world = Some false /\
  forall f : VisitorType -> TerrainTile -> TerrainTile,
  exists w',
    traverse f UPDATE_VISITOR Example.stale_world = Some (w', []) /\
    _terrainRevision (tile w') = 0 /\
    _requestsInstalled (tile w') = true /\
    _requests (tile w') = [] /\
    base (tile w') = f UPDATE_VISITOR Example.layers /\
    _elevationLayerDirty (tile w') = false /\
    _colorLayersDirty (tile w') = false /\
    _geometryRevision (tile w') = 0 /\
    (forall tr w'', steps f w' tr w'' ->
       _requestsInstalled (tile w'') = true /\ _requests (tile w'') = []).
Proof.
  split; [reflexivity|]. split; [reflexivity|]. split; [reflexivity|].
  intros f. eexists. split; [vm_compute; reflexivity|]. cbn.
  repeat (split; [reflexivity|]).
  intros tr w'' Hs.
  destruct (steps_empty f _ _ _ Hs eq_refl eq_refl) as [H1 [H2 _]]. auto.
Qed.

(** The update pass on the stale example tile does what it does on the
    same tile under a terrain at the revision that the tile stores. *)
Lemma example_stale_pass_same_as_in_sync :
  (isInSyncWithTerrain Example.stale_world = Some false <->
   _terrainRevision (tile Example.stale_world)
   <> getRevision (incrementRevision Example.terrain_with_service)) /\
  option_map (fun r => (tile (fst r), snd r))
    (traverse Example.still UPDATE_VISITOR Example.stale_world) =
  option_map (fun r => (tile (fst r), snd r))
    (traverse Example.still UPDATE_VISITOR
       (mkWorld Example.stale_tile (Some Example.terrain_with_service)
          [new_TaskService 8])).
Proof.
  split.
  - exact (proj1 (proj1 (isInSyncWithTerrain_compares_and_traverse_ignores Example.still)
                    Example.stale_world _ eq_refl)).
  - exact (proj2 (proj2 (isInSyncWithTerrain_compares_and_traverse_ignores Example.still))
             UPDATE_VISITOR Example.stale_tile Example.terrain_with_service
             [new_TaskService 8] 1).
Defined.

(* ------------------------------------------------------------------ *)
(** * Further properties of the tile, the terrain and the ephemeris   *)
(* ------------------------------------------------------------------ *)

(* ------------------------------------------------------------------ *)
(** ** Destruction                                                     *)
(* ------------------------------------------------------------------ *)

(** X1. The destructor of a tile, at whatever moment of the tile's life
    it runs, calls [cancel()] on every request that the tile holds, once
    each and in the order of the collection: the test of
    [_requestsInstalled] never leaves a request out. The notice is
    printed for the requests that are in progress and for no other. *)
Theorem destructor_cancels_every_request
  (f : VisitorType -> TerrainTile -> TerrainTile) (w : World) :
  reachable f w ->
  map fst (VersionedTile_destroy (tile w)) = _requests (tile w)
  /\ (forall r printed,
        In (r, printed) (VersionedTile_destroy (tile w)) ->
        (printed = true <-> _state r = STATE_IN_PROGRESS)).
Proof.
  intros Hw. destruct (reachable_collection_ok f w Hw) as [_ He].
  unfold VersionedTile_destroy.
  destruct (_requestsInstalled (tile w)) eqn:Hi.
  - split.
    + rewrite map_map. cbn. apply map_id.
    + intros r printed Hin. apply in_map_iff in Hin.
      destruct Hin as [r0 [E _]]. injection E as -> <-.
      destruct (_state r); cbn; split; congruence.
  - rewrite (He eq_refl). split; [reflexivity|]. intros r printed [].
Qed.

(* ------------------------------------------------------------------ *)
(** ** The terrain: thread count and revision                          *)
(* ------------------------------------------------------------------ *)

Lemma runTerrain_app (pre post : list TerrainCall) :
  forall terr h,
    runTerrain (pre ++ post) terr h =
    let '(ps1, terr1, h1) := runTerrain pre terr h in
    let '(ps2, terr2, h2) := runTerrain post terr1 h1 in
    (ps1 ++ ps2, terr2, h2).
Proof.
  induction pre as [|c pre IH]; intros terr h; cbn [app runTerrain].
  - now destruct (runTerrain post terr h) as [[ps2 terr2] h2].
  - destruct c as [|n|].
    + apply IH.
    + apply IH.
    + destruct (getOrCreateTaskService terr h) as [[p terr1] h1].
      rewrite IH.
      destruct (runTerrain pre terr1 h1) as [[ps1 terr2] h2].
      now destruct (runTerrain post terr2 h2) as [[ps2 terr3] h3].
Qed.

(** Calls other than [getOrCreateTaskService] return no address, leave
    the store and the service pointer alone. *)
Lemma runTerrain_no_use (pre : list TerrainCall) :
  forall terr h,
    forallb (fun c => negb (isGetOrCreate c)) pre = true ->
    fst (fst (runTerrain pre terr h)) = [] /\
    snd (runTerrain pre terr h) = h /\
    _taskService (snd (fst (runTerrain pre terr h))) = _taskService terr.
Proof.
  induction pre as [|c pre IH]; intros terr h H; [cbn; auto|].
  cbn [forallb] in H. apply andb_prop in H. destruct H as [Hc H].
  destruct c as [|n|]; cbn [runTerrain]; [| |discriminate].
  - apply (IH (incrementRevision terr) h H).
  - apply (IH (setNumTaskServiceThreads n terr) h H).
Qed.

Lemma to_unsigned_range (z : Z) : 0 <= to_unsigned z < 2 ^ 32.
Proof. unfold to_unsigned. apply Z.mod_pos_bound. reflexivity. Qed.

Lemma runTerrain_threads_range (calls : list TerrainCall) :
  forall terr h,
    0 <= _numTaskServiceThreads terr < 2 ^ 32 ->
    0 <= _numTaskServiceThreads (snd (fst (runTerrain calls terr h))) < 2 ^ 32.
Proof.
  induction calls as [|c calls IH]; intros terr h H; [exact H|].
  destruct c as [|n|]; cbn [runTerrain].
  - apply IH. exact H.
  - apply IH. apply to_unsigned_range.
  - destruct (getOrCreateTaskService terr h) as [[p terr1] h1] eqn:E.
    specialize (IH terr1 h1).
    destruct (runTerrain calls terr1 h1) as [[ps terr2] h2].
    cbn [fst snd] in *. apply IH.
    unfold getOrCreateTaskService in E.
    destruct (_taskService terr); injection E as _ <- _; exact H.
Qed.

(** X2. The thread count of a terrain is an [unsigned int]: what
    [getNumTaskServiceThreads] returns lies between 0 and 2^32 - 1, and
    right after the construction it is 8 or the value of the
    environment variable converted to [unsigned int] (so 4294967293 for
    -3). The task service is constructed with the thread count that the
    terrain holds at the first call of [getOrCreateTaskService]: the
    calls of [setNumTaskServiceThreads] before it count, those after it
    change what [getNumTaskServiceThreads] returns and leave the service
    as it is. *)
Theorem thread_count_fixed_at_first_use
  (factory : option TileLayerFactory) (env : option Z) (h : Services)
  (pre post : list TerrainCall) :
  forallb (fun c => negb (isGetOrCreate c)) pre = true ->
  let terr := VersionedTerrain_new factory env in
  let before := snd (fst (runTerrain pre terr h)) in
  let res := runTerrain (pre ++ CallGetOrCreateTaskService :: post) terr h in
  (snd res = h ++ [new_TaskService (getNumTaskServiceThreads before)]
   /\ _taskService (snd (fst res)) = Some (length h)
   /\ nth_error (snd res) (length h)
      = Some (new_TaskService (getNumTaskServiceThreads before))
   /\ getNumTaskServiceThreads (snd (fst res))
      = getNumTaskServiceThreads
          (snd (fst (runTerrain post before h))))
  /\ 0 <= getNumTaskServiceThreads before < 2 ^ 32
  /\ 0 <= getNumTaskServiceThreads (snd (fst res)) < 2 ^ 32
  /\ (pre = [] ->
      getNumTaskServiceThreads before
      = match env with Some n => n mod 2 ^ 32 | None => 8 end).
Proof.
  intros Hpre terr before res.
  assert (R0 : 0 <= _numTaskServiceThreads terr < 2 ^ 32).
  { subst terr. cbn [VersionedTerrain_new _numTaskServiceThreads].
    destruct env; [apply to_unsigned_range|lia]. }
  split; [|split; [|split]].
  - clear R0. subst res. rewrite runTerrain_app.
    destruct (runTerrain_no_use pre terr h Hpre) as [_ [Hh Hts]].
    fold before in Hts. change (_taskService terr) with (@None nat) in Hts.
    destruct (runTerrain pre terr h) as [[ps1 terr1] h1] eqn:E1.
    cbn [fst snd] in *. subst before h1.
    cbn [runTerrain]. rewrite (getOrCreateTaskService_fresh _ _ Hts).
    pose proof (runTerrain_valid post (set_taskService (length h) terr1)
                  (h ++ [new_TaskService (_numTaskServiceThreads terr1)])
                  (length h) eq_refl) as [_ [V2 V3]].
    assert (Hn : forall t1 t2 s1 s2,
               _numTaskServiceThreads t1 = _numTaskServiceThreads t2 ->
               _numTaskServiceThreads (snd (fst (runTerrain post t1 s1))) =
               _numTaskServiceThreads (snd (fst (runTerrain post t2 s2)))).
    { clear. induction post as [|c post IH]; intros t1 t2 s1 s2 H; [exact H|].
      destruct c as [|n|]; cbn [runTerrain].
      - apply IH. exact H.
      - apply IH. reflexivity.
      - destruct (getOrCreateTaskService t1 s1) as [[p1 t1'] s1'] eqn:G1.
        destruct (getOrCreateTaskService t2 s2) as [[p2 t2'] s2'] eqn:G2.
        specialize (IH t1' t2' s1' s2').
        destruct (runTerrain post t1' s1') as [[ps1' u1] v1].
        destruct (runTerrain post t2' s2') as [[ps2' u2] v2].
        cbn [fst snd] in *. apply IH.
        unfold getOrCreateTaskService in G1, G2.
        destruct (_taskService t1); destruct (_taskService t2);
          injection G1 as _ <- _; injection G2 as _ <- _; exact H. }
    specialize (Hn (set_taskService (length h) terr1) terr1
                  (h ++ [new_TaskService (_numTaskServiceThreads terr1)]) h eq_refl).
    destruct (runTerrain post (set_taskService (length h) terr1) _)
      as [[ps2 terr2] h2].
    cbn [fst snd] in *. subst h2. unfold getNumTaskServiceThreads.
    split; [reflexivity|]. split; [exact V3|]. split; [|exact Hn].
    rewrite nth_error_app2 by lia. now rewrite Nat.sub_diag.
  - apply runTerrain_threads_range. exact R0.
  - apply runTerrain_threads_range. exact R0.
  - intros E. subst before. rewrite E. reflexivity.
Qed.

Lemma runTerrain_revision (calls : list TerrainCall) :
  forall terr h,
    _revision (snd (fst (runTerrain calls terr h))) = _revision terr + incrementsIn calls.
Proof.
  induction calls as [|c calls IH]; intros terr h; cbn [runTerrain incrementsIn].
  - cbn [fst snd]. lia.
  - destruct c as [|n|].
    + rewrite IH. cbn [_revision incrementRevision]. lia.
    + rewrite IH. reflexivity.
    + destruct (getOrCreateTaskService terr h) as [[p terr1] h1] eqn:E.
      destruct (getOrCreateTaskService_pointer _ _ _ _ _ E) as [_ [_ [_ [_ Hr]]]].
      specialize (IH terr1 h1).
      destruct (runTerrain calls terr1 h1) as [[ps terr2] h2].
      cbn [fst snd] in *. now rewrite IH, Hr.
Qed.

Lemma incrementsIn_nonneg (calls : list TerrainCall) : 0 <= incrementsIn calls.
Proof.
  induction calls as [|c calls IH]; cbn [incrementsIn]; [lia|]. destruct c; lia.
Qed.

Lemma installColorRequests_revision (stamp lod : Z) (n : nat) :
  forall i rs terr h rs' terr' h',
    installColorRequests stamp n i rs terr h lod = (rs', terr', h') ->
    _revision terr' = _revision terr.
Proof.
  induction n as [|n IH]; intros i rs terr h rs' terr' h' H.
  - cbn in H. now injection H as _ <- _.
  - cbn in H. destruct (getOrCreateTaskService terr h) as [[p terr1] h1] eqn:G.
    apply IH in H. rewrite H.
    apply (getOrCreateTaskService_pointer _ _ _ _ _ G).
Qed.

Lemma installRequests_sync (stamp : Z) (w w1 : World) :
  installRequests stamp w = Some w1 ->
  isInSyncWithTerrain w1 = isInSyncWithTerrain w.
Proof.
  unfold installRequests, isInSyncWithTerrain.
  destruct (terrain w) as [terr|]; [|discriminate].
  destruct (match getTileLayerFactory terr with Some _ => _ | None => _ end)
    as [[rs terr'] h'] eqn:E.
  intros H. injection H as <-. cbn. apply f_equal. apply f_equal.
  unfold getRevision.
  destruct (getTileLayerFactory terr); [|now injection E as _ <- _].
  destruct (getElevationLayer (base (tile w))).
  - destruct (_requestElevation (tile w)).
    + destruct (getOrCreateTaskService terr (services w)) as [[p terr1] h1] eqn:G.
      apply installColorRequests_revision in E. rewrite E.
      apply (getOrCreateTaskService_pointer _ _ _ _ _ G).
    + now apply installColorRequests_revision in E.
  - now apply installColorRequests_revision in E.
Qed.

(** X3. A tile that takes over the revision of its terrain is in sync
    with it. Through any calls that the terrain receives afterwards the
    tile stays in sync exactly as long as [incrementRevision] is not
    among them; and the servicing pass, the harvest and the traversal
    of the tile never change whether it is in sync. *)
Theorem in_sync_until_the_terrain_revision_moves
  (f : VisitorType -> TerrainTile -> TerrainTile)
  (t : VersionedTile) (terr : VersionedTerrain) (h : Services)
  (calls : list TerrainCall) :
  let synced := setTerrainRevision (getRevision terr) t in
  let terr' := snd (fst (runTerrain calls terr h)) in
  let h' := snd (runTerrain calls terr h) in
  isInSyncWithTerrain (mkWorld synced (Some terr) h) = Some true
  /\ isInSyncWithTerrain (mkWorld synced (Some terr') h')
     = Some (incrementsIn calls =? 0)
  /\ (forall w stamp w' evs,
        servicePendingRequests stamp w = Some (w', evs) ->
        isInSyncWithTerrain w' = isInSyncWithTerrain w)
  /\ (forall w w',
        serviceCompletedRequests w = Some w' ->
        isInSyncWithTerrain w' = isInSyncWithTerrain w)
  /\ (forall w nv w' evs,
        traverse f nv w = Some (w', evs) ->
        isInSyncWithTerrain w' = isInSyncWithTerrain w).
Proof.
  intros synced terr' h'.
  assert (Hharvest : forall w w',
            serviceCompletedRequests w = Some w' ->
            isInSyncWithTerrain w' = isInSyncWithTerrain w).
  { intros w w' H. destruct w as [t0 [terr0|] h0].
    - destruct (serviceCompletedRequests_attached t0 terr0 h0)
        as [terr1 [h1 [E [_ Hr]]]].
      rewrite E in H. injection H as <-. unfold isInSyncWithTerrain, getRevision.
      cbn. rewrite Hr.
      now rewrite (proj1 (proj2 (proj2 (mergeResults_frame (_requests t0) t0)))).
    - unfold serviceCompletedRequests in H.
      destruct (harvest _ _) as [[kept w1]|] eqn:E; [|discriminate].
      injection H as <-.
      assert (Ht : forall rs w kept w1,
                 harvest rs w = Some (kept, w1) -> terrain w = None ->
                 terrain w1 = None).
      { clear. induction rs as [|r rs IH]; intros w kept w1 H Hn.
        - rewrite harvest_nil in H. now injection H as _ <-.
        - rewrite harvest_cons in H. destruct (isCompleted r).
          + apply IH in H; [exact H|exact Hn].
          + destruct (isCanceled r).
            * unfold World_getOrCreateTaskService in H. rewrite Hn in H.
              discriminate.
            * destruct (harvest rs w) as [[k w2]|] eqn:E; [|discriminate].
              injection H as _ <-. now apply (IH w k w2). }
      apply Ht in E; [|reflexivity]. unfold isInSyncWithTerrain. cbn. now rewrite E. }
  split; [|split; [|split; [|split]]].
  - unfold isInSyncWithTerrain. cbn. now rewrite Z.eqb_refl.
  - unfold isInSyncWithTerrain. cbn. subst terr'.
    rewrite runTerrain_revision. unfold getRevision.
    pose proof (incrementsIn_nonneg calls).
    destruct (Z.eqb_spec (incrementsIn calls) 0) as [E|E].
    + rewrite E, Z.add_0_r. now rewrite Z.eqb_refl.
    + apply f_equal. apply Z.eqb_neq. lia.
  - intros w stamp w' evs H. destruct (terrain w) as [terr0|] eqn:Ht.
    + assert (exists w1, (if _requestsInstalled (tile w) then Some w
                          else installRequests stamp w) = Some w1 /\
                         isInSyncWithTerrain w1 = isInSyncWithTerrain w) as [w1 [E1 S1]].
      { destruct (_requestsInstalled (tile w)) eqn:Hi; [now exists w|].
        unfold servicePendingRequests in H. rewrite Hi in H.
        destruct (installRequests stamp w) as [w1|] eqn:E; [|discriminate].
        exists w1. split; [reflexivity|]. exact (installRequests_sync stamp w w1 E). }
      unfold servicePendingRequests in H. rewrite E1 in H.
      rewrite <- S1.
      destruct (_requestsInstalled (tile w1)); [|now injection H as <- _].
      destruct (terrain w1) as [terr1|] eqn:Ht1.
      * destruct (serviceRequests_attached stamp (_requests (tile w1)) terr1 (services w1))
          as [terr2 [h2 [E2 [_ [_ Hr]]]]].
        rewrite E2 in H. injection H as <- _.
        unfold isInSyncWithTerrain, getRevision. rewrite Ht1. cbn. now rewrite Hr.
      * rewrite serviceRequests_detached in H. injection H as <- _.
        unfold isInSyncWithTerrain. now rewrite Ht1.
    + destruct (_requestsInstalled (tile w)) eqn:Hi.
      * rewrite (servicePendingRequests_installed_detached stamp w Hi Ht) in H.
        injection H as <- _. unfold isInSyncWithTerrain. now rewrite Ht.
      * rewrite (servicePendingRequests_first_detached stamp w Hi Ht) in H.
        discriminate.
  - exact Hharvest.
  - intros w nv w' evs H. unfold traverse in H.
    destruct (_useLayerRequests (tile w) && VisitorType_eqb nv UPDATE_VISITOR).
    + destruct (serviceCompletedRequests w) as [w1|] eqn:E; [|discriminate].
      rewrite <- (Hharvest w w1 E).
      pose proof (evaluateDirty_frame (tile w1)) as [_ [_ [F _]]].
      destruct (evaluateDirty (tile w1)) as [t2 evs2]. cbn [fst] in F.
      injection H as <- _. unfold isInSyncWithTerrain. cbn [terrain tile set_tile].
      destruct (terrain w1); [|reflexivity].
      rewrite (proj1 (proj2 (proj2 (finishPass_frame _)))). cbn. now rewrite F.
    + injection H as <- _. unfold isInSyncWithTerrain. cbn.
      now destruct (terrain w).
Qed.

(* ------------------------------------------------------------------ *)
(** ** A tile that is attached to no terrain                           *)
(* ------------------------------------------------------------------ *)

(** X4. On a tile that is attached to no terrain a servicing pass whose
    installation has run does nothing at all: no request is stamped, an
    Idle one included, and nothing is handed to a task service. The
    first servicing pass of such a tile dereferences the null terrain. *)
Theorem servicePendingRequests_detached (stamp : Z) (w : World) :
  terrain w = None ->
  if _requestsInstalled (tile w) then
    exists w',
      servicePendingRequests stamp w = Some (w', []) /\
      _requests (tile w') = _requests (tile w) /\
      _requestsInstalled (tile w') = true /\
      base (tile w') = base (tile w) /\
      terrain w' = None /\ services w' = services w
  else servicePendingRequests stamp w = None.
Proof.
  intros Ht. destruct (_requestsInstalled (tile w)) eqn:Hi.
  - eexists. split; [apply (servicePendingRequests_installed_detached stamp w Hi Ht)|].
    cbn. auto.
  - apply (servicePendingRequests_first_detached stamp w Hi Ht).
Qed.

Lemma harvest_detached (rs : list TaskRequest) :
  forall t h,
    harvest rs (mkWorld t None h) =
    if existsb (fun r => negb (isCompleted r) && isCanceled r) rs
    then None
    else Some (filter (fun r => negb (isCompleted r)) rs,
               mkWorld (mergeResults rs t) None h).
Proof.
  induction rs as [|r rs IH]; intros t h.
  - now rewrite harvest_nil.
  - rewrite harvest_cons, mergeResults_cons. cbn [existsb filter].
    destruct (isCompleted r); cbn [negb andb orb].
    + apply IH.
    + destruct (isCanceled r); cbn [orb]; [reflexivity|].
      rewrite IH. now destruct (existsb _ rs).
Qed.

(** X5. The harvest of a tile that is attached to no terrain dereferences
    the null terrain exactly when the tile holds a Canceled request;
    with none it removes the Completed requests, keeps the others as
    they are and merges the results as on an attached tile. *)
Theorem serviceCompletedRequests_detached (w : World) :
  terrain w = None ->
  (serviceCompletedRequests w = None <->
   exists r, In r (_requests (tile w)) /\ _state r = STATE_CANCELED)
  /\ ((forall r, In r (_requests (tile w)) -> _state r <> STATE_CANCELED) ->
      exists w',
        serviceCompletedRequests w = Some w' /\
        _requests (tile w') =
          filter (fun r => negb (isCompleted r)) (_requests (tile w)) /\
        base (tile w') = base (mergeResults (_requests (tile w)) (tile w)) /\
        terrain w' = None).
Proof.
  destruct w as [t terr h]. cbn [terrain tile]. intros ->.
  unfold serviceCompletedRequests. cbn [tile]. rewrite harvest_detached.
  assert (Hex : existsb (fun r => negb (isCompleted r) && isCanceled r) (_requests t) = true
                <-> exists r, In r (_requests t) /\ _state r = STATE_CANCELED).
  { rewrite existsb_exists. split; intros [r [Hr H]]; exists r; split; try exact Hr.
    - apply andb_prop in H. now apply isCanceled_state.
    - unfold isCompleted, isCanceled. now rewrite H. }
  destruct (existsb _ (_requests t)) eqn:E.
  - split.
    + split; [intros _; now apply Hex|reflexivity].
    + intros Hn. destruct (proj1 Hex eq_refl) as [r [Hr Hs]].
      now destruct (Hn r Hr).
  - split.
    + split; [discriminate|]. intros H. apply Hex in H. discriminate.
    + intros _. eexists. split; [reflexivity|]. cbn. auto.
Qed.

(* ------------------------------------------------------------------ *)
(** ** Keeping a request alive, and trying it again                    *)
(* ------------------------------------------------------------------ *)

(** X6. After a servicing pass with stamp [s] over a tile that is
    attached to its terrain, every request of the tile that is not
    Completed carries the stamp [s]; so a poll of its monitor, if the
    monitor has not reported cancelled before, reports cancelled exactly
    when the stamp of the task service has run more than 2 ahead of
    [s]. *)
Theorem serviced_request_survives_two_cycles
  (s : Z) (w : World) (terr : VersionedTerrain) :
  terrain w = Some terr ->
  exists w' evs,
    servicePendingRequests s w = Some (w', evs) /\
    forall r', In r' (_requests (tile w')) ->
      _state r' <> STATE_COMPLETED ->
      _stamp r' = s /\
      (_canceled (_progress r') = false ->
       forall serviceStamp,
         fst (reportProgress serviceStamp (_stamp r') (_progress r'))
         = (2 <? serviceStamp - s)).
Proof.
  intros Ht.
  assert (exists w1, (if _requestsInstalled (tile w) then Some w
                      else installRequests s w) = Some w1) as [w1 E1].
  { destruct (_requestsInstalled (tile w)); [now exists w|].
    destruct (_layerFactory terr) as [factory|] eqn:Hf.
    - destruct (installRequests_factory s w terr factory Ht Hf) as [t1 [h1 [E _]]].
      eexists. exact E.
    - eexists. apply (installRequests_no_factory s w terr Ht Hf). }
  destruct (servicePendingRequests_loop s w w1 terr Ht E1)
    as [terr1 [terr' [h' [_ E]]]].
  eexists. eexists. split; [exact E|]. cbn [tile _requests set_requests].
  intros r' Hr' Hs. apply in_map_iff in Hr'. destruct Hr' as [r [<- Hr]].
  rewrite serviced_state in Hs.
  assert (Hst : _stamp (serviced s r) = s).
  { unfold serviced. destruct (isIdle r); [reflexivity|].
    destruct (isCompleted r) eqn:Hc; [|reflexivity].
    apply isCompleted_state in Hc. contradiction. }
  split; [exact Hst|]. intros Hp serviceStamp.
  rewrite reportProgress_result, Hp, Hst. reflexivity.
Qed.

(** X7. A Canceled request is tried again: the harvest followed by a
    servicing pass with stamp [s], on a tile that is attached to its
    terrain and whose installation has run, hands the request to the
    task service, Idle, with the stamp [s] and a monitor that has not
    reported cancelled; the request is still in the collection. *)
Theorem canceled_request_is_resubmitted
  (s : Z) (w : World) (terr : VersionedTerrain) (r : TaskRequest) :
  terrain w = Some terr ->
  _requestsInstalled (tile w) = true ->
  In r (_requests (tile w)) ->
  _state r = STATE_CANCELED ->
  exists w1 w2 evs p,
    serviceCompletedRequests w = Some w1 /\
    servicePendingRequests s w1 = Some (w2, evs) /\
    let r' := setStamp s (resetCanceled p r) in
    In r' (submitted evs) /\
    In r' (_requests (tile w2)) /\
    _kind r' = _kind r /\
    _state r' = STATE_IDLE /\
    _stamp r' = s /\
    _canceled (_progress r') = false.
Proof.
  intros Ht Hi Hr Hs. destruct w as [t terr0 h]. cbn [terrain tile] in *. subst terr0.
  destruct (serviceCompletedRequests_attached t terr h) as [terr1 [h1 [E1 _]]].
  set (p := servicePointer terr h) in *.
  assert (Hin : In (resetCanceled p r) (keptRequests p (_requests t))).
  { unfold keptRequests.
    replace (resetCanceled p r) with (harvested p r)
      by (unfold harvested, isCanceled; now rewrite Hs).
    apply in_map. apply filter_In. split; [exact Hr|].
    unfold isCompleted. now rewrite Hs. }
  match type of E1 with _ = Some ?x => set (w1 := x) in * end.
  destruct (servicePendingRequests_installed s w1 terr1) as [terr2 [h2 [E2 _]]].
  { cbn. rewrite <- Hi. apply (mergeResults_frame (_requests t) t). }
  { reflexivity. }
  exists w1. eexists. eexists. exists p.
  split; [exact E1|]. split; [exact E2|].
  cbn [tile _requests set_requests w1]. rewrite submitted_map_Add.
  split; [|split; [|now repeat split]].
  - unfold resubmitted. apply in_map. apply filter_In. split; [exact Hin|reflexivity].
  - replace (setStamp s (resetCanceled p r)) with (serviced s (resetCanceled p r))
      by reflexivity.
    now apply in_map.
Qed.

(* ------------------------------------------------------------------ *)
(** ** After the installation                                          *)
(* ------------------------------------------------------------------ *)

Lemma incl_map_filter_kinds (keep : TaskRequest -> bool) (rs : list TaskRequest) :
  incl (map _kind (filter keep rs)) (map _kind rs).
Proof.
  intros k Hk. apply in_map_iff in Hk. destruct Hk as [r [<- Hr]].
  apply filter_In in Hr. apply in_map. tauto.
Qed.

Lemma step_layers_shrink (f : VisitorType -> TerrainTile -> TerrainTile)
    (w w' : World) (evs : list Event) :
  step f w evs w' ->
  _requestsInstalled (tile w) = true ->
  _requestsInstalled (tile w') = true /\
  incl (requestedLayers (tile w')) (requestedLayers (tile w)).
Proof.
  intros Hs Hi. unfold requestedLayers.
  assert (Hkept : forall w1, serviceCompletedRequests w = Some w1 ->
            _requestsInstalled (tile w1) = true /\
            incl (map _kind (_requests (tile w1))) (map _kind (_requests (tile w)))).
  { intros w1 H. apply serviceCompletedRequests_cases in H. destruct H as [Hi1 HF].
    split; [congruence|].
    rewrite (Forall2_kinds _ _ _ kept_as_kind HF). apply incl_map_filter_kinds. }
  destruct Hs as [stamp w w' evs H|w w' H|nv w w' evs H|w w' H].
  - apply servicePendingRequests_cases in H. destruct H as [Hi' H].
    split; [exact Hi'|].
    destruct H as [[_ [[-> _]|[-> _]]]|[Hi0 _]]; [| |congruence].
    + rewrite map_serviced_kinds. apply incl_refl.
    + apply incl_refl.
  - now apply Hkept.
  - apply traverse_cases in H. destruct H as [_ [w1 [Hw1 [Hr [Hi1 _]]]]].
    rewrite Hr, Hi1. destruct Hw1 as [->|Hw1]; [|now apply Hkept].
    split; [exact Hi|apply incl_refl].
  - destruct H as [_ [_ [Hi1 [_ [_ HF]]]]]. split; [congruence|].
    rewrite (Forall2_kinds _ _ _ worker_request_kind HF). apply incl_refl.
Qed.

(** X8. Once the installation of a tile has run, whatever happens to the
    tile afterwards: [_requestsInstalled] stays set and the layers for
    which the tile holds a request only get fewer. No request is ever
    created again, so a layer whose request has been harvested, with a
    result or with none, is not requested a second time. *)
Theorem no_request_created_after_installation
  (f : VisitorType -> TerrainTile -> TerrainTile)
  (w w' : World) (tr : list Event) :
  steps f w tr w' ->
  _requestsInstalled (tile w) = true ->
  _requestsInstalled (tile w') = true
  /\ incl (requestedLayers (tile w')) (requestedLayers (tile w))
  /\ (forall k, ~ In k (requestedLayers (tile w)) ->
                ~ In k (requestedLayers (tile w'))
                /\ Forall (fun q => _kind q <> k) (submitted tr)).
Proof.
  intros Hs. induction Hs as [|w w1 w2 evs tr Hstep _ IH]; intros Hi.
  - split; [exact Hi|]. split; [apply incl_refl|].
    intros k Hk. split; [exact Hk|constructor].
  - destruct (step_layers_shrink f w w1 evs Hstep Hi) as [Hi1 Hincl1].
    destruct (IH Hi1) as [Hi2 [Hincl2 Hnever]].
    split; [exact Hi2|]. split; [now apply (incl_tran Hincl2)|].
    intros k Hk.
    assert (Hk1 : ~ In k (requestedLayers (tile w1))) by (intros F; now apply Hk, Hincl1).
    destruct (Hnever k Hk1) as [H1 H2]. split; [exact H1|].
    rewrite submitted_app. apply Forall_app. split; [|exact H2].
    assert (Hc : completed_layer k (tile w)).
    { split; [exact Hi|]. intros q Hq E. exfalso. apply Hk.
      unfold requestedLayers. rewrite <- E. now apply in_map. }
    apply (step_completed_layer f k w w1 evs Hstep Hc).
Qed.

(** X9. When every request of a tile is Completed, one harvest empties
    the collection; from then on the collection stays empty and the
    tile hands nothing to the task service any more. *)
Theorem all_completed_then_done
  (f : VisitorType -> TerrainTile -> TerrainTile)
  (w : World) (terr : VersionedTerrain) :
  terrain w = Some terr ->
  _requestsInstalled (tile w) = true ->
  (forall r, In r (_requests (tile w)) -> _state r = STATE_COMPLETED) ->
  exists w',
    serviceCompletedRequests w = Some w' /\
    _requests (tile w') = [] /\
    base (tile w') = base (mergeResults (_requests (tile w)) (tile w)) /\
    (forall tr w'', steps f w' tr w'' ->
       _requests (tile w'') = [] /\ submitted tr = []).
Proof.
  intros Ht Hi Hall.
  destruct (serviceCompletedRequests_total w terr Ht)
    as [w' [H [Hk [Hb [_ [_ [_ [Hi' _]]]]]]]].
  assert (He : _requests (tile w') = []).
  { rewrite Hk. unfold keptRequests.
    replace (filter _ (_requests (tile w))) with (@nil TaskRequest); [reflexivity|].
    symmetry. generalize Hall. generalize (_requests (tile w)). intros rs Hrs.
    induction rs as [|r rs IH]; [reflexivity|]. cbn [filter].
    assert (Hc : isCompleted r = true)
      by (apply isCompleted_state, Hrs; now left).
    rewrite Hc. cbn [negb]. apply IH. intros r0 Hr0. apply Hrs. now right. }
  exists w'. split; [exact H|]. split; [exact He|]. split; [exact Hb|].
  intros tr w'' Hs.
  destruct (steps_empty f w' w'' tr Hs) as [_ [H1 H2]]; [congruence|exact He|auto].
Qed.

(* ------------------------------------------------------------------ *)
(** ** What an update pass does, read off the tile before it           *)
(* ------------------------------------------------------------------ *)

Lemma applyResult_flags (r : TaskRequest) (t : VersionedTile) :
  _dirty (base (applyResult r t))
  = _dirty (base t) || (negb (_usePerLayerUpdates t) && hasResult r)
  /\ _elevationLayerDirty (applyResult r t)
     = _elevationLayerDirty t
       || (_usePerLayerUpdates t && (isElevLayerRequest r && hasResult r))
  /\ _colorLayersDirty (applyResult r t)
     = _colorLayersDirty t
       || (_usePerLayerUpdates t && (isColorLayerRequest r && hasResult r)).
Proof.
  unfold applyResult, hasResult, isElevLayerRequest, isColorLayerRequest.
  destruct (_kind r); destruct (_result r); cbn;
    destruct (_usePerLayerUpdates t) eqn:E; cbn;
    rewrite ?orb_false_r, ?orb_true_r, ?andb_false_r; auto.
Qed.

Lemma mergeResults_flags (rs : list TaskRequest) :
  forall t,
    _dirty (base (mergeResults rs t)) = dirtyAfterHarvest rs t
    /\ _elevationLayerDirty (mergeResults rs t) = elevationDirtyAfterHarvest rs t
    /\ _colorLayersDirty (mergeResults rs t) = colorDirtyAfterHarvest rs t.
Proof.
  unfold dirtyAfterHarvest, elevationDirtyAfterHarvest, colorDirtyAfterHarvest, getDirty.
  induction rs as [|r rs IH]; intros t.
  - unfold mergeResults. cbn. now rewrite !andb_false_r, !orb_false_r.
  - rewrite mergeResults_cons. cbn [existsb].
    unfold delivers, deliversElevation, deliversColor.
    destruct (isCompleted r) eqn:Hc; cbn [andb orb].
    + destruct (IH (applyResult r t)) as [H1 [H2 H3]].
      destruct (applyResult_flags r t) as [F1 [F2 F3]].
      assert (Hm : _usePerLayerUpdates (applyResult r t) = _usePerLayerUpdates t)
        by apply (applyResult_frame r t).
      rewrite H1, H2, H3, F1, F2, F3, Hm.
      unfold delivers, deliversElevation, deliversColor.
      destruct (_usePerLayerUpdates t); cbn [negb andb orb];
        rewrite ?orb_false_r; repeat split;
        rewrite ?orb_assoc; reflexivity.
    + apply IH.
Qed.

(** X10. An update pass over a tile with request servicing enabled,
    attached to its terrain. Whether the pass asks the technique for an
    incremental rebuild, and whether it moves the geometry revision,
    follows from the tile before the pass. In whole-tile mode, the mode a
    tile is constructed in, every result that the harvest merges, a
    colour layer as well as an elevation layer, makes the whole tile
    dirty: no incremental rebuild is asked for and the geometry revision
    grows by 1. In per-layer mode, on a tile that is not dirty, the
    rebuild is asked for with the flags of the layers that got a result
    (or were flagged before), and the geometry revision grows only when
    the elevation flag is among them. *)
Theorem update_pass_outcome
  (f : VisitorType -> TerrainTile -> TerrainTile)
  (w : World) (terr : VersionedTerrain) :
  terrain w = Some terr ->
  _useLayerRequests (tile w) = true ->
  let rs := _requests (tile w) in
  let d := dirtyAfterHarvest rs (tile w) in
  let e := elevationDirtyAfterHarvest rs (tile w) in
  let c := colorDirtyAfterHarvest rs (tile w) in
  exists w',
    traverse f UPDATE_VISITOR w
    = Some (w', if d then [] else if e || c then [UpdateContent e c] else [])
    /\ _geometryRevision (tile w')
       = _geometryRevision (tile w) + (if d || e then 1 else 0)
    /\ (_usePerLayerUpdates (tile w) = false ->
        (exists r, In r rs /\ _state r = STATE_COMPLETED /\ _result r <> None) ->
        d = true)
    /\ (_usePerLayerUpdates (tile w) = true ->
        getDirty (base (tile w)) = false ->
        d = false /\
        (e = true <->
         _elevationLayerDirty (tile w) = true \/
         exists r, In r rs /\ _state r = STATE_COMPLETED /\
                   _kind r = TileElevationLayerRequest /\ _result r <> None)).
Proof.
  intros Ht Hu rs d e c.
  destruct (serviceCompletedRequests_total w terr Ht)
    as [w1 [H1 [_ [Hb [He [Hc [Hg _]]]]]]].
  destruct (mergeResults_flags rs (tile w)) as [M1 [M2 M3]].
  fold rs in Hb, He, Hc. fold d in M1. fold e in M2. fold c in M3.
  assert (Hd1 : getDirty (base (tile w1)) = d) by (unfold getDirty; now rewrite Hb).
  assert (He1 : _elevationLayerDirty (tile w1) = e) by congruence.
  assert (Hc1 : _colorLayersDirty (tile w1) = c) by congruence.
  exists (set_tile
            (finishPass
               (set_base
                  (f UPDATE_VISITOR (base (fst (evaluateDirty (tile w1)))))
                  (fst (evaluateDirty (tile w1))))) w1).
  unfold traverse. rewrite Hu, H1. cbn [VisitorType_eqb andb].
  unfold evaluateDirty. rewrite Hd1, He1, Hc1.
  split; [|split; [|split]].
  - destruct d; [reflexivity|]. destruct (e || c); reflexivity.
  - destruct d; cbn [orb fst].
    + unfold finishPass. cbn. rewrite Hg. reflexivity.
    + destruct (e || c); cbn [fst]; unfold finishPass; cbn; rewrite He1, Hg;
        destruct e; cbn; lia.
  - intros Hm [r [Hr [Hs Hres]]]. subst d. unfold dirtyAfterHarvest.
    rewrite Hm. cbn [negb andb].
    apply orb_true_iff. right. apply existsb_exists. exists r. split; [exact Hr|].
    unfold delivers, hasResult. apply isCompleted_state in Hs. rewrite Hs.
    destruct (_result r); [reflexivity|congruence].
  - intros Hm Hdirty. subst d e. unfold dirtyAfterHarvest, elevationDirtyAfterHarvest.
    rewrite Hm, Hdirty. cbn [negb andb orb]. split; [reflexivity|].
    rewrite orb_true_iff, existsb_exists. split.
    + intros [H|[r [Hr H]]]; [now left|right]. exists r.
      unfold deliversElevation, hasResult, isElevLayerRequest in H.
      apply andb_prop in H. destruct H as [H H3].
      apply andb_prop in H. destruct H as [H2 H4].
      apply isCompleted_state in H2.
      destruct (_kind r); [|discriminate].
      destruct (_result r); [|discriminate].
      repeat split; auto. discriminate.
    + intros [H|[r [Hr [Hs [Hk Hres]]]]]; [now left|right]. exists r.
      split; [exact Hr|]. unfold deliversElevation, hasResult, isElevLayerRequest.
      apply isCompleted_state in Hs. rewrite Hs, Hk.
      destruct (_result r); [reflexivity|congruence].
Qed.

(* ------------------------------------------------------------------ *)
(** ** The order of the priorities                                     *)
(* ------------------------------------------------------------------ *)

Lemma spec_float_eqb_eq (x y : spec_float) : spec_float_eqb x y = true -> x = y.
Proof.
  destruct x as [s|s| |s m e], y as [s'|s'| |s' m' e']; cbn; try discriminate.
  - intros H. apply Bool.eqb_prop in H. now subst.
  - intros H. apply Bool.eqb_prop in H. now subst.
  - reflexivity.
  - intros H. apply andb_prop in H. destruct H as [H He].
    apply andb_prop in H. destruct H as [Hs Hm].
    apply Bool.eqb_prop in Hs. apply Pos.eqb_eq in Hm. apply Z.eqb_eq in He.
    now subst.
Qed.

Lemma priorities_order_checked_31_255 : priorities_order_checked 31 255 = true.
Proof. vm_cast_no_check (@eq_refl bool true). Qed.

Lemma priorities_order_checked_sound (levels layers : nat) :
  priorities_order_checked levels layers = true ->
  forall (lod : Z) (i : nat),
    0 <= lod < Z.of_nat levels ->
    (i < layers)%nat ->
    elevationPriority lod = colorPriority lod 0
    /\ SFltb (colorPriority lod i) (colorPriority lod (S i)) = true
    /\ ((i <= 9)%nat ->
        SFltb (colorPriority lod i) (elevationPriority (lod + 1)) = true)
    /\ colorPriority lod 10 = elevationPriority (lod + 1)
    /\ SFltb (elevationPriority (lod + 1)) (colorPriority lod 11) = true.
Proof.
  intros H lod i Hl Hi.
  unfold priorities_order_checked in H. rewrite forallb_forall in H.
  specialize (H (Z.to_nat lod)). rewrite Z2Nat.id in H by lia.
  assert (Hin : In (Z.to_nat lod) (seq 0 levels)) by (apply in_seq; lia).
  apply H in Hin. unfold priorities_ordered in Hin.
  apply andb_prop in Hin. destruct Hin as [Hin H5].
  apply andb_prop in Hin. destruct Hin as [Hin H4].
  apply andb_prop in Hin. destruct Hin as [Hin H3].
  apply andb_prop in Hin. destruct Hin as [H1 H2].
  rewrite forallb_forall in H2, H3.
  split; [now apply spec_float_eqb_eq|]. split; [apply H2, in_seq; lia|].
  split; [intros H9; apply H3, in_seq; lia|].
  split; [now apply spec_float_eqb_eq|exact H5].
Qed.

(** X11. The priorities that the installation gives at level [lod] (up
    to 30) and layer index [i] (up to 254): the elevation request and
    the request for colour layer 0 have the same priority; the priority
    of the colour requests grows strictly with the layer index; colour
    layers 0 to 9 lie strictly below every priority of the next level,
    colour layer 10 has the priority of the next level's elevation
    request, and colour layer 11 lies above it. *)
Theorem priorities_order (lod : Z) (i : nat) :
  0 <= lod < 31 ->
  (i < 255)%nat ->
  elevationPriority lod = colorPriority lod 0
  /\ SFltb (colorPriority lod i) (colorPriority lod (S i)) = true
  /\ ((i <= 9)%nat ->
      SFltb (colorPriority lod i) (elevationPriority (lod + 1)) = true)
  /\ colorPriority lod 10 = elevationPriority (lod + 1)
  /\ SFltb (elevationPriority (lod + 1)) (colorPriority lod 11) = true.
Proof.
  intros Hl Hi.
  exact (priorities_order_checked_sound 31 255 priorities_order_checked_31_255
           lod i Hl Hi).
Qed.

(* ------------------------------------------------------------------ *)
(** ** Ephemeris: the calendar                                         *)
(* ------------------------------------------------------------------ *)

(** The three literals are the doubles nearest to what is written. *)
Lemma ephemeris_literals :
  Ephemeris.double_365_25 = binary_normalize Float.prec64 Float.emax64 1461 (-2) false /\
  Ephemeris.double_1524_5 = binary_normalize Float.prec64 Float.emax64 3049 (-1) false /\
  Ephemeris.double_30_6001 =
    SFdiv Float.prec64 Float.emax64 (Ephemeris.of_int 306001) (Ephemeris.of_int 10000).
Proof. repeat split; vm_compute; reflexivity. Qed.

Lemma In_zrange (lo : Z) (n : nat) (x : Z) :
  In x (Ephemeris.zrange lo n) <-> lo <= x < lo + Z.of_nat n.
Proof.
  unfold Ephemeris.zrange. rewrite in_map_iff. split.
  - intros [i [<- Hi]]. apply in_seq in Hi. lia.
  - intros H. exists (Z.to_nat (x - lo)). split; [lia|]. apply in_seq. lia.
Qed.

Lemma days_in_month_pos (y m : Z) : 28 <= Ephemeris.days_in_month y m <= 31.
Proof.
  unfold Ephemeris.days_in_month.
  destruct (m =? 2); [destruct (Ephemeris.is_leap y); lia|].
  destruct ((m =? 4) || (m =? 6) || (m =? 9) || (m =? 11)); lia.
Qed.

Lemma months_ok_sound (check : Z -> Z -> Z -> Z -> bool) (y : Z) (k : nat) :
  forall m0 start,
    Ephemeris.months_ok check k y m0 start = true ->
    forall m d,
      m0 <= m < m0 + Z.of_nat k ->
      1 <= d <= Ephemeris.days_in_month y m ->
      check y m d
        (start + Ephemeris.days_of_months (Z.to_nat (m - m0)) y m0 + (d - 1)) = true.
Proof.
  induction k as [|k IH]; intros m0 start H m d Hm Hd; [lia|].
  cbn [Ephemeris.months_ok] in H. apply andb_prop in H. destruct H as [H1 H2].
  destruct (Z.eq_dec m m0) as [->|Hne].
  - rewrite Z.sub_diag. cbn [Z.to_nat Ephemeris.days_of_months].
    rewrite Z.add_0_r. rewrite forallb_forall in H1. apply H1.
    apply In_zrange. lia.
  - specialize (IH (m0 + 1) (start + Ephemeris.days_in_month y m0) H2 m d).
    replace (Z.to_nat (m - m0)) with (S (Z.to_nat (m - (m0 + 1)))) by lia.
    cbn [Ephemeris.days_of_months]. rewrite Z.add_assoc. apply IH; lia.
Qed.

Lemma years_ok_sound (check : Z -> Z -> Z -> Z -> bool) (n : nat) :
  forall y0 start,
    Ephemeris.years_ok check n y0 start = true ->
    forall y m d,
      y0 <= y < y0 + Z.of_nat n ->
      1 <= m <= 12 ->
      1 <= d <= Ephemeris.days_in_month y m ->
      check y m d
        (start + Ephemeris.days_of_years (Z.to_nat (y - y0)) y0
         + Ephemeris.days_of_months (Z.to_nat (m - 1)) y 1 + (d - 1)) = true.
Proof.
  induction n as [|n IH]; intros y0 start H y m d Hy Hm Hd; [lia|].
  cbn [Ephemeris.years_ok] in H. apply andb_prop in H. destruct H as [H1 H2].
  destruct (Z.eq_dec y y0) as [->|Hne].
  - rewrite Z.sub_diag. cbn [Z.to_nat Ephemeris.days_of_years].
    rewrite Z.add_0_r. apply (months_ok_sound check y0 12 1 start H1); [lia|exact Hd].
  - specialize (IH (y0 + 1) (start + Ephemeris.days_in_year y0) H2 y m d).
    replace (Z.to_nat (y - y0)) with (S (Z.to_nat (y - (y0 + 1)))) by lia.
    cbn [Ephemeris.days_of_years]. rewrite Z.add_assoc. apply IH; [lia|lia|exact Hd].
Qed.

Lemma all_from_sound (check : Z -> bool) (n : nat) :
  forall lo,
    Ephemeris.all_from check n lo = true ->
    forall x, lo <= x < lo + Z.of_nat n -> check x = true.
Proof.
  induction n as [|n IH]; intros lo H x Hx; [lia|].
  cbn [Ephemeris.all_from] in H. apply andb_prop in H. destruct H as [H1 H2].
  destruct (Z.eq_dec x lo) as [->|Hne]; [exact H1|].
  apply (IH (lo + 1) H2). lia.
Qed.

(** The products in [double], cut to [int], are the whole days: for the
    years and the months that [getJulianDate] meets from 1900 to 2100. *)
Lemma yearDays_checked :
  Ephemeris.all_from Ephemeris.yearDays_ok 202 1899 = true.
Proof. vm_cast_no_check (@eq_refl bool true). Qed.

Lemma monthDays_checked :
  Ephemeris.all_from Ephemeris.monthDays_ok 12 3 = true.
Proof. vm_cast_no_check (@eq_refl bool true). Qed.

Lemma half_days_checked :
  Ephemeris.all_from Ephemeris.half_day_ok (Z.to_nat 73600) 2416545 = true.
Proof. vm_cast_no_check (@eq_refl bool true). Qed.

Lemma julian_days_checked :
  Ephemeris.years_ok Ephemeris.julian_day_ok 201 1900 0 = true.
Proof. vm_cast_no_check (@eq_refl bool true). Qed.

Lemma moon_days_checked :
  Ephemeris.years_ok Ephemeris.moon_day_ok 201 1900 0 = true.
Proof. vm_cast_no_check (@eq_refl bool true). Qed.

Lemma yearDays_whole (year : Z) :
  1899 <= year <= 2100 ->
  Ephemeris.yearDays year = 1461 * (year + 4716) / 4.
Proof.
  intros H. apply Z.eqb_eq.
  apply (all_from_sound Ephemeris.yearDays_ok 202 1899 yearDays_checked).
  change (Z.of_nat 202) with 202. lia.
Qed.

Lemma monthDays_whole (month : Z) :
  3 <= month <= 14 ->
  Ephemeris.monthDays month = 306001 * (month + 1) / 10000.
Proof.
  intros H. apply Z.eqb_eq.
  apply (all_from_sound Ephemeris.monthDays_ok 12 3 monthDays_checked).
  change (Z.of_nat 12) with 12. lia.
Qed.

Lemma half_day_exact (n : Z) :
  2416545 <= n < 2416545 + 73600 ->
  Float.exactly (Ephemeris.sub (Ephemeris.of_int n) Ephemeris.double_1524_5)
    (2 * n - 3049) 2 = true.
Proof.
  intros H.
  apply (all_from_sound Ephemeris.half_day_ok (Z.to_nat 73600) 2416545
           half_days_checked).
  rewrite Z2Nat.id by lia. exact H.
Qed.

(** [getJulianDate] is its day number in whole numbers, less 1524.5. *)
Lemma getJulianDate_day_number (y m d : Z) :
  1900 <= y <= 2100 ->
  1 <= m <= 12 ->
  Ephemeris.getJulianDate y m d =
  Ephemeris.sub (Ephemeris.of_int (Ephemeris.julianDayNumber y m d))
    Ephemeris.double_1524_5.
Proof.
  intros Hy Hm. unfold Ephemeris.getJulianDate, Ephemeris.julianDayNumber.
  destruct (m <=? 2) eqn:E; cbv beta iota zeta.
  - apply Z.leb_le in E.
    fold (Ephemeris.yearDays (y - 1)). fold (Ephemeris.monthDays (m + 12)).
    rewrite yearDays_whole, monthDays_whole by lia. reflexivity.
  - apply Z.leb_gt in E.
    fold (Ephemeris.yearDays y). fold (Ephemeris.monthDays m).
    rewrite yearDays_whole, monthDays_whole by lia. reflexivity.
Qed.

Lemma julianDayNumber_days (y m d : Z) :
  1900 <= y <= 2100 ->
  1 <= m <= 12 ->
  1 <= d <= Ephemeris.days_in_month y m ->
  Ephemeris.julianDayNumber y m d = 2416545 + Ephemeris.days_since_1900 y m d.
Proof.
  intros Hy Hm Hd.
  pose proof (years_ok_sound Ephemeris.julian_day_ok 201 1900 0
                julian_days_checked y m d) as H.
  rewrite !Z.add_0_l in H. change (Z.of_nat 201) with 201 in H.
  apply Z.eqb_eq. apply H; [lia|exact Hm|exact Hd].
Qed.

Lemma days_of_years_bounds (n : nat) :
  forall from, 0 <= Ephemeris.days_of_years n from <= 366 * Z.of_nat n.
Proof.
  induction n as [|n IH]; intros from; cbn [Ephemeris.days_of_years]; [lia|].
  specialize (IH (from + 1)). unfold Ephemeris.days_in_year.
  destruct (Ephemeris.is_leap from); lia.
Qed.

Lemma days_of_months_bounds (k : nat) :
  forall y from, 0 <= Ephemeris.days_of_months k y from <= 31 * Z.of_nat k.
Proof.
  induction k as [|k IH]; intros y from; cbn [Ephemeris.days_of_months]; [lia|].
  specialize (IH y (from + 1)). pose proof (days_in_month_pos y from). lia.
Qed.

Lemma days_since_1900_bounds (y m d : Z) :
  1900 <= y <= 2100 ->
  1 <= m <= 12 ->
  1 <= d <= Ephemeris.days_in_month y m ->
  0 <= Ephemeris.days_since_1900 y m d < 73600.
Proof.
  intros Hy Hm Hd. unfold Ephemeris.days_since_1900.
  pose proof (days_of_years_bounds (Z.to_nat (y - 1900)) 1900).
  pose proof (days_of_months_bounds (Z.to_nat (m - 1)) y 1).
  pose proof (days_in_month_pos y m). lia.
Qed.

(** X12. For every date of the Gregorian calendar from 1 January 1900
    to 31 December 2100, [getJulianDate] returns exactly the Julian date
    of that day at 0h: 2415020.5, the Julian date of 1 January 1900,
    plus the number of days from then to the date, counted with the
    lengths of the months and the leap years of the calendar. Neither
    the two products in [double] nor the subtraction of 1524.5 loses
    a day or a fraction. *)
Theorem getJulianDate_correct (y m d : Z) :
  1900 <= y <= 2100 ->
  1 <= m <= 12 ->
  1 <= d <= Ephemeris.days_in_month y m ->
  Float.exactly (Ephemeris.getJulianDate y m d)
    (2 * (2415020 + Ephemeris.days_since_1900 y m d) + 1) 2 = true.
Proof.
  intros Hy Hm Hd.
  pose proof (days_since_1900_bounds y m d Hy Hm Hd) as Hb.
  rewrite (getJulianDate_day_number y m d Hy Hm).
  rewrite (julianDayNumber_days y m d Hy Hm Hd).
  replace (2 * (2415020 + Ephemeris.days_since_1900 y m d) + 1)
    with (2 * (2416545 + Ephemeris.days_since_1900 y m d) - 3049) by lia.
  apply half_day_exact. lia.
Qed.

(** X13. For every date from 1 March 1900 to 28 February 2100 the day
    number that [Moon::getRaDeclRange] starts from counts the days from
    31 December 1999, so that 1 January 2000 is day 1, and it names the
    day that [getJulianDate] names: the Julian date is the day number
    plus 2451543.5. *)
Theorem Moon_dayNumber_agrees_with_getJulianDate (y m d : Z) :
  1900 <= y <= 2100 ->
  1 <= m <= 12 ->
  1 <= d <= Ephemeris.days_in_month y m ->
  Ephemeris.in_moon_range y m = true ->
  Ephemeris.Moon_dayNumber y m d = Ephemeris.days_since_1900 y m d - 36523
  /\ Float.exactly (Ephemeris.getJulianDate y m d)
       (2 * (Ephemeris.Moon_dayNumber y m d + 2451543) + 1) 2 = true.
Proof.
  intros Hy Hm Hd Hr.
  pose proof (years_ok_sound Ephemeris.moon_day_ok 201 1900 0
                moon_days_checked y m d) as H.
  rewrite !Z.add_0_l in H. change (Z.of_nat 201) with 201 in H.
  specialize (H ltac:(lia) Hm Hd).
  unfold Ephemeris.moon_day_ok in H. rewrite Hr in H. cbn [negb orb] in H.
  apply Z.eqb_eq in H. fold (Ephemeris.days_since_1900 y m d) in H.
  split; [exact H|].
  pose proof (days_since_1900_bounds y m d Hy Hm Hd) as Hb.
  rewrite (getJulianDate_day_number y m d Hy Hm).
  rewrite (julianDayNumber_days y m d Hy Hm Hd), H.
  replace (2 * (Ephemeris.days_since_1900 y m d - 36523 + 2451543) + 1)
    with (2 * (2416545 + Ephemeris.days_since_1900 y m d) - 3049) by lia.
  apply half_day_exact. lia.
Qed.

Lemma moon_day_slips_checked :
  Ephemeris.years_ok Ephemeris.moon_day_slip_ok 201 1900 0 = true.
Proof. vm_cast_no_check (@eq_refl bool true). Qed.

(** X14. The range of X13 is as wide as it can be between 1900 and
    2100: the day number of [Moon::getRaDeclRange] takes 1900 and 2100
    for leap years, so in January and February 1900 it is one day
    behind the count of days from 31 December 1999, and from 1 March
    2100 on it is one day ahead; there it names another day than
    [getJulianDate] does. *)
Theorem Moon_dayNumber_slips_outside_its_range (y m d : Z) :
  1900 <= y <= 2100 ->
  1 <= m <= 12 ->
  1 <= d <= Ephemeris.days_in_month y m ->
  Ephemeris.in_moon_range y m = false ->
  (y = 1900 /\ m <= 2 \/ y = 2100 /\ 3 <= m)
  /\ Ephemeris.Moon_dayNumber y m d
     = Ephemeris.days_since_1900 y m d - 36523 + (if y =? 1900 then -1 else 1)
  /\ Float.exactly (Ephemeris.getJulianDate y m d)
       (2 * (Ephemeris.Moon_dayNumber y m d + 2451543) + 1) 2 = false.
Proof.
  intros Hy Hm Hd Hr.
  pose proof (years_ok_sound Ephemeris.moon_day_slip_ok 201 1900 0
                moon_day_slips_checked y m d) as H.
  rewrite !Z.add_0_l in H. change (Z.of_nat 201) with 201 in H.
  specialize (H ltac:(lia) Hm Hd).
  unfold Ephemeris.moon_day_slip_ok, Ephemeris.moon_day_slip in H.
  rewrite Hr in H. cbn [orb] in H.
  apply Z.eqb_eq in H. fold (Ephemeris.days_since_1900 y m d) in H.
  split; [|split; [exact H|]].
  - unfold Ephemeris.in_moon_range in Hr.
    apply andb_false_iff in Hr. destruct Hr as [Hr|Hr];
      apply negb_false_iff, andb_prop in Hr; destruct Hr as [H1 H2];
      apply Z.eqb_eq in H1; apply Z.leb_le in H2; auto.
  - pose proof (days_since_1900_bounds y m d Hy Hm Hd) as Hb.
    pose proof (getJulianDate_day_number y m d Hy Hm) as J.
    rewrite (julianDayNumber_days y m d Hy Hm Hd) in J.
    pose proof (half_day_exact (2416545 + Ephemeris.days_since_1900 y m d)
                  ltac:(lia)) as E.
    rewrite <- J in E. rewrite H. clear J H.
    unfold Float.exactly in *.
    destruct (Ephemeris.getJulianDate y m d) as [s|s| |s mt e];
      try reflexivity.
    + apply Z.eqb_eq in E. apply Z.eqb_neq. destruct (y =? 1900); lia.
    + apply Z.eqb_eq in E. apply Z.eqb_neq. cbv zeta in *.
      pose proof (Z.pow_pos_nonneg 2 (Z.max 0 (- e)) ltac:(lia) ltac:(lia)).
      destruct (y =? 1900); nia.
Qed.

(* ------------------------------------------------------------------ *)
(** ** These theorems at work on the example tile                      *)
(* ------------------------------------------------------------------ *)

(** The example tile destroyed after its first servicing pass: [cancel()]
    is called on its three requests. *)
Lemma example_destructor :
  exists w evs,
    servicePendingRequests 1 Example.fresh_world = Some (w, evs) /\
    map fst (VersionedTile_destroy (tile w)) = _requests (tile w) /\
    length (_requests (tile w)) = 3%nat.
Proof.
  destruct (servicePendingRequests 1 Example.fresh_world) as [[w evs]|] eqn:E;
    [|vm_compute in E; discriminate].
  exists w, evs. split; [reflexivity|].
  assert (R : reachable Example.still w).
  { apply (reachable_steps Example.still Example.fresh_world w (evs ++ [])).
    - apply example_fresh_tile_reachable.
    - apply (steps_cons Example.still _ w); [|apply steps_nil].
      apply (step_servicePending Example.still 1). exact E. }
  split; [exact (proj1 (destructor_cancels_every_request Example.still w R))|].
  vm_compute in E. injection E as <- _. reflexivity.
Defined.

(** A terrain constructed with the environment variable at -3 and set
    to 2 threads after the first use: the service has 4294967293
    threads, the terrain reports 2. *)
Lemma example_thread_count :
  snd (runTerrain [CallGetOrCreateTaskService; CallSetNumTaskServiceThreads 2]
         (VersionedTerrain_new None (Some (-3))) [])
  = [new_TaskService 4294967293]
  /\ getNumTaskServiceThreads
       (snd (fst (runTerrain [CallGetOrCreateTaskService;
                              CallSetNumTaskServiceThreads 2]
                    (VersionedTerrain_new None (Some (-3))) [])))
     = 2.
Proof.
  destruct (thread_count_fixed_at_first_use None (Some (-3)) []
              [] [CallSetNumTaskServiceThreads 2] eq_refl)
    as [[H1 [_ [_ H4]]] _].
  split; [exact H1|exact H4].
Defined.

(** The servicing pass over the detached example tile hands over
    nothing, the Idle request included. *)
Lemma example_detached_servicing_pass :
  exists w',
    servicePendingRequests 11 Example.detached_world = Some (w', []) /\
    _requests (tile w') = _requests (tile Example.detached_world) /\
    _requestsInstalled (tile w') = true /\
    base (tile w') = base (tile Example.detached_world) /\
    terrain w' = None /\ services w' = services Example.detached_world.
Proof.
  exact (servicePendingRequests_detached 11 Example.detached_world eq_refl).
Defined.

(** The harvest of the detached example tile, which holds a Canceled
    request, dereferences the null terrain. *)
Lemma example_detached_harvest :
  serviceCompletedRequests Example.detached_world = None.
Proof.
  destruct (serviceCompletedRequests_detached Example.detached_world eq_refl)
    as [[_ H] _].
  apply H. exists Example.color0_canceled. split; [|reflexivity].
  right. left. reflexivity.
Defined.

(** After the servicing pass with stamp 11 over the example tile, the
    two requests that are not Completed carry the stamp 11. *)
Lemma example_serviced_stamps :
  exists w' evs,
    servicePendingRequests 11 Example.busy_world = Some (w', evs) /\
    forall r', In r' (_requests (tile w')) ->
      _state r' <> STATE_COMPLETED -> _stamp r' = 11.
Proof.
  destruct (serviced_request_survives_two_cycles 11 Example.busy_world
              Example.terrain_with_service eq_refl) as [w' [evs [E H]]].
  exists w', evs. split; [exact E|].
  intros r' Hr Hs. exact (proj1 (H r' Hr Hs)).
Defined.

(** The Canceled request of the example tile is handed over again by
    the next servicing pass. *)
Lemma example_canceled_tried_again :
  exists w1 w2 evs p,
    serviceCompletedRequests Example.busy_world = Some w1 /\
    servicePendingRequests 11 w1 = Some (w2, evs) /\
    In (setStamp 11 (resetCanceled p Example.color0_canceled)) (submitted evs).
Proof.
  destruct (canceled_request_is_resubmitted 11 Example.busy_world
              Example.terrain_with_service Example.color0_canceled
              eq_refl eq_refl (or_intror (or_introl eq_refl)) eq_refl)
    as [w1 [w2 [evs [p [E1 [E2 H]]]]]].
  exists w1, w2, evs, p. split; [exact E1|]. split; [exact E2|].
  exact (proj1 H).
Defined.

(** The harvest of the example tile leaves requests for layers that had
    one, and none for colour layer 2. *)
Lemma example_no_new_request :
  exists w',
    serviceCompletedRequests Example.busy_world = Some w' /\
    incl (requestedLayers (tile w')) (requestedLayers (tile Example.busy_world)) /\
    ~ In (TileColorLayerRequest 2) (requestedLayers (tile w')).
Proof.
  destruct (serviceCompletedRequests Example.busy_world) as [w'|] eqn:E;
    [|vm_compute in E; discriminate].
  exists w'. split; [reflexivity|].
  assert (S : steps Example.still Example.busy_world ([] ++ []) w').
  { apply (steps_cons Example.still _ w'); [|apply steps_nil].
    apply (step_serviceCompleted Example.still). exact E. }
  destruct (no_request_created_after_installation Example.still
              Example.busy_world w' ([] ++ []) S eq_refl) as [_ [H1 H2]].
  split; [exact H1|]. apply H2. cbn. intuition discriminate.
Defined.

(** The example tile with its two requests Completed: the harvest
    empties the collection and nothing is handed over afterwards. *)
Lemma example_all_completed :
  exists w',
    serviceCompletedRequests Example.done_world = Some w' /\
    _requests (tile w') = [] /\
    forall tr w'', steps Example.still w' tr w'' -> submitted tr = [].
Proof.
  destruct (all_completed_then_done Example.still Example.done_world
              Example.terrain_with_service eq_refl eq_refl) as [w' [E [He [_ H]]]].
  - intros r [<-|[<-|[]]]; reflexivity.
  - exists w'. split; [exact E|]. split; [exact He|].
    intros tr w'' S. exact (proj2 (H tr w'' S)).
Defined.

(** The update pass over the example tile, which is in whole-tile mode
    and holds an elevation result: no incremental rebuild, and the
    geometry revision goes from 0 to 1. *)
Lemma example_update_pass_outcome :
  exists w',
    traverse Example.still UPDATE_VISITOR Example.busy_world = Some (w', []) /\
    _geometryRevision (tile w') = 1.
Proof.
  pose proof (update_pass_outcome Example.still Example.busy_world
                Example.terrain_with_service eq_refl eq_refl) as H.
  cbv zeta in H. destruct H as [w' [E [G _]]].
  exists w'. split; [exact E|exact G].
Defined.

(** At level 3: the elevation request and colour layer 0 tie, colour
    layer 1 comes before colour layer 2, and colour layer 10 ties with
    the elevation request of level 4. *)
Lemma example_priority_order :
  elevationPriority 3 = colorPriority 3 0 /\
  SFltb (colorPriority 3 1) (colorPriority 3 2) = true /\
  colorPriority 3 10 = elevationPriority 4.
Proof.
  destruct (priorities_order 3 1 ltac:(lia) ltac:(lia)) as [H1 [H2 [_ [H4 _]]]].
  split; [exact H1|]. split; [exact H2|exact H4].
Defined.

(** 1 January 2000 at 0h is the Julian date 2451544.5. *)
Lemma example_julian_date_2000 :
  Float.exactly (Ephemeris.getJulianDate 2000 1 1) 4903089 2 = true.
Proof.
  exact (getJulianDate_correct 2000 1 1 ltac:(lia) ltac:(lia)
           ltac:(vm_compute; split; discriminate)).
Defined.

(** 1 January 2000 is day 1 of the Moon's day count. *)
Lemma example_moon_day_2000 :
  Ephemeris.Moon_dayNumber 2000 1 1 = 1.
Proof.
  exact (proj1 (Moon_dayNumber_agrees_with_getJulianDate 2000 1 1
                  ltac:(lia) ltac:(lia) ltac:(vm_compute; split; discriminate)
                  eq_refl)).
Defined.

(** On 1 March 2100 the Moon's day number is 36586, a day more than the
    36585 days that have passed since 31 December 1999. *)
Lemma example_moon_day_2100 :
  Ephemeris.Moon_dayNumber 2100 3 1 = 36586 /\
  Ephemeris.days_since_1900 2100 3 1 - 36523 = 36585.
Proof.
  split; [|reflexivity].
  exact (proj1 (proj2 (Moon_dayNumber_slips_outside_its_range 2100 3 1
                         ltac:(lia) ltac:(lia) ltac:(vm_compute; split; discriminate)
                         eq_refl))).
Defined.
